(** * UmbraX Engine, module qe-renderer-vulkan: the native Vulkan renderer

    A shallow embedding of [VulkanRendererNative] (include/vulkan_renderer_native.h)
    and of its member functions.  The repository defines most member functions
    twice: once in vulkan_renderer_native.cpp and once more in one of the
    vk_*.cpp files.  Both bodies are embedded, the first in [Module Native], the
    second in a module named after its file ([VkDevice], [VkSwapchain],
    [VkBuffer], [VkTexture], [VkShader], [VkUtils], [VkInstance]).

    The Vulkan implementation is not part of the repository.  It is modelled by
    a [Driver]: a table of live objects, the list of commands issued so far,
    and a script of the results the implementation will give to forthcoming
    object-creating commands.  The renderer code is written in a state monad
    over [World] = renderer object + driver + Android log. *)

From Stdlib Require Import ZArith List String Ascii Bool Lia DecimalString Sorted Btauto.
From stdpp Require Import base option list gmap.
Import ListNotations.
Local Open Scope Z_scope.
Set Primitive Projections.

(** ** Machine integers and Vulkan constants *)

Definition uint32 (z : Z) : Z := z mod 2 ^ 32.
Definition uint64 (z : Z) : Z := z mod 2 ^ 64.
Definition UINT32_MAX : Z := 2 ^ 32 - 1.
Definition UINT64_MAX : Z := 2 ^ 64 - 1.
Definition VK_NULL_HANDLE : Z := 0.

(** Values of vulkan_core.h. *)
Definition VK_QUEUE_GRAPHICS_BIT : Z := 1.
Definition VK_QUEUE_COMPUTE_BIT : Z := 2.
Definition VK_QUEUE_TRANSFER_BIT : Z := 4.
Definition VK_FORMAT_UNDEFINED : Z := 0.
Definition VK_FORMAT_R8G8B8A8_UNORM : Z := 37.
Definition VK_FORMAT_B8G8R8A8_UNORM : Z := 44.
Definition VK_FORMAT_B8G8R8A8_SRGB : Z := 50.
Definition VK_COLOR_SPACE_SRGB_NONLINEAR_KHR : Z := 0.
Definition VK_PRESENT_MODE_MAILBOX_KHR : Z := 1.
Definition VK_PRESENT_MODE_FIFO_KHR : Z := 2.
Definition VK_MEMORY_PROPERTY_DEVICE_LOCAL_BIT : Z := 1.
Definition VK_MEMORY_PROPERTY_HOST_VISIBLE_BIT : Z := 2.
Definition VK_MEMORY_PROPERTY_HOST_COHERENT_BIT : Z := 4.
Definition VK_BUFFER_USAGE_TRANSFER_SRC_BIT : Z := 1.
Definition VK_BUFFER_USAGE_TRANSFER_DST_BIT : Z := 2.
Definition VK_BUFFER_USAGE_INDEX_BUFFER_BIT : Z := 64.
Definition VK_BUFFER_USAGE_VERTEX_BUFFER_BIT : Z := 128.
Definition VK_IMAGE_USAGE_TRANSFER_DST_BIT : Z := 2.
Definition VK_IMAGE_USAGE_SAMPLED_BIT : Z := 4.
Definition VK_PHYSICAL_DEVICE_TYPE_INTEGRATED_GPU : Z := 1.
Definition VK_PHYSICAL_DEVICE_TYPE_DISCRETE_GPU : Z := 2.
Definition VK_PHYSICAL_DEVICE_TYPE_VIRTUAL_GPU : Z := 3.
Definition VK_PHYSICAL_DEVICE_TYPE_CPU : Z := 4.

(** VK_MAKE_VERSION, VK_VERSION_MAJOR, VK_VERSION_MINOR, VK_VERSION_PATCH. *)
Definition VK_MAKE_VERSION (major minor patch : Z) : Z :=
  uint32 (Z.lor (Z.lor (Z.shiftl major 22) (Z.shiftl minor 12)) patch).
Definition VK_VERSION_MAJOR (version : Z) : Z := Z.shiftr version 22.
Definition VK_VERSION_MINOR (version : Z) : Z := Z.land (Z.shiftr version 12) 1023.
Definition VK_VERSION_PATCH (version : Z) : Z := Z.land version 4095.

Inductive VkResult := VK_SUCCESS | VK_ERROR.

Definition succeeded (r : VkResult) : bool :=
  match r with VK_SUCCESS => true | VK_ERROR => false end.

(** ** The platform: what the Vulkan implementation reports *)

Record VkPhysicalDeviceProperties := {
  apiVersion : Z;
  driverVersion : Z;
  vendorID : Z;
  deviceType : Z;
  deviceName : string;
  maxImageDimension2D : Z
}.

Record PhysicalDevice := {
  pd_handle : Z;
  pd_properties : VkPhysicalDeviceProperties;
  pd_queueFamilies : list Z;      (* queueFlags of each family *)
  pd_memoryTypes : list Z         (* propertyFlags of each memory type *)
}.

Record VkExtent2D := { width : Z; height : Z }.

Record VkSurfaceFormatKHR := { format : Z; colorSpace : Z }.

Record VkSurfaceCapabilitiesKHR := {
  minImageCount : Z;
  maxImageCount : Z;
  currentExtent : VkExtent2D;
  currentTransform : Z
}.

Record VkMemoryRequirements := { mr_size : Z; memoryTypeBits : Z }.

Record Platform := {
  physicalDevices : list PhysicalDevice;
  capabilities : VkSurfaceCapabilitiesKHR;
  surfaceFormats : list VkSurfaceFormatKHR;
  presentModes : list Z;
  swapchainImageCount : nat;       (* images a new swapchain is given *)
  bufferRequirements : Z -> VkMemoryRequirements;
  imageRequirements : Z -> Z -> VkMemoryRequirements
}.

(** ** Commands and the driver *)

Inductive ObjKind :=
| KInstance | KDevice | KSurface | KSwapchain | KImageView | KRenderPass
| KFramebuffer | KCommandPool | KCommandBuffer (pool : Z) | KSemaphore | KFence
| KDescriptorPool | KBuffer | KDeviceMemory | KImage | KSampler | KShaderModule.

#[global] Instance ObjKind_eq_dec : EqDecision ObjKind.
Proof. solve_decision. Defined.

(** The fields of the create-info structures that the renderer fills in with
    something other than a constant. *)
Inductive CreateInfo :=
| InstanceCreateInfo (apiVersion : Z)
| DeviceCreateInfo (physicalDevice : Z) (queueFamilyIndices : list Z)
| CommandPoolCreateInfo (queueFamilyIndex : Z)
| SemaphoreCreateInfo
| FenceCreateInfo (signaled : bool)
| DescriptorPoolCreateInfo (maxSets : Z)
| AndroidSurfaceCreateInfo (window : Z)
| SwapchainCreateInfo (surface minImageCount imageFormat : Z)
                      (imageExtent : VkExtent2D) (presentMode : Z)
| ImageViewCreateInfo (image format : Z)
| RenderPassCreateInfo (format : Z)
| FramebufferCreateInfo (renderPass attachment width height : Z)
| BufferCreateInfo (size usage : Z)
| MemoryAllocateInfo (allocationSize memoryTypeIndex : Z)
| ImageCreateInfo (width height format usage : Z)
| SamplerCreateInfo
| ShaderModuleCreateInfo (codeSize : Z).

Definition kind_of (info : CreateInfo) : ObjKind :=
  match info with
  | InstanceCreateInfo _ => KInstance
  | DeviceCreateInfo _ _ => KDevice
  | CommandPoolCreateInfo _ => KCommandPool
  | SemaphoreCreateInfo => KSemaphore
  | FenceCreateInfo _ => KFence
  | DescriptorPoolCreateInfo _ => KDescriptorPool
  | AndroidSurfaceCreateInfo _ => KSurface
  | SwapchainCreateInfo _ _ _ _ _ => KSwapchain
  | ImageViewCreateInfo _ _ => KImageView
  | RenderPassCreateInfo _ => KRenderPass
  | FramebufferCreateInfo _ _ _ _ => KFramebuffer
  | BufferCreateInfo _ _ => KBuffer
  | MemoryAllocateInfo _ _ => KDeviceMemory
  | ImageCreateInfo _ _ _ _ => KImage
  | SamplerCreateInfo => KSampler
  | ShaderModuleCreateInfo _ => KShaderModule
  end.

Inductive Command :=
| CmdCreate (info : CreateInfo) (result : VkResult) (object : Z)
| CmdDestroy (kind : ObjKind) (object : Z)
| CmdDeviceWaitIdle (device : Z)
| CmdQueueWaitIdle (queue : Z)
| CmdGetDeviceQueue (device queueFamilyIndex queue : Z)
| CmdWaitForFences (fence : Z)
| CmdResetFences (fence : Z)
| CmdAcquireNextImage (swapchain semaphore : Z) (result : VkResult) (index : Z)
| CmdQueueSubmit (queue : Z) (commandBuffers signalSemaphores : list Z) (fence : Z)
| CmdQueuePresent (queue waitSemaphore swapchain imageIndex : Z)
| CmdBindBufferMemory (buffer memory : Z)
| CmdBindImageMemory (image memory : Z)
| CmdWriteMemory (memory size : Z)
| CmdCopyBuffer (commandBuffer src dst size : Z)
| CmdAllocateCommandBuffers (commandPool : Z) (result : VkResult) (buffers : list Z)
| CmdFreeCommandBuffers (commandPool : Z) (buffers : list Z).

Record Driver := {
  platform : Platform;
  results : list VkResult;  (* results of the creating commands to come;
                               VK_SUCCESS once the list is used up *)
  acquired : list Z;        (* image indices the acquisitions to come report *)
  fresh : Z;                (* the next handle to hand out *)
  live : list (ObjKind * Z);(* objects created and not destroyed yet *)
  calls : list Command      (* commands issued, oldest first *)
}.

Definition boot (p : Platform) (script : list VkResult) (images : list Z) : Driver :=
  {| platform := p; results := script; acquired := images; fresh := 1;
     live := []; calls := [] |}.

(** ** The renderer object *)

Record Mesh := {
  vertexBuffer : Z; indexBuffer : Z; vertexMemory : Z; indexMemory : Z;
  indexCount : Z
}.

Record Texture := { image : Z; imageView : Z; sampler : Z; memory : Z }.

Record Shader := { module : Z; stage : Z }.

Record Pipeline := { pipeline : Z; layout : Z }.

(** The members of [VulkanRendererNative], in four groups.  The float and
    feature-structure members ([clearColor], [deviceFeatures], [rtFeatures],
    [meshShaderFeatures]) are read by no function embedded here and are left
    out. *)
Record DeviceMembers := {
  instance : Z; physicalDevice : Z; device : Z;
  graphicsQueue : Z; computeQueue : Z; transferQueue : Z;
  deviceProperties : VkPhysicalDeviceProperties;
  graphicsQueueFamily : Z; computeQueueFamily : Z; transferQueueFamily : Z
}.

Record SurfaceMembers := {
  surface : Z; swapchain : Z;
  swapchainImages : list Z; swapchainImageViews : list Z; framebuffers : list Z;
  renderPass : Z;
  swapchainExtent : VkExtent2D; swapchainFormat : Z
}.

Record FrameMembers := {
  commandPool : Z; computeCommandPool : Z; commandBuffers : list Z;
  imageAvailableSemaphore : Z; renderFinishedSemaphore : Z; inFlightFence : Z;
  descriptorPool : Z; descriptorSetLayout : Z;
  currentFrame : Z; imageIndex : Z
}.

Record ResourceMembers := {
  meshes : gmap Z Mesh; textures : gmap Z Texture;
  shaders : gmap Z Shader; pipelines : gmap Z Pipeline;
  nextResourceId : Z
}.

Record Renderer := {
  dev : DeviceMembers;
  pres : SurfaceMembers;
  frame : FrameMembers;
  res : ResourceMembers
}.

(** Assignment to one member. *)
Definition set_instance (v : Z) (d : DeviceMembers) : DeviceMembers :=
  {| instance := v; physicalDevice := physicalDevice d; device := device d;
     graphicsQueue := graphicsQueue d; computeQueue := computeQueue d;
     transferQueue := transferQueue d; deviceProperties := deviceProperties d;
     graphicsQueueFamily := graphicsQueueFamily d;
     computeQueueFamily := computeQueueFamily d;
     transferQueueFamily := transferQueueFamily d |}.
Definition set_physicalDevice (v : Z) (d : DeviceMembers) : DeviceMembers :=
  {| instance := instance d; physicalDevice := v; device := device d;
     graphicsQueue := graphicsQueue d; computeQueue := computeQueue d;
     transferQueue := transferQueue d; deviceProperties := deviceProperties d;
     graphicsQueueFamily := graphicsQueueFamily d;
     computeQueueFamily := computeQueueFamily d;
     transferQueueFamily := transferQueueFamily d |}.
Definition set_device (v : Z) (d : DeviceMembers) : DeviceMembers :=
  {| instance := instance d; physicalDevice := physicalDevice d; device := v;
     graphicsQueue := graphicsQueue d; computeQueue := computeQueue d;
     transferQueue := transferQueue d; deviceProperties := deviceProperties d;
     graphicsQueueFamily := graphicsQueueFamily d;
     computeQueueFamily := computeQueueFamily d;
     transferQueueFamily := transferQueueFamily d |}.
Definition set_graphicsQueue (v : Z) (d : DeviceMembers) : DeviceMembers :=
  {| instance := instance d; physicalDevice := physicalDevice d; device := device d;
     graphicsQueue := v; computeQueue := computeQueue d; transferQueue := transferQueue d;
     deviceProperties := deviceProperties d; graphicsQueueFamily := graphicsQueueFamily d;
     computeQueueFamily := computeQueueFamily d;
     transferQueueFamily := transferQueueFamily d |}.
Definition set_computeQueue (v : Z) (d : DeviceMembers) : DeviceMembers :=
  {| instance := instance d; physicalDevice := physicalDevice d; device := device d;
     graphicsQueue := graphicsQueue d; computeQueue := v; transferQueue := transferQueue d;
     deviceProperties := deviceProperties d; graphicsQueueFamily := graphicsQueueFamily d;
     computeQueueFamily := computeQueueFamily d;
     transferQueueFamily := transferQueueFamily d |}.
Definition set_transferQueue (v : Z) (d : DeviceMembers) : DeviceMembers :=
  {| instance := instance d; physicalDevice := physicalDevice d; device := device d;
     graphicsQueue := graphicsQueue d; computeQueue := computeQueue d; transferQueue := v;
     deviceProperties := deviceProperties d; graphicsQueueFamily := graphicsQueueFamily d;
     computeQueueFamily := computeQueueFamily d;
     transferQueueFamily := transferQueueFamily d |}.
Definition set_deviceProperties (v : VkPhysicalDeviceProperties) (d : DeviceMembers) : DeviceMembers :=
  {| instance := instance d; physicalDevice := physicalDevice d; device := device d;
     graphicsQueue := graphicsQueue d; computeQueue := computeQueue d;
     transferQueue := transferQueue d; deviceProperties := v;
     graphicsQueueFamily := graphicsQueueFamily d;
     computeQueueFamily := computeQueueFamily d;
     transferQueueFamily := transferQueueFamily d |}.
Definition set_graphicsQueueFamily (v : Z) (d : DeviceMembers) : DeviceMembers :=
  {| instance := instance d; physicalDevice := physicalDevice d; device := device d;
     graphicsQueue := graphicsQueue d; computeQueue := computeQueue d;
     transferQueue := transferQueue d; deviceProperties := deviceProperties d;
     graphicsQueueFamily := v; computeQueueFamily := computeQueueFamily d;
     transferQueueFamily := transferQueueFamily d |}.
Definition set_computeQueueFamily (v : Z) (d : DeviceMembers) : DeviceMembers :=
  {| instance := instance d; physicalDevice := physicalDevice d; device := device d;
     graphicsQueue := graphicsQueue d; computeQueue := computeQueue d;
     transferQueue := transferQueue d; deviceProperties := deviceProperties d;
     graphicsQueueFamily := graphicsQueueFamily d; computeQueueFamily := v;
     transferQueueFamily := transferQueueFamily d |}.
Definition set_transferQueueFamily (v : Z) (d : DeviceMembers) : DeviceMembers :=
  {| instance := instance d; physicalDevice := physicalDevice d; device := device d;
     graphicsQueue := graphicsQueue d; computeQueue := computeQueue d;
     transferQueue := transferQueue d; deviceProperties := deviceProperties d;
     graphicsQueueFamily := graphicsQueueFamily d;
     computeQueueFamily := computeQueueFamily d; transferQueueFamily := v |}.
Definition set_surface (v : Z) (p : SurfaceMembers) : SurfaceMembers :=
  {| surface := v; swapchain := swapchain p; swapchainImages := swapchainImages p;
     swapchainImageViews := swapchainImageViews p; framebuffers := framebuffers p;
     renderPass := renderPass p; swapchainExtent := swapchainExtent p;
     swapchainFormat := swapchainFormat p |}.
Definition set_swapchain (v : Z) (p : SurfaceMembers) : SurfaceMembers :=
  {| surface := surface p; swapchain := v; swapchainImages := swapchainImages p;
     swapchainImageViews := swapchainImageViews p; framebuffers := framebuffers p;
     renderPass := renderPass p; swapchainExtent := swapchainExtent p;
     swapchainFormat := swapchainFormat p |}.
Definition set_swapchainImages (v : list Z) (p : SurfaceMembers) : SurfaceMembers :=
  {| surface := surface p; swapchain := swapchain p; swapchainImages := v;
     swapchainImageViews := swapchainImageViews p; framebuffers := framebuffers p;
     renderPass := renderPass p; swapchainExtent := swapchainExtent p;
     swapchainFormat := swapchainFormat p |}.
Definition set_swapchainImageViews (v : list Z) (p : SurfaceMembers) : SurfaceMembers :=
  {| surface := surface p; swapchain := swapchain p; swapchainImages := swapchainImages p;
     swapchainImageViews := v; framebuffers := framebuffers p; renderPass := renderPass p;
     swapchainExtent := swapchainExtent p; swapchainFormat := swapchainFormat p |}.
Definition set_framebuffers (v : list Z) (p : SurfaceMembers) : SurfaceMembers :=
  {| surface := surface p; swapchain := swapchain p; swapchainImages := swapchainImages p;
     swapchainImageViews := swapchainImageViews p; framebuffers := v;
     renderPass := renderPass p; swapchainExtent := swapchainExtent p;
     swapchainFormat := swapchainFormat p |}.
Definition set_renderPass (v : Z) (p : SurfaceMembers) : SurfaceMembers :=
  {| surface := surface p; swapchain := swapchain p; swapchainImages := swapchainImages p;
     swapchainImageViews := swapchainImageViews p; framebuffers := framebuffers p;
     renderPass := v; swapchainExtent := swapchainExtent p;
     swapchainFormat := swapchainFormat p |}.
Definition set_swapchainExtent (v : VkExtent2D) (p : SurfaceMembers) : SurfaceMembers :=
  {| surface := surface p; swapchain := swapchain p; swapchainImages := swapchainImages p;
     swapchainImageViews := swapchainImageViews p; framebuffers := framebuffers p;
     renderPass := renderPass p; swapchainExtent := v;
     swapchainFormat := swapchainFormat p |}.
Definition set_swapchainFormat (v : Z) (p : SurfaceMembers) : SurfaceMembers :=
  {| surface := surface p; swapchain := swapchain p; swapchainImages := swapchainImages p;
     swapchainImageViews := swapchainImageViews p; framebuffers := framebuffers p;
     renderPass := renderPass p; swapchainExtent := swapchainExtent p;
     swapchainFormat := v |}.
Definition set_commandPool (v : Z) (f : FrameMembers) : FrameMembers :=
  {| commandPool := v; computeCommandPool := computeCommandPool f;
     commandBuffers := commandBuffers f;
     imageAvailableSemaphore := imageAvailableSemaphore f;
     renderFinishedSemaphore := renderFinishedSemaphore f;
     inFlightFence := inFlightFence f; descriptorPool := descriptorPool f;
     descriptorSetLayout := descriptorSetLayout f; currentFrame := currentFrame f;
     imageIndex := imageIndex f |}.
Definition set_computeCommandPool (v : Z) (f : FrameMembers) : FrameMembers :=
  {| commandPool := commandPool f; computeCommandPool := v;
     commandBuffers := commandBuffers f;
     imageAvailableSemaphore := imageAvailableSemaphore f;
     renderFinishedSemaphore := renderFinishedSemaphore f;
     inFlightFence := inFlightFence f; descriptorPool := descriptorPool f;
     descriptorSetLayout := descriptorSetLayout f; currentFrame := currentFrame f;
     imageIndex := imageIndex f |}.
Definition set_commandBuffers (v : list Z) (f : FrameMembers) : FrameMembers :=
  {| commandPool := commandPool f; computeCommandPool := computeCommandPool f;
     commandBuffers := v; imageAvailableSemaphore := imageAvailableSemaphore f;
     renderFinishedSemaphore := renderFinishedSemaphore f;
     inFlightFence := inFlightFence f; descriptorPool := descriptorPool f;
     descriptorSetLayout := descriptorSetLayout f; currentFrame := currentFrame f;
     imageIndex := imageIndex f |}.
Definition set_imageAvailableSemaphore (v : Z) (f : FrameMembers) : FrameMembers :=
  {| commandPool := commandPool f; computeCommandPool := computeCommandPool f;
     commandBuffers := commandBuffers f; imageAvailableSemaphore := v;
     renderFinishedSemaphore := renderFinishedSemaphore f;
     inFlightFence := inFlightFence f; descriptorPool := descriptorPool f;
     descriptorSetLayout := descriptorSetLayout f; currentFrame := currentFrame f;
     imageIndex := imageIndex f |}.
Definition set_renderFinishedSemaphore (v : Z) (f : FrameMembers) : FrameMembers :=
  {| commandPool := commandPool f; computeCommandPool := computeCommandPool f;
     commandBuffers := commandBuffers f;
     imageAvailableSemaphore := imageAvailableSemaphore f; renderFinishedSemaphore := v;
     inFlightFence := inFlightFence f; descriptorPool := descriptorPool f;
     descriptorSetLayout := descriptorSetLayout f; currentFrame := currentFrame f;
     imageIndex := imageIndex f |}.
Definition set_inFlightFence (v : Z) (f : FrameMembers) : FrameMembers :=
  {| commandPool := commandPool f; computeCommandPool := computeCommandPool f;
     commandBuffers := commandBuffers f;
     imageAvailableSemaphore := imageAvailableSemaphore f;
     renderFinishedSemaphore := renderFinishedSemaphore f; inFlightFence := v;
     descriptorPool := descriptorPool f; descriptorSetLayout := descriptorSetLayout f;
     currentFrame := currentFrame f; imageIndex := imageIndex f |}.
Definition set_descriptorPool (v : Z) (f : FrameMembers) : FrameMembers :=
  {| commandPool := commandPool f; computeCommandPool := computeCommandPool f;
     commandBuffers := commandBuffers f;
     imageAvailableSemaphore := imageAvailableSemaphore f;
     renderFinishedSemaphore := renderFinishedSemaphore f;
     inFlightFence := inFlightFence f; descriptorPool := v;
     descriptorSetLayout := descriptorSetLayout f; currentFrame := currentFrame f;
     imageIndex := imageIndex f |}.
Definition set_imageIndex (v : Z) (f : FrameMembers) : FrameMembers :=
  {| commandPool := commandPool f; computeCommandPool := computeCommandPool f;
     commandBuffers := commandBuffers f;
     imageAvailableSemaphore := imageAvailableSemaphore f;
     renderFinishedSemaphore := renderFinishedSemaphore f;
     inFlightFence := inFlightFence f; descriptorPool := descriptorPool f;
     descriptorSetLayout := descriptorSetLayout f; currentFrame := currentFrame f;
     imageIndex := v |}.
Definition set_meshes (v : gmap Z Mesh) (t : ResourceMembers) : ResourceMembers :=
  {| meshes := v; textures := textures t; shaders := shaders t; pipelines := pipelines t;
     nextResourceId := nextResourceId t |}.
Definition set_textures (v : gmap Z Texture) (t : ResourceMembers) : ResourceMembers :=
  {| meshes := meshes t; textures := v; shaders := shaders t; pipelines := pipelines t;
     nextResourceId := nextResourceId t |}.
Definition set_shaders (v : gmap Z Shader) (t : ResourceMembers) : ResourceMembers :=
  {| meshes := meshes t; textures := textures t; shaders := v; pipelines := pipelines t;
     nextResourceId := nextResourceId t |}.
Definition set_pipelines (v : gmap Z Pipeline) (t : ResourceMembers) : ResourceMembers :=
  {| meshes := meshes t; textures := textures t; shaders := shaders t; pipelines := v;
     nextResourceId := nextResourceId t |}.
Definition set_nextResourceId (v : Z) (t : ResourceMembers) : ResourceMembers :=
  {| meshes := meshes t; textures := textures t; shaders := shaders t;
     pipelines := pipelines t; nextResourceId := v |}.

Definition on_dev (f : DeviceMembers -> DeviceMembers) (r : Renderer) : Renderer :=
  {| dev := f (dev r); pres := pres r; frame := frame r; res := res r |}.
Definition on_pres (f : SurfaceMembers -> SurfaceMembers) (r : Renderer) : Renderer :=
  {| dev := dev r; pres := f (pres r); frame := frame r; res := res r |}.
Definition on_frame (f : FrameMembers -> FrameMembers) (r : Renderer) : Renderer :=
  {| dev := dev r; pres := pres r; frame := f (frame r); res := res r |}.
Definition on_res (f : ResourceMembers -> ResourceMembers) (r : Renderer) : Renderer :=
  {| dev := dev r; pres := pres r; frame := frame r; res := f (res r) |}.

(** ** The Android log *)

Inductive LogPriority := ANDROID_LOG_INFO | ANDROID_LOG_WARN | ANDROID_LOG_ERROR.

Record LogLine := {
  priority : LogPriority; tag : string; text : string; arguments : list Z
}.

(** ** The world and the monad of member functions *)

Record World := { renderer : Renderer; vk : Driver; logcat : list LogLine }.

Definition M (A : Type) : Type := World -> A * World.

Definition ret {A} (a : A) : M A := fun w => (a, w).
Definition bind {A B} (c : M A) (k : A -> M B) : M B :=
  fun w => let (a, w') := c w in k a w'.

Declare Scope vk_scope.
Delimit Scope vk_scope with vk.
Notation "x <- c ;; k" := (bind c (fun x => k))
  (at level 100, c at next level, right associativity) : vk_scope.
Notation "c ;; k" := (bind c (fun _ => k))
  (at level 100, right associativity) : vk_scope.
Local Open Scope vk_scope.

Definition exec {A} (c : M A) (w : World) : World := snd (c w).
Definition value {A} (c : M A) (w : World) : A := fst (c w).

Definition this : M Renderer := fun w => (renderer w, w).
Definition assign (f : Renderer -> Renderer) : M unit :=
  fun w => (tt, {| renderer := f (renderer w); vk := vk w; logcat := logcat w |}).
Definition driver {A} (f : Driver -> A * Driver) : M A :=
  fun w => let (a, d) := f (vk w) in
           (a, {| renderer := renderer w; vk := d; logcat := logcat w |}).
Definition log (p : LogPriority) (t fmt : string) (args : list Z) : M unit :=
  fun w => (tt, {| renderer := renderer w; vk := vk w;
                   logcat := logcat w ++
                     [{| priority := p; tag := t; text := fmt; arguments := args |}] |}).

Arguments log p (t fmt)%_string args.

(** [for (auto x : xs) body(x);] *)
Fixpoint for_each {A} (xs : list A) (body : A -> M unit) : M unit :=
  match xs with
  | [] => ret tt
  | x :: rest => body x ;; for_each rest body
  end.

(** ** Driver commands *)

Definition issue (c : Command) (d : Driver) : Driver :=
  {| platform := platform d; results := results d; acquired := acquired d;
     fresh := fresh d; live := live d; calls := calls d ++ [c] |}.

Definition next_result (d : Driver) : VkResult := hd VK_SUCCESS (results d).

(** A new swapchain comes with its images, which take the handles that follow
    its own. *)
Definition handles_taken (p : Platform) (info : CreateInfo) : Z :=
  match info with
  | SwapchainCreateInfo _ _ _ _ _ => 1 + Z.of_nat (swapchainImageCount p)
  | _ => 1
  end.

(** vkCreate*, vkAllocateMemory: on success a new object is live and its handle
    is written through the out pointer; on failure the pointee, [old], is left
    as it was. *)
Definition vkCreate (info : CreateInfo) (old : Z) : M (VkResult * Z) :=
  driver (fun d =>
    match next_result d with
    | VK_SUCCESS =>
        ((VK_SUCCESS, fresh d),
         {| platform := platform d; results := tl (results d); acquired := acquired d;
            fresh := fresh d + handles_taken (platform d) info;
            live := live d ++ [(kind_of info, fresh d)];
            calls := calls d ++ [CmdCreate info VK_SUCCESS (fresh d)] |})
    | VK_ERROR =>
        ((VK_ERROR, old),
         {| platform := platform d; results := tl (results d); acquired := acquired d;
            fresh := fresh d; live := live d;
            calls := calls d ++ [CmdCreate info VK_ERROR VK_NULL_HANDLE] |})
    end).

(** What a destroying command takes away: the object itself and, with a command
    pool, the command buffers allocated from it. *)
Definition is_object (k : ObjKind) (h : Z) (o : ObjKind * Z) : bool :=
  bool_decide (o = (k, h))
  || (bool_decide (k = KCommandPool) && bool_decide (fst o = KCommandBuffer h)).

(** vkDestroy*, vkFreeMemory.  Destroying VK_NULL_HANDLE is a valid command
    that does nothing. *)
Definition destroy (k : ObjKind) (h : Z) (d : Driver) : Driver :=
  {| platform := platform d; results := results d; acquired := acquired d;
     fresh := fresh d;
     live := List.filter (fun o => negb (is_object k h o)) (live d);
     calls := calls d ++ [CmdDestroy k h] |}.

Definition vkDestroy (k : ObjKind) (h : Z) : M unit :=
  driver (fun d => (tt, destroy k h d)).

Definition command (c : Command) : M unit := driver (fun d => (tt, issue c d)).

(** The out-parameter of a creating command is a member of the renderer. *)
Definition vkCreateInto (info : CreateInfo) (get : Renderer -> Z)
    (set : Z -> Renderer -> Renderer) : M VkResult :=
  r <- this ;;
  p <- vkCreate info (get r) ;;
  assign (set (snd p)) ;;
  ret (fst p).

Definition handles_from (first : Z) (count : nat) : list Z :=
  map (fun i => first + Z.of_nat i) (seq 0 count).

(** vkAllocateCommandBuffers: [count] buffers at once, or none. *)
Definition vkAllocateCommandBuffers (pool : Z) (count : nat) (old : list Z)
    : M (VkResult * list Z) :=
  driver (fun d =>
    match next_result d with
    | VK_SUCCESS =>
        let bufs := handles_from (fresh d) count in
        ((VK_SUCCESS, bufs),
         {| platform := platform d; results := tl (results d); acquired := acquired d;
            fresh := fresh d + Z.of_nat count;
            live := live d ++ map (fun h => (KCommandBuffer pool, h)) bufs;
            calls := calls d ++ [CmdAllocateCommandBuffers pool VK_SUCCESS bufs] |})
    | VK_ERROR =>
        ((VK_ERROR, old),
         {| platform := platform d; results := tl (results d); acquired := acquired d;
            fresh := fresh d; live := live d;
            calls := calls d ++ [CmdAllocateCommandBuffers pool VK_ERROR []] |})
    end).

Definition vkFreeCommandBuffers (pool : Z) (bufs : list Z) : M unit :=
  driver (fun d =>
    (tt, {| platform := platform d; results := results d; acquired := acquired d;
            fresh := fresh d;
            live := List.filter (fun o => negb (bool_decide (fst o = KCommandBuffer pool)
                                           && bool_decide (snd o ∈ bufs))) (live d);
            calls := calls d ++ [CmdFreeCommandBuffers pool bufs] |})).

(** vkAcquireNextImageKHR: the index is written on success only. *)
Definition vkAcquireNextImageKHR (sc sem old : Z) : M Z :=
  driver (fun d =>
    let idx := match next_result d with
               | VK_SUCCESS => uint32 (hd 0 (acquired d))
               | VK_ERROR => old
               end in
    (idx, {| platform := platform d; results := tl (results d);
             acquired := tl (acquired d); fresh := fresh d; live := live d;
             calls := calls d ++ [CmdAcquireNextImage sc sem (next_result d) idx] |})).

(** Queries. *)
Definition vkEnumeratePhysicalDevices : M (list PhysicalDevice) :=
  driver (fun d => (physicalDevices (platform d), d)).

Definition lookup_device (p : Platform) (h : Z) : option PhysicalDevice :=
  List.find (fun pd => pd_handle pd =? h) (physicalDevices p).

Definition vkGetPhysicalDeviceQueueFamilyProperties (h : Z) : M (list Z) :=
  driver (fun d =>
    (match lookup_device (platform d) h with
     | Some pd => pd_queueFamilies pd
     | None => []
     end, d)).

Definition vkGetPhysicalDeviceMemoryProperties (h : Z) : M (list Z) :=
  driver (fun d =>
    (match lookup_device (platform d) h with
     | Some pd => pd_memoryTypes pd
     | None => []
     end, d)).

Definition queue_handle (dev family : Z) : Z := - (dev * 2 ^ 32 + family + 1).

Definition vkGetDeviceQueue (dev family : Z) : M Z :=
  command (CmdGetDeviceQueue dev family (queue_handle dev family)) ;;
  ret (queue_handle dev family).

Definition vkGetSwapchainImagesKHR (sc : Z) : M (list Z) :=
  driver (fun d =>
    (if bool_decide ((KSwapchain, sc) ∈ live d)
     then handles_from (sc + 1) (swapchainImageCount (platform d))
     else [], d)).

Definition vkGetBufferMemoryRequirements (sz : Z) : M VkMemoryRequirements :=
  driver (fun d => (bufferRequirements (platform d) sz, d)).

Definition vkGetImageMemoryRequirements (w h : Z) : M VkMemoryRequirements :=
  driver (fun d => (imageRequirements (platform d) w h, d)).

(** [std::vector::resize] on a vector of handles. *)
Definition resize (n : nat) (v : list Z) : list Z :=
  take n v ++ replicate (n - length v) VK_NULL_HANDLE.

(** [return nextResourceId++;] on a [uint64_t]. *)
Definition take_resource_id : M Z :=
  r <- this ;;
  assign (on_res (set_nextResourceId (uint64 (nextResourceId (res r) + 1)))) ;;
  ret (nextResourceId (res r)).

(** ** Strings of the device report *)

Record VulkanInfo := {
  info_deviceName : string;
  info_apiVersion : string;
  info_driverVersion : string;
  info_vendorId : option Z;
  info_deviceType : string;
  info_maxTextureSize : option Z;
  info_supportsRayTracing : option bool;
  info_supportsMeshShaders : option bool
}.

(** The struct has no member initialisers and no constructor.  A string member
    is empty from the start; an [int] or [bool] member holds no value until it
    is assigned, and is [None] until then.

    A default-initialised [VulkanInfo], the local [VulkanInfo info;]: empty
    strings, and scalar members that are indeterminate. *)
Definition VulkanInfo_default : VulkanInfo :=
  {| info_deviceName := EmptyString; info_apiVersion := EmptyString;
     info_driverVersion := EmptyString; info_vendorId := None;
     info_deviceType := EmptyString; info_maxTextureSize := None;
     info_supportsRayTracing := None; info_supportsMeshShaders := None |}.

(** [std::to_string] on an unsigned value. *)
Definition to_string (n : Z) : string :=
  NilZero.string_of_uint (N.to_uint (Z.to_N n)).

(** Conversion of a [uint32_t] to [int]. *)
Definition int32 (z : Z) : Z := (z + 2 ^ 31) mod 2 ^ 32 - 2 ^ 31.

(** ** Loops that several files share *)

(** The scan of the queue families, the same loop in vulkan_renderer_native.cpp
    (lines 202-212) and in vk_device.cpp (lines 66-76). *)
Fixpoint scanQueueFamilies (queueFamilies : list Z) (i : Z) : M unit :=
  match queueFamilies with
  | [] => ret tt
  | queueFlags :: rest =>
      (if negb (Z.land queueFlags VK_QUEUE_GRAPHICS_BIT =? 0)
       then assign (on_dev (set_graphicsQueueFamily i)) else ret tt) ;;
      (if negb (Z.land queueFlags VK_QUEUE_COMPUTE_BIT =? 0)
       then assign (on_dev (set_computeQueueFamily i)) else ret tt) ;;
      (if negb (Z.land queueFlags VK_QUEUE_TRANSFER_BIT =? 0)
       then assign (on_dev (set_transferQueueFamily i)) else ret tt) ;;
      scanQueueFamilies rest (i + 1)
  end.

(** The loop of findMemoryType, the same in vulkan_renderer_native.cpp,
    vk_device.cpp and vk_utils.cpp; [None] when the loop runs to its end. *)
Fixpoint scanMemoryTypes (memoryTypes : list Z) (i typeFilter properties : Z)
    : option Z :=
  match memoryTypes with
  | [] => None
  | propertyFlags :: rest =>
      if negb (Z.land typeFilter (uint32 (Z.shiftl 1 i)) =? 0)
         && (Z.land propertyFlags properties =? properties)
      then Some i
      else scanMemoryTypes rest (i + 1) typeFilter properties
  end.

(** ** vulkan_renderer_native.cpp *)

Module Native.

Definition VK_API_VERSION_1_3 : Z := VK_MAKE_VERSION 1 3 0.

(** [VulkanRendererNative::VulkanRendererNative()].  [deviceProperties] has no
    initialiser; it is taken as zeroed. *)
Definition VulkanRendererNative : Renderer :=
  {| dev := {| instance := VK_NULL_HANDLE; physicalDevice := VK_NULL_HANDLE;
               device := VK_NULL_HANDLE; graphicsQueue := VK_NULL_HANDLE;
               computeQueue := VK_NULL_HANDLE; transferQueue := VK_NULL_HANDLE;
               deviceProperties :=
                 {| apiVersion := 0; driverVersion := 0; vendorID := 0; deviceType := 0;
                    deviceName := EmptyString; maxImageDimension2D := 0 |};
               graphicsQueueFamily := UINT32_MAX; computeQueueFamily := UINT32_MAX;
               transferQueueFamily := UINT32_MAX |};
     pres := {| surface := VK_NULL_HANDLE; swapchain := VK_NULL_HANDLE;
                swapchainImages := []; swapchainImageViews := []; framebuffers := [];
                renderPass := VK_NULL_HANDLE;
                swapchainExtent := {| width := 0; height := 0 |};
                swapchainFormat := VK_FORMAT_UNDEFINED |};
     frame := {| commandPool := VK_NULL_HANDLE; computeCommandPool := VK_NULL_HANDLE;
                 commandBuffers := [];
                 imageAvailableSemaphore := VK_NULL_HANDLE;
                 renderFinishedSemaphore := VK_NULL_HANDLE;
                 inFlightFence := VK_NULL_HANDLE;
                 descriptorPool := VK_NULL_HANDLE; descriptorSetLayout := VK_NULL_HANDLE;
                 currentFrame := 0; imageIndex := 0 |};
     res := {| meshes := ∅; textures := ∅; shaders := ∅; pipelines := ∅;
               nextResourceId := 1 |} |}.

Definition LOGI : string -> list Z -> M unit :=
  log ANDROID_LOG_INFO "VulkanRendererNative".
Definition LOGE : string -> list Z -> M unit :=
  log ANDROID_LOG_ERROR "VulkanRendererNative".
Arguments LOGI fmt%_string args.
Arguments LOGE fmt%_string args.
Local Open Scope string_scope.
Local Open Scope Z_scope.

(** [initialize], over its six steps: three of them are defined in two files. *)
Definition initialize_with (createInstance pickPhysicalDevice createLogicalDevice
    createCommandPools createSyncObjects createDescriptorPool : M bool) : M bool :=
  LOGI "Initializing Vulkan Renderer" [] ;;
  ok <- createInstance ;;
  if negb ok then LOGE "Failed to create Vulkan instance" [] ;; ret false else
  ok <- pickPhysicalDevice ;;
  if negb ok then LOGE "Failed to pick physical device" [] ;; ret false else
  ok <- createLogicalDevice ;;
  if negb ok then LOGE "Failed to create logical device" [] ;; ret false else
  ok <- createCommandPools ;;
  if negb ok then LOGE "Failed to create command pools" [] ;; ret false else
  ok <- createSyncObjects ;;
  if negb ok then LOGE "Failed to create sync objects" [] ;; ret false else
  ok <- createDescriptorPool ;;
  if negb ok then LOGE "Failed to create descriptor pool" [] ;; ret false else
  LOGI "Vulkan Renderer initialized successfully" [] ;;
  ret true.

(** [shutdown], over [destroySwapchain]. *)
Definition shutdown_with (destroySwapchain : M unit) : M unit :=
  r <- this ;;
  (if negb (device (dev r) =? VK_NULL_HANDLE) then
     command (CmdDeviceWaitIdle (device (dev r))) ;;
     assign (on_res (set_meshes ∅)) ;;
     assign (on_res (set_textures ∅)) ;;
     assign (on_res (set_shaders ∅)) ;;
     assign (on_res (set_pipelines ∅)) ;;
     (if negb (inFlightFence (frame r) =? VK_NULL_HANDLE) then
        vkDestroy KFence (inFlightFence (frame r)) ;;
        assign (on_frame (set_inFlightFence VK_NULL_HANDLE))
      else ret tt) ;;
     (if negb (renderFinishedSemaphore (frame r) =? VK_NULL_HANDLE) then
        vkDestroy KSemaphore (renderFinishedSemaphore (frame r)) ;;
        assign (on_frame (set_renderFinishedSemaphore VK_NULL_HANDLE))
      else ret tt) ;;
     (if negb (imageAvailableSemaphore (frame r) =? VK_NULL_HANDLE) then
        vkDestroy KSemaphore (imageAvailableSemaphore (frame r)) ;;
        assign (on_frame (set_imageAvailableSemaphore VK_NULL_HANDLE))
      else ret tt) ;;
     destroySwapchain ;;
     (if negb (descriptorPool (frame r) =? VK_NULL_HANDLE) then
        vkDestroy KDescriptorPool (descriptorPool (frame r)) ;;
        assign (on_frame (set_descriptorPool VK_NULL_HANDLE))
      else ret tt) ;;
     (if negb (commandPool (frame r) =? VK_NULL_HANDLE) then
        vkDestroy KCommandPool (commandPool (frame r)) ;;
        assign (on_frame (set_commandPool VK_NULL_HANDLE))
      else ret tt) ;;
     (if negb (computeCommandPool (frame r) =? VK_NULL_HANDLE) then
        vkDestroy KCommandPool (computeCommandPool (frame r)) ;;
        assign (on_frame (set_computeCommandPool VK_NULL_HANDLE))
      else ret tt) ;;
     vkDestroy KDevice (device (dev r)) ;;
     assign (on_dev (set_device VK_NULL_HANDLE))
   else ret tt) ;;
  r <- this ;;
  (if negb (surface (pres r) =? VK_NULL_HANDLE) then
     vkDestroy KSurface (surface (pres r)) ;;
     assign (on_pres (set_surface VK_NULL_HANDLE))
   else ret tt) ;;
  (if negb (instance (dev r) =? VK_NULL_HANDLE) then
     vkDestroy KInstance (instance (dev r)) ;;
     assign (on_dev (set_instance VK_NULL_HANDLE))
   else ret tt).

Definition createInstance : M bool :=
  result <- vkCreateInto (InstanceCreateInfo VK_API_VERSION_1_3)
              (fun r => instance (dev r)) (fun h => on_dev (set_instance h)) ;;
  if negb (succeeded result) then LOGE "vkCreateInstance failed: %d" [] ;; ret false
  else ret true.

Definition pickPhysicalDevice : M bool :=
  devices <- vkEnumeratePhysicalDevices ;;
  if (length devices =? 0)%nat then LOGE "No Vulkan devices found" [] ;; ret false else
  match devices with
  | d :: _ =>
      assign (on_dev (set_deviceProperties (pd_properties d))) ;;
      assign (on_dev (set_physicalDevice (pd_handle d))) ;;
      LOGI "Selected device: %s" [] ;;
      ret true
  | [] => LOGE "No suitable device found" [] ;; ret false
  end.

Definition createLogicalDevice : M bool :=
  r <- this ;;
  queueFamilies <- vkGetPhysicalDeviceQueueFamilyProperties (physicalDevice (dev r)) ;;
  scanQueueFamilies queueFamilies 0 ;;
  r <- this ;;
  if graphicsQueueFamily (dev r) =? UINT32_MAX
  then LOGE "No graphics queue family found" [] ;; ret false else
  (if computeQueueFamily (dev r) =? UINT32_MAX
   then assign (on_dev (set_computeQueueFamily (graphicsQueueFamily (dev r))))
   else ret tt) ;;
  (if transferQueueFamily (dev r) =? UINT32_MAX
   then assign (on_dev (set_transferQueueFamily (graphicsQueueFamily (dev r))))
   else ret tt) ;;
  result <- vkCreateInto
              (DeviceCreateInfo (physicalDevice (dev r)) [graphicsQueueFamily (dev r)])
              (fun r => device (dev r)) (fun h => on_dev (set_device h)) ;;
  if negb (succeeded result) then LOGE "Failed to create logical device" [] ;; ret false else
  r <- this ;;
  q <- vkGetDeviceQueue (device (dev r)) (graphicsQueueFamily (dev r)) ;;
  assign (on_dev (set_graphicsQueue q)) ;;
  assign (on_dev (set_computeQueue q)) ;;
  assign (on_dev (set_transferQueue q)) ;;
  ret true.

Definition createCommandPools : M bool :=
  r <- this ;;
  result <- vkCreateInto (CommandPoolCreateInfo (graphicsQueueFamily (dev r)))
              (fun r => commandPool (frame r)) (fun h => on_frame (set_commandPool h)) ;;
  if negb (succeeded result) then ret false else
  result <- vkCreateInto (CommandPoolCreateInfo (computeQueueFamily (dev r)))
              (fun r => computeCommandPool (frame r))
              (fun h => on_frame (set_computeCommandPool h)) ;;
  if negb (succeeded result) then ret false else
  ret true.

Definition createSyncObjects : M bool :=
  r1 <- vkCreateInto SemaphoreCreateInfo (fun r => imageAvailableSemaphore (frame r))
          (fun h => on_frame (set_imageAvailableSemaphore h)) ;;
  if negb (succeeded r1) then ret false else
  r2 <- vkCreateInto SemaphoreCreateInfo (fun r => renderFinishedSemaphore (frame r))
          (fun h => on_frame (set_renderFinishedSemaphore h)) ;;
  if negb (succeeded r2) then ret false else
  r3 <- vkCreateInto (FenceCreateInfo true) (fun r => inFlightFence (frame r))
          (fun h => on_frame (set_inFlightFence h)) ;;
  if negb (succeeded r3) then ret false else
  ret true.

Definition createDescriptorPool : M bool :=
  result <- vkCreateInto (DescriptorPoolCreateInfo 100)
              (fun r => descriptorPool (frame r)) (fun h => on_frame (set_descriptorPool h)) ;;
  ret (succeeded result).

Definition initialize : M bool :=
  initialize_with createInstance pickPhysicalDevice createLogicalDevice
    createCommandPools createSyncObjects createDescriptorPool.

(** The loop of [createSwapchain] over the swapchain images (lines 358-375); the
    result of vkCreateImageView is not looked at. *)
Fixpoint createImageViews (images : list Z) (i : nat) : M unit :=
  match images with
  | [] => ret tt
  | img :: rest =>
      r <- this ;;
      p <- vkCreate (ImageViewCreateInfo img (swapchainFormat (pres r)))
             (nth i (swapchainImageViews (pres r)) VK_NULL_HANDLE) ;;
      assign (on_pres (set_swapchainImageViews
                         (<[i := snd p]> (swapchainImageViews (pres r))))) ;;
      createImageViews rest (S i)
  end.

Definition createSwapchain : M bool :=
  assign (on_pres (set_swapchainFormat VK_FORMAT_B8G8R8A8_UNORM)) ;;
  r <- this ;;
  result <- vkCreateInto
              (SwapchainCreateInfo (surface (pres r)) 2 (swapchainFormat (pres r))
                 (swapchainExtent (pres r)) VK_PRESENT_MODE_FIFO_KHR)
              (fun r => swapchain (pres r)) (fun h => on_pres (set_swapchain h)) ;;
  if negb (succeeded result) then ret false else
  r <- this ;;
  images <- vkGetSwapchainImagesKHR (swapchain (pres r)) ;;
  assign (on_pres (set_swapchainImages images)) ;;
  assign (on_pres (set_swapchainImageViews
                     (resize (length images) (swapchainImageViews (pres r))))) ;;
  createImageViews images 0 ;;
  ret true.

Definition createRenderPass : M bool :=
  r <- this ;;
  result <- vkCreateInto (RenderPassCreateInfo (swapchainFormat (pres r)))
              (fun r => renderPass (pres r)) (fun h => on_pres (set_renderPass h)) ;;
  ret (succeeded result).

(** The loop of [createFramebuffers] (lines 413-428): it stops at the first
    failure. *)
Fixpoint createFramebuffers_from (views : list Z) (i : nat) : M bool :=
  match views with
  | [] => ret true
  | view :: rest =>
      r <- this ;;
      p <- vkCreate (FramebufferCreateInfo (renderPass (pres r)) view
                       (width (swapchainExtent (pres r)))
                       (height (swapchainExtent (pres r))))
             (nth i (framebuffers (pres r)) VK_NULL_HANDLE) ;;
      assign (on_pres (set_framebuffers (<[i := snd p]> (framebuffers (pres r))))) ;;
      if negb (succeeded (fst p)) then ret false
      else createFramebuffers_from rest (S i)
  end.

Definition createFramebuffers : M bool :=
  r <- this ;;
  assign (on_pres (set_framebuffers
                     (resize (length (swapchainImageViews (pres r)))
                        (framebuffers (pres r))))) ;;
  createFramebuffers_from (swapchainImageViews (pres r)) 0.

Definition createCommandBuffers : M bool :=
  r <- this ;;
  let resized := resize (length (framebuffers (pres r))) (commandBuffers (frame r)) in
  assign (on_frame (set_commandBuffers resized)) ;;
  p <- vkAllocateCommandBuffers (commandPool (frame r)) (length resized) resized ;;
  assign (on_frame (set_commandBuffers (snd p))) ;;
  ret (succeeded (fst p)).

(** [setSurface], over [createSwapchain]. *)
Definition setSurface_with (createSwapchain : M bool) (window w h : Z) : M unit :=
  LOGI "Setting surface: %dx%d" [w; h] ;;
  result <- vkCreateInto (AndroidSurfaceCreateInfo window)
              (fun r => surface (pres r)) (fun s => on_pres (set_surface s)) ;;
  if negb (succeeded result) then LOGE "Failed to create Android surface" [] else
  assign (on_pres (set_swapchainExtent {| width := uint32 w; height := uint32 h |})) ;;
  createSwapchain ;;
  createRenderPass ;;
  createFramebuffers ;;
  createCommandBuffers ;;
  ret tt.

Definition setSurface := setSurface_with createSwapchain.

Definition destroySwapchain : M unit :=
  r <- this ;;
  for_each (framebuffers (pres r)) (vkDestroy KFramebuffer) ;;
  assign (on_pres (set_framebuffers [])) ;;
  for_each (swapchainImageViews (pres r)) (vkDestroy KImageView) ;;
  assign (on_pres (set_swapchainImageViews [])) ;;
  (if negb (renderPass (pres r) =? VK_NULL_HANDLE) then
     vkDestroy KRenderPass (renderPass (pres r)) ;;
     assign (on_pres (set_renderPass VK_NULL_HANDLE))
   else ret tt) ;;
  (if negb (swapchain (pres r) =? VK_NULL_HANDLE) then
     vkDestroy KSwapchain (swapchain (pres r)) ;;
     assign (on_pres (set_swapchain VK_NULL_HANDLE))
   else ret tt).

Definition shutdown : M unit := shutdown_with destroySwapchain.

Definition beginFrame : M unit :=
  r <- this ;;
  command (CmdWaitForFences (inFlightFence (frame r))) ;;
  command (CmdResetFences (inFlightFence (frame r))) ;;
  idx <- vkAcquireNextImageKHR (swapchain (pres r)) (imageAvailableSemaphore (frame r))
           (imageIndex (frame r)) ;;
  assign (on_frame (set_imageIndex idx)).

Definition endFrame : M unit :=
  r <- this ;;
  command (CmdQueuePresent (graphicsQueue (dev r)) (renderFinishedSemaphore (frame r))
             (swapchain (pres r)) (imageIndex (frame r))).

(** The four resource functions of this file give out an identifier and do
    nothing else. *)
Definition loadMesh (vertexCount indexCount normalCount uvCount : Z) : M Z :=
  take_resource_id.
Definition loadTexture (w h fmt : Z) : M Z := take_resource_id.
Definition compileShader (codeSize stg : Z) : M Z := take_resource_id.
Definition createGraphicsPipeline (vertexShader fragmentShader : Z) : M Z :=
  take_resource_id.

(** [recreateSwapchain], over the two functions that vk_swapchain.cpp defines
    again. *)
Definition recreateSwapchain_with (destroySwapchain : M unit) (createSwapchain : M bool)
    : M unit :=
  r <- this ;;
  command (CmdDeviceWaitIdle (device (dev r))) ;;
  destroySwapchain ;;
  createSwapchain ;;
  createRenderPass ;;
  createFramebuffers ;;
  createCommandBuffers ;;
  ret tt.

Definition recreateSwapchain : M unit :=
  recreateSwapchain_with destroySwapchain createSwapchain.

Definition getVulkanInfo (r : Renderer) : VulkanInfo :=
  let props := deviceProperties (dev r) in
  let apiVer := apiVersion props in
  {| info_deviceName := deviceName props;
     info_apiVersion :=
       String.append (to_string (VK_VERSION_MAJOR apiVer))
         (String.append "." (String.append (to_string (VK_VERSION_MINOR apiVer))
            (String.append "." (to_string (VK_VERSION_PATCH apiVer)))));
     info_driverVersion := to_string (driverVersion props);
     info_vendorId := Some (int32 (vendorID props));
     info_deviceType :=
       if deviceType props =? VK_PHYSICAL_DEVICE_TYPE_DISCRETE_GPU then "Discrete GPU"
       else if deviceType props =? VK_PHYSICAL_DEVICE_TYPE_INTEGRATED_GPU
            then "Integrated GPU"
       else "Other";
     info_maxTextureSize := Some (int32 (maxImageDimension2D props));
     info_supportsRayTracing := Some false;
     info_supportsMeshShaders := Some false |}.

Definition findMemoryType (typeFilter properties : Z) : M Z :=
  r <- this ;;
  memoryTypes <- vkGetPhysicalDeviceMemoryProperties (physicalDevice (dev r)) ;;
  match scanMemoryTypes memoryTypes 0 typeFilter properties with
  | Some i => ret i
  | None => ret 0
  end.

(** [buffer] and [memory] stand for the two reference parameters: their values
    at entry go in, their values at exit come out. *)
Definition createBuffer (sz usage properties : Z) (buffer memory : Z) : M (Z * Z) :=
  b <- vkCreate (BufferCreateInfo sz usage) buffer ;;
  memRequirements <- vkGetBufferMemoryRequirements sz ;;
  idx <- findMemoryType (memoryTypeBits memRequirements) properties ;;
  m <- vkCreate (MemoryAllocateInfo (mr_size memRequirements) idx) memory ;;
  command (CmdBindBufferMemory (snd b) (snd m)) ;;
  ret (snd b, snd m).

(** [commandBuffer] has no initialiser: vkAllocateCommandBuffers gives it its
    value, the null handle when the allocation fails. *)
Definition copyBuffer (srcBuffer dstBuffer sz : Z) : M unit :=
  r <- this ;;
  p <- vkAllocateCommandBuffers (commandPool (frame r)) 1 [VK_NULL_HANDLE] ;;
  let commandBuffer := hd VK_NULL_HANDLE (snd p) in
  command (CmdCopyBuffer commandBuffer srcBuffer dstBuffer sz) ;;
  command (CmdQueueSubmit (transferQueue (dev r)) [commandBuffer] [] VK_NULL_HANDLE) ;;
  command (CmdQueueWaitIdle (transferQueue (dev r))) ;;
  vkFreeCommandBuffers (commandPool (frame r)) [commandBuffer].

End Native.

(** ** vk_instance.cpp *)

Module VkInstance.

Definition LOGI : string -> list Z -> M unit := log ANDROID_LOG_INFO "VulkanInstance".
Definition LOGE : string -> list Z -> M unit := log ANDROID_LOG_ERROR "VulkanInstance".
Arguments LOGI fmt%_string args.
Arguments LOGE fmt%_string args.

Definition createInstance : M bool :=
  LOGI "Creating Vulkan instance" [] ;;
  result <- vkCreateInto (InstanceCreateInfo Native.VK_API_VERSION_1_3)
              (fun r => instance (dev r)) (fun h => on_dev (set_instance h)) ;;
  if negb (succeeded result)
  then LOGE "Failed to create Vulkan instance: %d" [] ;; ret false
  else LOGI "Vulkan instance created successfully" [] ;; ret true.

End VkInstance.

(** ** vk_device.cpp *)

Module VkDevice.

Definition LOGI : string -> list Z -> M unit := log ANDROID_LOG_INFO "VulkanDevice".
Definition LOGE : string -> list Z -> M unit := log ANDROID_LOG_ERROR "VulkanDevice".
Arguments LOGI fmt%_string args.
Arguments LOGE fmt%_string args.

Definition pickPhysicalDevice : M bool :=
  LOGI "Picking physical device" [] ;;
  devices <- vkEnumeratePhysicalDevices ;;
  if (length devices =? 0)%nat
  then LOGE "Failed to find GPUs with Vulkan support" [] ;; ret false else
  match devices with
  | d :: _ =>
      LOGI "Found device: %s" [] ;;
      assign (on_dev (set_physicalDevice (pd_handle d))) ;;
      assign (on_dev (set_deviceProperties (pd_properties d))) ;;
      ret true
  | [] => LOGE "Failed to find suitable GPU" [] ;; ret false
  end.

(** Insertion into a [std::set<uint32_t>], kept as an increasing list. *)
Fixpoint set_insert (x : Z) (s : list Z) : list Z :=
  match s with
  | [] => [x]
  | y :: rest =>
      if x <? y then x :: s
      else if x =? y then s
      else y :: set_insert x rest
  end.

(** [family != UINT32_MAX ? family : graphicsQueueFamily] *)
Definition family_or_graphics (family graphics : Z) : Z :=
  if negb (family =? UINT32_MAX) then family else graphics.

Definition createLogicalDevice : M bool :=
  LOGI "Creating logical device" [] ;;
  r <- this ;;
  queueFamilies <- vkGetPhysicalDeviceQueueFamilyProperties (physicalDevice (dev r)) ;;
  assign (on_dev (set_graphicsQueueFamily UINT32_MAX)) ;;
  assign (on_dev (set_computeQueueFamily UINT32_MAX)) ;;
  assign (on_dev (set_transferQueueFamily UINT32_MAX)) ;;
  scanQueueFamilies queueFamilies 0 ;;
  r <- this ;;
  let g := graphicsQueueFamily (dev r) in
  let c := family_or_graphics (computeQueueFamily (dev r)) g in
  let t := family_or_graphics (transferQueueFamily (dev r)) g in
  if g =? UINT32_MAX
  then LOGE "Failed to find graphics queue family" [] ;; ret false else
  let uniqueQueueFamilies := set_insert t (set_insert c (set_insert g [])) in
  result <- vkCreateInto (DeviceCreateInfo (physicalDevice (dev r)) uniqueQueueFamilies)
              (fun r => device (dev r)) (fun h => on_dev (set_device h)) ;;
  if negb (succeeded result) then LOGE "Failed to create logical device" [] ;; ret false else
  r <- this ;;
  q <- vkGetDeviceQueue (device (dev r)) g ;;
  assign (on_dev (set_graphicsQueue q)) ;;
  q <- vkGetDeviceQueue (device (dev r)) c ;;
  assign (on_dev (set_computeQueue q)) ;;
  q <- vkGetDeviceQueue (device (dev r)) t ;;
  assign (on_dev (set_transferQueue q)) ;;
  LOGI "Logical device created successfully" [] ;;
  ret true.

Definition findMemoryType (typeFilter properties : Z) : M Z :=
  r <- this ;;
  memoryTypes <- vkGetPhysicalDeviceMemoryProperties (physicalDevice (dev r)) ;;
  match scanMemoryTypes memoryTypes 0 typeFilter properties with
  | Some i => ret i
  | None => LOGE "Failed to find suitable memory type" [] ;; ret 0
  end.

End VkDevice.

(** ** vk_swapchain.cpp *)

Module VkSwapchain.

Definition LOGI : string -> list Z -> M unit := log ANDROID_LOG_INFO "VulkanSwapchain".
Definition LOGE : string -> list Z -> M unit := log ANDROID_LOG_ERROR "VulkanSwapchain".
Arguments LOGI fmt%_string args.
Arguments LOGE fmt%_string args.

(** [formats[0]], then the first B8G8R8A8_SRGB / SRGB_NONLINEAR entry if there is
    one.  Indexing an empty vector is undefined; a zeroed format stands for it. *)
Definition chooseSurfaceFormat (formats : list VkSurfaceFormatKHR) : VkSurfaceFormatKHR :=
  match List.find (fun f => (format f =? VK_FORMAT_B8G8R8A8_SRGB)
                            && (colorSpace f =? VK_COLOR_SPACE_SRGB_NONLINEAR_KHR))
                  formats with
  | Some f => f
  | None => hd {| format := 0; colorSpace := 0 |} formats
  end.

Definition choosePresentMode (modes : list Z) : Z :=
  match List.find (fun m => m =? VK_PRESENT_MODE_MAILBOX_KHR) modes with
  | Some m => m
  | None => VK_PRESENT_MODE_FIFO_KHR
  end.

Definition chooseImageCount (caps : VkSurfaceCapabilitiesKHR) : Z :=
  let imageCount := uint32 (minImageCount caps + 1) in
  if (0 <? maxImageCount caps) && (maxImageCount caps <? imageCount)
  then maxImageCount caps else imageCount.

(** The loop over the swapchain images (lines 84-104): it stops at the first
    failure. *)
Fixpoint createImageViews (images : list Z) (i : nat) : M bool :=
  match images with
  | [] => ret true
  | img :: rest =>
      r <- this ;;
      p <- vkCreate (ImageViewCreateInfo img (swapchainFormat (pres r)))
             (nth i (swapchainImageViews (pres r)) VK_NULL_HANDLE) ;;
      assign (on_pres (set_swapchainImageViews
                         (<[i := snd p]> (swapchainImageViews (pres r))))) ;;
      if negb (succeeded (fst p)) then LOGE "Failed to create image view" [] ;; ret false
      else createImageViews rest (S i)
  end.

Definition createSwapchain : M bool :=
  LOGI "Creating swapchain" [] ;;
  caps <- driver (fun d => (capabilities (platform d), d)) ;;
  formats <- driver (fun d => (surfaceFormats (platform d), d)) ;;
  modes <- driver (fun d => (presentModes (platform d), d)) ;;
  let surfaceFormat := chooseSurfaceFormat formats in
  assign (on_pres (set_swapchainFormat (format surfaceFormat))) ;;
  let presentMode := choosePresentMode modes in
  (if negb (width (currentExtent caps) =? UINT32_MAX)
   then assign (on_pres (set_swapchainExtent (currentExtent caps))) else ret tt) ;;
  let imageCount := chooseImageCount caps in
  r <- this ;;
  result <- vkCreateInto
              (SwapchainCreateInfo (surface (pres r)) imageCount (swapchainFormat (pres r))
                 (swapchainExtent (pres r)) presentMode)
              (fun r => swapchain (pres r)) (fun h => on_pres (set_swapchain h)) ;;
  if negb (succeeded result) then LOGE "Failed to create swapchain" [] ;; ret false else
  r <- this ;;
  images <- vkGetSwapchainImagesKHR (swapchain (pres r)) ;;
  assign (on_pres (set_swapchainImages images)) ;;
  assign (on_pres (set_swapchainImageViews
                     (resize (length images) (swapchainImageViews (pres r))))) ;;
  ok <- createImageViews images 0 ;;
  if negb ok then ret false else
  LOGI "Swapchain created successfully with %d images" [Z.of_nat (length images)] ;;
  ret true.

Definition destroySwapchain : M unit :=
  r <- this ;;
  for_each (swapchainImageViews (pres r)) (vkDestroy KImageView) ;;
  assign (on_pres (set_swapchainImageViews [])) ;;
  (if negb (swapchain (pres r) =? VK_NULL_HANDLE) then
     vkDestroy KSwapchain (swapchain (pres r)) ;;
     assign (on_pres (set_swapchain VK_NULL_HANDLE))
   else ret tt).

Definition recreateSwapchain : M unit :=
  r <- this ;;
  command (CmdDeviceWaitIdle (device (dev r))) ;;
  destroySwapchain ;;
  r <- this ;;
  for_each (framebuffers (pres r)) (vkDestroy KFramebuffer) ;;
  assign (on_pres (set_framebuffers [])) ;;
  createSwapchain ;;
  Native.createFramebuffers ;;
  ret tt.

End VkSwapchain.

(** ** vk_buffer.cpp *)

Module VkBuffer.

Definition LOGI : string -> list Z -> M unit := log ANDROID_LOG_INFO "VulkanBuffer".
Definition LOGE : string -> list Z -> M unit := log ANDROID_LOG_ERROR "VulkanBuffer".
Arguments LOGI fmt%_string args.
Arguments LOGE fmt%_string args.

(** [createBuffer], over [findMemoryType], which other files define.  [buffer]
    and [memory] stand for the two reference parameters. *)
Definition createBuffer_with (findMemoryType : Z -> Z -> M Z)
    (sz usage properties : Z) (buffer memory : Z) : M (Z * Z) :=
  b <- vkCreate (BufferCreateInfo sz usage) buffer ;;
  if negb (succeeded (fst b))
  then LOGE "Failed to create buffer" [] ;; ret (snd b, memory) else
  memRequirements <- vkGetBufferMemoryRequirements sz ;;
  idx <- findMemoryType (memoryTypeBits memRequirements) properties ;;
  m <- vkCreate (MemoryAllocateInfo (mr_size memRequirements) idx) memory ;;
  if negb (succeeded (fst m))
  then LOGE "Failed to allocate buffer memory" [] ;; ret (snd b, snd m) else
  command (CmdBindBufferMemory (snd b) (snd m)) ;;
  ret (snd b, snd m).

Definition createBuffer := createBuffer_with VkDevice.findMemoryType.

(** [commandBuffer] has no initialiser: vkAllocateCommandBuffers gives it its
    value, the null handle when the allocation fails. *)
Definition copyBuffer (srcBuffer dstBuffer sz : Z) : M unit :=
  r <- this ;;
  p <- vkAllocateCommandBuffers (commandPool (frame r)) 1 [VK_NULL_HANDLE] ;;
  let commandBuffer := hd VK_NULL_HANDLE (snd p) in
  command (CmdCopyBuffer commandBuffer srcBuffer dstBuffer sz) ;;
  command (CmdQueueSubmit (graphicsQueue (dev r)) [commandBuffer] [] VK_NULL_HANDLE) ;;
  command (CmdQueueWaitIdle (graphicsQueue (dev r))) ;;
  vkFreeCommandBuffers (commandPool (frame r)) [commandBuffer].

(** Host data goes through a staging buffer: vkMapMemory, memcpy, vkUnmapMemory. *)
Definition stage_in (stagingBufferMemory bufferSize : Z) : M unit :=
  command (CmdWriteMemory stagingBufferMemory bufferSize).

(** [loadMesh], over [createBuffer]; the arrays themselves play no part in what
    is embedded, their lengths do.

    [stagingBuffer] and [stagingBufferMemory] have no initialiser.  The first
    [createBuffer] gives them a value when it creates the buffer and allocates
    its memory; where it does not, the code goes on to read variables that hold
    no value, and to copy through a pointer that holds none: from there on the
    language leaves its behaviour undefined.  [loadMesh_defined] tells the
    calls that stay clear of this; they never read the null handles that the
    two variables start with here. *)
Definition loadMesh_with (createBuffer : Z -> Z -> Z -> Z -> Z -> M (Z * Z))
    (vertexCount indexCount normalCount uvCount : Z) : M Z :=
  LOGI "Loading mesh: %d vertices, %d indices" [Z.quot vertexCount 3; indexCount] ;;
  let bufferSize := uint64 (vertexCount * 4) in
  staging <- createBuffer bufferSize VK_BUFFER_USAGE_TRANSFER_SRC_BIT
               (Z.lor VK_MEMORY_PROPERTY_HOST_VISIBLE_BIT
                      VK_MEMORY_PROPERTY_HOST_COHERENT_BIT)
               VK_NULL_HANDLE VK_NULL_HANDLE ;;
  stage_in (snd staging) bufferSize ;;
  vertex <- createBuffer bufferSize
              (Z.lor VK_BUFFER_USAGE_TRANSFER_DST_BIT VK_BUFFER_USAGE_VERTEX_BUFFER_BIT)
              VK_MEMORY_PROPERTY_DEVICE_LOCAL_BIT VK_NULL_HANDLE VK_NULL_HANDLE ;;
  copyBuffer (fst staging) (fst vertex) bufferSize ;;
  vkDestroy KBuffer (fst staging) ;;
  vkDestroy KDeviceMemory (snd staging) ;;
  let bufferSize := uint64 (indexCount * 4) in
  staging <- createBuffer bufferSize VK_BUFFER_USAGE_TRANSFER_SRC_BIT
               (Z.lor VK_MEMORY_PROPERTY_HOST_VISIBLE_BIT
                      VK_MEMORY_PROPERTY_HOST_COHERENT_BIT)
               (fst staging) (snd staging) ;;
  stage_in (snd staging) bufferSize ;;
  index <- createBuffer bufferSize
             (Z.lor VK_BUFFER_USAGE_TRANSFER_DST_BIT VK_BUFFER_USAGE_INDEX_BUFFER_BIT)
             VK_MEMORY_PROPERTY_DEVICE_LOCAL_BIT VK_NULL_HANDLE VK_NULL_HANDLE ;;
  copyBuffer (fst staging) (fst index) bufferSize ;;
  vkDestroy KBuffer (fst staging) ;;
  vkDestroy KDeviceMemory (snd staging) ;;
  let mesh := {| vertexBuffer := fst vertex; indexBuffer := fst index;
                 vertexMemory := snd vertex; indexMemory := snd index;
                 indexCount := uint32 indexCount |} in
  handle <- take_resource_id ;;
  r <- this ;;
  assign (on_res (set_meshes (<[handle := mesh]> (meshes (res r))))) ;;
  LOGI "Mesh loaded successfully with handle: %llu" [handle] ;;
  ret handle.

Definition loadMesh := loadMesh_with createBuffer.

(** The calls of [loadMesh] whose behaviour is defined: the first two creating
    commands, the staging buffer and its memory, succeed. *)
Definition loadMesh_defined (w : World) : bool :=
  succeeded (nth 0 (results (vk w)) VK_SUCCESS)
  && succeeded (nth 1 (results (vk w)) VK_SUCCESS).

End VkBuffer.

(** ** vk_texture.cpp *)

Module VkTexture.

Definition LOGI : string -> list Z -> M unit := log ANDROID_LOG_INFO "VulkanTexture".
Definition LOGE : string -> list Z -> M unit := log ANDROID_LOG_ERROR "VulkanTexture".
Arguments LOGI fmt%_string args.
Arguments LOGE fmt%_string args.

(** [loadTexture], over [findMemoryType].  The pixel array is read nowhere in
    the function; [w], [h] and [fmt] are its three [int] parameters. *)
Definition loadTexture_with (findMemoryType : Z -> Z -> M Z) (w h fmt : Z) : M Z :=
  LOGI "Loading texture: %dx%d, format: %d" [w; h; fmt] ;;
  img <- vkCreate (ImageCreateInfo (uint32 w) (uint32 h) VK_FORMAT_R8G8B8A8_UNORM
                     (Z.lor VK_IMAGE_USAGE_TRANSFER_DST_BIT VK_IMAGE_USAGE_SAMPLED_BIT))
           VK_NULL_HANDLE ;;
  if negb (succeeded (fst img)) then LOGE "Failed to create image" [] ;; ret 0 else
  memRequirements <- vkGetImageMemoryRequirements (uint32 w) (uint32 h) ;;
  idx <- findMemoryType (memoryTypeBits memRequirements)
           VK_MEMORY_PROPERTY_DEVICE_LOCAL_BIT ;;
  mem <- vkCreate (MemoryAllocateInfo (mr_size memRequirements) idx) VK_NULL_HANDLE ;;
  if negb (succeeded (fst mem)) then LOGE "Failed to allocate image memory" [] ;; ret 0 else
  command (CmdBindImageMemory (snd img) (snd mem)) ;;
  view <- vkCreate (ImageViewCreateInfo (snd img) VK_FORMAT_R8G8B8A8_UNORM)
            VK_NULL_HANDLE ;;
  if negb (succeeded (fst view)) then LOGE "Failed to create image view" [] ;; ret 0 else
  smp <- vkCreate SamplerCreateInfo VK_NULL_HANDLE ;;
  if negb (succeeded (fst smp)) then LOGE "Failed to create sampler" [] ;; ret 0 else
  let texture := {| image := snd img; imageView := snd view; sampler := snd smp;
                    memory := snd mem |} in
  handle <- take_resource_id ;;
  r <- this ;;
  assign (on_res (set_textures (<[handle := texture]> (textures (res r))))) ;;
  LOGI "Texture loaded successfully with handle: %llu" [handle] ;;
  ret handle.

Definition loadTexture := loadTexture_with VkDevice.findMemoryType.

End VkTexture.

(** ** vk_shader.cpp *)

Module VkShader.

Definition LOGI : string -> list Z -> M unit := log ANDROID_LOG_INFO "VulkanShader".
Definition LOGE : string -> list Z -> M unit := log ANDROID_LOG_ERROR "VulkanShader".
Arguments LOGI fmt%_string args.
Arguments LOGE fmt%_string args.

(** [stg] is the [int] parameter; the member it goes into is a
    [VkShaderStageFlagBits], an enumeration without negative enumerators, which
    the compiler stores as an [unsigned int]: the cast wraps a negative stage. *)
Definition compileShader (codeSize stg : Z) : M Z :=
  LOGI "Compiling shader" [] ;;
  m <- vkCreate (ShaderModuleCreateInfo (uint64 codeSize)) VK_NULL_HANDLE ;;
  if negb (succeeded (fst m)) then LOGE "Failed to create shader module" [] ;; ret 0 else
  let shader := {| module := snd m; stage := uint32 stg |} in
  handle <- take_resource_id ;;
  r <- this ;;
  assign (on_res (set_shaders (<[handle := shader]> (shaders (res r))))) ;;
  ret handle.

End VkShader.

(** ** vk_utils.cpp *)

Module VkUtils.

Definition LOGE : string -> list Z -> M unit := log ANDROID_LOG_ERROR "VulkanUtils".
Arguments LOGE fmt%_string args.

Definition findMemoryType (typeFilter properties : Z) : M Z :=
  r <- this ;;
  memoryTypes <- vkGetPhysicalDeviceMemoryProperties (physicalDevice (dev r)) ;;
  match scanMemoryTypes memoryTypes 0 typeFilter properties with
  | Some i => ret i
  | None => LOGE "Failed to find suitable memory type" [] ;; ret 0
  end.

Local Open Scope string_scope.
Local Open Scope Z_scope.

(** The value [getVulkanInfo] returns; its two log lines are left out, the
    function being [const]. *)
Definition getVulkanInfo (r : Renderer) : VulkanInfo :=
  if physicalDevice (dev r) =? VK_NULL_HANDLE then VulkanInfo_default else
  let props := deviceProperties (dev r) in
  let apiVer := apiVersion props in
  {| info_deviceName := deviceName props;
     info_apiVersion :=
       String.append (to_string (VK_VERSION_MAJOR apiVer))
         (String.append "." (String.append (to_string (VK_VERSION_MINOR apiVer))
            (String.append "." (to_string (VK_VERSION_PATCH apiVer)))));
     info_driverVersion := to_string (driverVersion props);
     info_vendorId := Some (int32 (vendorID props));
     info_deviceType :=
       if deviceType props =? VK_PHYSICAL_DEVICE_TYPE_DISCRETE_GPU then "Discrete GPU"
       else if deviceType props =? VK_PHYSICAL_DEVICE_TYPE_INTEGRATED_GPU
            then "Integrated GPU"
       else if deviceType props =? VK_PHYSICAL_DEVICE_TYPE_VIRTUAL_GPU then "Virtual GPU"
       else if deviceType props =? VK_PHYSICAL_DEVICE_TYPE_CPU then "CPU"
       else "Other";
     info_maxTextureSize := Some (int32 (maxImageDimension2D props));
     info_supportsRayTracing := Some false;
     info_supportsMeshShaders := Some false |}.

End VkUtils.

(** ** Vocabulary of the statements *)

(** The commands a member function issued: what [after] has beyond [before]. *)
Definition issued (before after : World) : list Command :=
  drop (length (calls (vk before))) (calls (vk after)).

Definition is_destroy (c : Command) : bool :=
  match c with
  | CmdDestroy _ _ | CmdFreeCommandBuffers _ _ => true
  | _ => false
  end.

Definition is_submit (c : Command) : bool :=
  match c with CmdQueueSubmit _ _ _ _ => true | _ => false end.

Definition is_failure (c : Command) : bool :=
  match c with
  | CmdCreate _ VK_ERROR _ | CmdAllocateCommandBuffers _ VK_ERROR _ => true
  | _ => false
  end.

(** [c] leaves the part [proj] of the world as it was. *)
Definition stable {A T} (proj : World -> T) (c : M A) : Prop :=
  forall w, proj (exec c w) = proj w.

(** [c] adds elements to the list [proj] of the world, all of them in [P], and
    takes none away. *)
Definition grows {A X} (proj : World -> list X) (P : X -> Prop) (c : M A) : Prop :=
  forall w, exists l, proj (exec c w) = proj w ++ l /\ Forall P l.

(** [c] issues commands that are all in [P]. *)
Definition emits {A} (P : Command -> Prop) (c : M A) : Prop :=
  grows (fun w => calls (vk w)) P c.

(** A command that destroys or frees nothing. *)
Definition creates (c : Command) : Prop := is_destroy c = false.

(** The destruction of the object [h], when there is one. *)
Definition when_set (h : Z) (c : Command) : list Command :=
  if h =? VK_NULL_HANDLE then [] else [c].

(** The presentation members as [destroySwapchain] of
    vulkan_renderer_native.cpp leaves them. *)
Definition torn_down (p : SurfaceMembers) : SurfaceMembers :=
  set_swapchain VK_NULL_HANDLE
    (set_renderPass VK_NULL_HANDLE
       (set_swapchainImageViews [] (set_framebuffers [] p))).

(** The objects that the commands [cs] have created. *)
Definition created_by (cs : list Command) : list (ObjKind * Z) :=
  flat_map (fun c =>
    match c with
    | CmdCreate info VK_SUCCESS h => [(kind_of info, h)]
    | CmdAllocateCommandBuffers pool VK_SUCCESS bufs =>
        map (fun h => (KCommandBuffer pool, h)) bufs
    | _ => []
    end) cs.

(** What a function that returns a handle does to the identifier counter:
    either it returns the counter and moves it on by one, or it returns the
    sentinel after a creating command has failed and leaves the counter. *)
Definition hands_out (c : M Z) : Prop :=
  forall w,
    let n := nextResourceId (res (renderer w)) in
    (value c w = n /\ nextResourceId (res (renderer (exec c w))) = uint64 (n + 1)) \/
    (value c w = 0 /\ nextResourceId (res (renderer (exec c w))) = n /\
     existsb is_failure (issued w (exec c w)) = true).

(** Queue family [i] offers the capability [bit]. *)
Definition offers (bit : Z) (queueFamilies : list Z) (i : nat) : Prop :=
  exists queueFlags, queueFamilies !! i = Some queueFlags /\ Z.land queueFlags bit <> 0.

Definition first_offering (bit : Z) (queueFamilies : list Z) (i : nat) : Prop :=
  offers bit queueFamilies i /\ forall j, (j < i)%nat -> ~ offers bit queueFamilies j.

Definition last_offering (bit : Z) (queueFamilies : list Z) (i : nat) : Prop :=
  offers bit queueFamilies i /\ forall j, (i < j)%nat -> ~ offers bit queueFamilies j.

(** What queue-family discovery leaves in a family member: the index of the
    last family that offers [bit], or [fallback] when no family does. *)
Definition discovered (bit : Z) (queueFamilies : list Z) (fallback family : Z) : Prop :=
  (exists i, last_offering bit queueFamilies i /\ family = Z.of_nat i) \/
  ((forall i, ~ offers bit queueFamilies i) /\ family = fallback).

(** The scan of one capability, as a function: [acc] is the member's value
    before family [i] is looked at. *)
Fixpoint last_family (bit : Z) (queueFamilies : list Z) (i acc : Z) : Z :=
  match queueFamilies with
  | [] => acc
  | queueFlags :: rest =>
      last_family bit rest (i + 1) (if negb (Z.land queueFlags bit =? 0) then i else acc)
  end.

(** Memory type [i] passes the filter and has all the required property bits. *)
Definition suitable (memoryTypes : list Z) (typeFilter properties : Z) (i : nat) : Prop :=
  Z.testbit typeFilter (Z.of_nat i) = true /\
  exists propertyFlags,
    memoryTypes !! i = Some propertyFlags /\ Z.land propertyFlags properties = properties.

Definition first_suitable (memoryTypes : list Z) (typeFilter properties : Z) (i : nat)
    : Prop :=
  suitable memoryTypes typeFilter properties i /\
  forall j, (j < i)%nat -> ~ suitable memoryTypes typeFilter properties j.

(** The queue families and memory types of the physical device the renderer
    has picked. *)
Definition families_of (w : World) : list Z :=
  value (vkGetPhysicalDeviceQueueFamilyProperties (physicalDevice (dev (renderer w)))) w.

Definition memory_types_of (w : World) : list Z :=
  value (vkGetPhysicalDeviceMemoryProperties (physicalDevice (dev (renderer w)))) w.

(** The queue families of the physical device that is enumerated first. *)
Definition first_device_families (p : Platform) : list Z :=
  match physicalDevices p with
  | pd :: _ => pd_queueFamilies pd
  | [] => []
  end.

(** A renderer as its constructor leaves it, in front of some driver. *)
Definition constructed (d : Driver) : World :=
  {| renderer := Native.VulkanRendererNative; vk := d; logcat := [] |}.

(** A call of one of the four functions that return a resource handle:
    [loadMesh], [loadTexture] and [compileShader] as vk_buffer.cpp,
    vk_texture.cpp and vk_shader.cpp define them, [createGraphicsPipeline] as
    vulkan_renderer_native.cpp does. *)
Inductive ResourceCall :=
| LoadMesh (vertexCount indexCount normalCount uvCount : Z)
| LoadTexture (w h fmt : Z)
| CompileShader (codeSize stg : Z)
| CreateGraphicsPipeline (vertexShader fragmentShader : Z).

Definition perform (c : ResourceCall) : M Z :=
  match c with
  | LoadMesh vertexCount indexCount normalCount uvCount =>
      VkBuffer.loadMesh vertexCount indexCount normalCount uvCount
  | LoadTexture w h fmt => VkTexture.loadTexture w h fmt
  | CompileShader codeSize stg => VkShader.compileShader codeSize stg
  | CreateGraphicsPipeline vs fs => Native.createGraphicsPipeline vs fs
  end.

(** The calls of [cs] one after the other.  For each call: the handle it
    returned, and whether a creating command failed while it ran. *)
Fixpoint perform_all (cs : list ResourceCall) (w : World) : list (Z * bool) :=
  match cs with
  | [] => []
  | c :: rest =>
      (value (perform c) w, existsb is_failure (issued w (exec (perform c) w)))
      :: perform_all rest (exec (perform c) w)
  end.

(** The handles that are not the sentinel. *)
Definition issued_handles (outcome : list (Z * bool)) : list Z :=
  List.filter (fun h => negb (h =? 0)) (map fst outcome).

(** The construction sequence that [setSurface] runs once the surface exists,
    and that [recreateSwapchain] runs after the teardown. *)
Definition build_presentation : M unit :=
  Native.createSwapchain ;;
  Native.createRenderPass ;;
  Native.createFramebuffers ;;
  Native.createCommandBuffers ;;
  ret tt.

(** A dotted version string. *)
Definition dotted (major minor patch : Z) : string :=
  String.append (to_string major)
    (String.append "." (String.append (to_string minor)
       (String.append "." (to_string patch)))).

Definition has_dot (s : string) : Prop := In "."%char (list_ascii_of_string s).

(** ** A small platform for the examples *)

Definition sample_device : PhysicalDevice :=
  {| pd_handle := 77;
     pd_properties :=
       {| apiVersion := VK_MAKE_VERSION 1 3 250; driverVersion := VK_MAKE_VERSION 1 2 3;
          vendorID := 5045; deviceType := VK_PHYSICAL_DEVICE_TYPE_INTEGRATED_GPU;
          deviceName := "Mali"; maxImageDimension2D := 8192 |};
     pd_queueFamilies := [7; 1; 4];
     pd_memoryTypes := [1; 6] |}.

Definition sample_platform : Platform :=
  {| physicalDevices := [sample_device];
     capabilities :=
       {| minImageCount := 2; maxImageCount := 3;
          currentExtent := {| width := 800; height := 600 |}; currentTransform := 1 |};
     surfaceFormats := [{| format := VK_FORMAT_B8G8R8A8_UNORM; colorSpace := 0 |}];
     presentModes := [VK_PRESENT_MODE_FIFO_KHR];
     swapchainImageCount := 3;
     bufferRequirements := fun sz => {| mr_size := sz; memoryTypeBits := 3 |};
     imageRequirements := fun w h => {| mr_size := w * h * 4; memoryTypeBits := 1 |} |}.

(** A new renderer in front of a driver that answers with [script]. *)
Definition sample_world (script : list VkResult) : World :=
  constructed (boot sample_platform script [1; 2; 0]).

(** The same after [initialize], and after [setSurface] on top. *)
Definition sample_ready (script : list VkResult) : World :=
  exec Native.initialize (sample_world script).

Definition sample_attached : World :=
  exec (Native.setSurface 5 800 600) (sample_ready []).

(** ** vk_compute.cpp *)

Module VkCompute.

Definition LOGI : string -> list Z -> M unit := log ANDROID_LOG_INFO "VulkanCompute".
Arguments LOGI fmt%_string args.

Definition dispatchCompute (computeShader groupsX groupsY groupsZ : Z) : M unit :=
  LOGI "Dispatching compute: %dx%dx%d" [groupsX; groupsY; groupsZ].

Definition supportsRayTracing : M bool := ret false.

Definition traceRays (raygenShader missShader hitShader w h : Z) : M unit :=
  LOGI "Tracing rays: %dx%d" [w; h].

End VkCompute.

(** ** vulkan_renderer_native.cpp: the destructor and the empty members *)

Module NativeRest.

(** [VulkanRendererNative::~VulkanRendererNative()] *)
Definition destructor : M unit := Native.shutdown.

Definition submitMesh (meshHandle : Z) : M unit := ret tt.
Definition setViewport (x y w h : Z) : M unit := ret tt.
Definition dispatchCompute (computeShader groupsX groupsY groupsZ : Z) : M unit := ret tt.
Definition supportsRayTracing : M bool := ret false.
Definition traceRays (raygenShader missShader hitShader w h : Z) : M unit := ret tt.

End NativeRest.

(** ** vulkan_jni.cpp

    The entry points that Java calls on a renderer it has created.  [handle] is
    the address of the renderer object; the functions are embedded for the
    object of the world, the one [handle] points to.  Arrays come in as their
    lengths, the only thing the member functions embedded here use of them. *)

Module JNI.

Definition LOGI : string -> list Z -> M unit := log ANDROID_LOG_INFO "VulkanJNI".
Definition LOGE : string -> list Z -> M unit := log ANDROID_LOG_ERROR "VulkanJNI".
Arguments LOGI fmt%_string args.
Arguments LOGE fmt%_string args.

(** [static_cast<jlong>] of a [uint64_t], and the conversion of a [jlong]
    argument to a [uint64_t] parameter. *)
Definition jlong_of_uint64 (h : Z) : Z := (h + 2 ^ 63) mod 2 ^ 64 - 2 ^ 63.
Definition uint64_of_jlong (j : Z) : Z := j mod 2 ^ 64.

Definition nativeInitialize : M bool :=
  LOGI "Initializing Vulkan" [] ;;
  success <- Native.initialize ;;
  (if negb success then LOGE "Failed to initialize Vulkan" [] else ret tt) ;;
  ret success.

Definition nativeDestroy : M unit :=
  LOGI "Destroying VulkanRenderer" [] ;;
  NativeRest.destructor.

(** [window] is what ANativeWindow_fromSurface returned, null when it failed. *)
Definition nativeSetSurface (window width height : Z) : M unit :=
  LOGI "Setting surface: %dx%d" [width; height] ;;
  if negb (window =? 0) then Native.setSurface window width height
  else LOGE "Failed to get native window from surface" [].

Definition nativeBeginFrame : M unit := Native.beginFrame.
Definition nativeEndFrame : M unit := Native.endFrame.

(** The four loaders, over the member function each of them calls: three of
    these are defined in two files. *)
Definition nativeLoadMesh_with (loadMesh : Z -> Z -> Z -> Z -> M Z)
    (vertexCount indexCount normalCount uvCount : Z) : M Z :=
  meshHandle <- loadMesh vertexCount indexCount normalCount uvCount ;;
  ret (jlong_of_uint64 meshHandle).

Definition nativeLoadTexture_with (loadTexture : Z -> Z -> Z -> M Z)
    (width height format : Z) : M Z :=
  texHandle <- loadTexture width height format ;;
  ret (jlong_of_uint64 texHandle).

Definition nativeCompileShader_with (compileShader : Z -> Z -> M Z)
    (codeSize stage : Z) : M Z :=
  shaderHandle <- compileShader codeSize stage ;;
  ret (jlong_of_uint64 shaderHandle).

Definition nativeCreateGraphicsPipeline (vertexShader fragmentShader : Z) : M Z :=
  pipelineHandle <- Native.createGraphicsPipeline (uint64_of_jlong vertexShader)
                      (uint64_of_jlong fragmentShader) ;;
  ret (jlong_of_uint64 pipelineHandle).

Definition nativeSubmitMesh (meshHandle : Z) : M unit :=
  NativeRest.submitMesh (uint64_of_jlong meshHandle).

End JNI.

(** ** Vocabulary of the further statements *)

(** [c] keeps the property [I] of the world. *)
Definition keeps {A} (I : World -> Prop) (c : M A) : Prop :=
  forall w, I w -> I (exec c w).

(** The creation of an image view in the format [fmt], or some other command. *)
Definition view_in_format (fmt : Z) (c : Command) : Prop :=
  forall img f result object, c = CmdCreate (ImageViewCreateInfo img f) result object -> f = fmt.

(** The surface format the Android compositor is asked for first. *)
Definition srgb_nonlinear : VkSurfaceFormatKHR :=
  {| format := VK_FORMAT_B8G8R8A8_SRGB; colorSpace := VK_COLOR_SPACE_SRGB_NONLINEAR_KHR |}.

(** The result the driver gives to the [k]-th creating command from now. *)
Definition result_at (k : nat) (w : World) : VkResult :=
  nth k (results (vk w)) VK_SUCCESS.

(** A driver whose handles to come are new: no live object has one of them. *)
Definition sound (d : Driver) : Prop :=
  Forall (fun o => snd o < fresh d) (live d).

(** [o] is the object [h] of kind [k], destroyed by a command that is issued
    when [h] is not null. *)
Definition holds (k : ObjKind) (h : Z) (o : ObjKind * Z) : bool :=
  negb (h =? VK_NULL_HANDLE) && is_object k h o.

(** [o] is one of the objects [hs] of kind [k]. *)
Definition among (k : ObjKind) (hs : list Z) (o : ObjKind * Z) : bool :=
  existsb (fun h => is_object k h o) hs.

(** The objects that [destroySwapchain] of vulkan_renderer_native.cpp destroys:
    those the presentation members hold. *)
Definition presentation_objects (p : SurfaceMembers) (o : ObjKind * Z) : bool :=
  among KFramebuffer (framebuffers p) o
  || among KImageView (swapchainImageViews p) o
  || holds KRenderPass (renderPass p) o
  || holds KSwapchain (swapchain p) o.

(** The objects that [shutdown] destroys: those the members hold, the ones of
    the device only when there is a device; with a command pool go the command
    buffers allocated from it. *)
Definition released (r : Renderer) (o : ObjKind * Z) : bool :=
  negb (device (dev r) =? VK_NULL_HANDLE)
  && (holds KFence (inFlightFence (frame r)) o
      || holds KSemaphore (renderFinishedSemaphore (frame r)) o
      || holds KSemaphore (imageAvailableSemaphore (frame r)) o
      || presentation_objects (pres r) o
      || holds KDescriptorPool (descriptorPool (frame r)) o
      || holds KCommandPool (commandPool (frame r)) o
      || holds KCommandPool (computeCommandPool (frame r)) o
      || is_object KDevice (device (dev r)) o)
  || holds KSurface (surface (pres r)) o
  || holds KInstance (instance (dev r)) o.

(** A kind of object that stands behind a mesh, a texture or a shader. *)
Definition resource_kind (k : ObjKind) : bool :=
  match k with
  | KBuffer | KDeviceMemory | KImage | KSampler | KShaderModule => true
  | _ => false
  end.

(** A command that destroys no object behind a mesh, a texture or a shader. *)
Definition spares_resources (c : Command) : Prop :=
  match c with
  | CmdDestroy k _ => resource_kind k = false
  | _ => True
  end.

(** A renderer with a device and a command pool that holds every live object
    in one of its members, in front of a driver whose handles are positive and
    whose handles to come are new. *)
Definition tidy (w : World) : Prop :=
  device (dev (renderer w)) <> VK_NULL_HANDLE /\
  commandPool (frame (renderer w)) <> VK_NULL_HANDLE /\
  0 < fresh (vk w) /\
  Forall (fun o => 0 < snd o < fresh (vk w) /\ released (renderer w) o = true)
    (live (vk w)).

(** Presentation members that hold nothing, but for the surface. *)
Definition unbuilt (p : SurfaceMembers) : Prop :=
  swapchain p = VK_NULL_HANDLE /\ swapchainImageViews p = [] /\
  framebuffers p = [] /\ renderPass p = VK_NULL_HANDLE.

(** What is done with a renderer between [setSurface] and [shutdown]. *)
Inductive Use := UseBeginFrame | UseEndFrame | UseRecreateSwapchain.

Definition use (u : Use) : M unit :=
  match u with
  | UseBeginFrame => Native.beginFrame
  | UseEndFrame => Native.endFrame
  | UseRecreateSwapchain => Native.recreateSwapchain
  end.

(** [c] returns the identifier counter, moves it on by one and registers under
    the handle it returns a mesh of [count] indices; it changes nothing else in
    the renderer. *)
Definition registers_mesh (count : Z) (c : M Z) : Prop :=
  forall w,
    let r := renderer w in
    let r' := renderer (exec c w) in
    let handle := nextResourceId (res r) in
    value c w = handle /\
    (exists mesh, meshes (res r') = <[handle := mesh]> (meshes (res r)) /\
                  indexCount mesh = uint32 count) /\
    nextResourceId (res r') = uint64 (handle + 1) /\
    (textures (res r'), shaders (res r'), pipelines (res r')) =
      (textures (res r), shaders (res r), pipelines (res r)) /\
    (dev r', pres r', frame r') = (dev r, pres r, frame r).

(** [c] registers, under the value the identifier counter has before it, a
    mesh that is in [P]. *)
Definition registers_such (P : Mesh -> Prop) (c : M Z) : Prop :=
  forall w, exists mesh,
    meshes (res (renderer (exec c w))) !! nextResourceId (res (renderer w)) = Some mesh /\
    P mesh.

(** [w'] is [w] after [n] creating commands that took [k] handles and left
    the objects [extra] live, the renderer being as it was. *)
Definition advanced (n : nat) (k : Z) (extra : list (ObjKind * Z)) (w w' : World) : Prop :=
  renderer w' = renderer w /\
  results (vk w') = Nat.iter n (@tl VkResult) (results (vk w)) /\
  fresh (vk w') = fresh (vk w) + k /\
  live (vk w') = live (vk w) ++ extra /\
  sound (vk w').

(** * Proofs *)

Local Open Scope Z_scope.
Local Open Scope vk_scope.

(** ** Bits *)

Lemma uint32_bit (i j : Z) :
  0 <= i -> 0 <= j ->
  Z.testbit (uint32 (Z.shiftl 1 i)) j = (j <? 32) && (i =? j).
Proof.
  intros Hi Hj. unfold uint32.
  rewrite Z.testbit_mod_pow2 by lia.
  rewrite Z.shiftl_1_l, Z.pow2_bits_eqb by lia. reflexivity.
Qed.

Lemma filter_bit (typeFilter i : Z) :
  0 <= typeFilter < 2 ^ 32 -> 0 <= i ->
  negb (Z.land typeFilter (uint32 (Z.shiftl 1 i)) =? 0) = Z.testbit typeFilter i.
Proof.
  intros Hf Hi.
  assert (Hhigh : 32 <= i -> Z.testbit typeFilter i = false).
  { intros. destruct (Z.eq_dec typeFilter 0) as [->|]; [apply Z.bits_0|].
    apply Z.bits_above_log2; [apply Hf|].
    apply Z.log2_lt_pow2; [destruct Hf; lia|].
    apply Z.lt_le_trans with (2 ^ 32); [apply Hf|].
    apply Z.pow_le_mono_r; lia. }
  destruct (Z.testbit typeFilter i) eqn:Hbit.
  - apply negb_true_iff, Z.eqb_neq. intros Hz.
    assert (Hb : Z.testbit (Z.land typeFilter (uint32 (Z.shiftl 1 i))) i = false)
      by (rewrite Hz; apply Z.bits_0).
    rewrite Z.land_spec, uint32_bit, Hbit, Z.eqb_refl in Hb by lia.
    destruct (i <? 32) eqn:E; [cbn in Hb; discriminate|].
    apply Z.ltb_ge in E. specialize (Hhigh E). discriminate.
  - apply negb_false_iff, Z.eqb_eq, Z.bits_inj'. intros j Hj.
    rewrite Z.land_spec, uint32_bit, Z.bits_0 by lia.
    destruct (Z.eqb_spec i j) as [->|]; [rewrite Hbit|]; 
      rewrite ?andb_false_r; reflexivity.
Qed.

Lemma scanMemoryTypes_sound (memoryTypes : list Z) (typeFilter properties : Z) :
  0 <= typeFilter < 2 ^ 32 ->
  forall (k : nat),
  match scanMemoryTypes memoryTypes (Z.of_nat k) typeFilter properties with
  | Some i =>
      exists j : nat, i = Z.of_nat (k + j) /\
        (Z.testbit typeFilter i = true /\
         exists flags, memoryTypes !! j = Some flags /\ Z.land flags properties = properties) /\
        forall j' flags, (j' < j)%nat -> memoryTypes !! j' = Some flags ->
          ~ (Z.testbit typeFilter (Z.of_nat (k + j')) = true /\
             Z.land flags properties = properties)
  | None =>
      forall j flags, memoryTypes !! j = Some flags ->
        ~ (Z.testbit typeFilter (Z.of_nat (k + j)) = true /\
           Z.land flags properties = properties)
  end.
Proof.
  intros Hf. induction memoryTypes as [|flags rest IH]; intros k; cbn [scanMemoryTypes].
  - intros j fl Hj. rewrite lookup_nil in Hj. discriminate.
  - rewrite filter_bit by lia.
    destruct (Z.testbit typeFilter (Z.of_nat k) && (Z.land flags properties =? properties))
      eqn:Htest.
    + apply andb_true_iff in Htest as [Hbit Hprops%Z.eqb_eq].
      exists 0%nat. rewrite Nat.add_0_r. repeat split; eauto.
      intros j' fl Hlt. lia.
    + specialize (IH (S k)).
      replace (Z.of_nat k + 1) with (Z.of_nat (S k)) by lia.
      destruct (scanMemoryTypes rest (Z.of_nat (S k)) typeFilter properties) as [i|].
      * destruct IH as (j & -> & (Hbit & fl & Hfl & Hp) & Hfirst).
        exists (S j). replace (k + S j)%nat with (S k + j)%nat by lia.
        repeat split; eauto.
        intros [|j'] fl' Hlt Hlook.
        -- cbn in Hlook. injection Hlook as <-. rewrite Nat.add_0_r.
           intros [Hb Hq]. rewrite Hb in Htest. apply Z.eqb_eq in Hq. rewrite Hq in Htest.
           discriminate.
        -- cbn in Hlook. replace (k + S j')%nat with (S k + j')%nat by lia.
           eapply Hfirst; eauto. lia.
      * intros [|j] fl Hlook.
        -- cbn in Hlook. injection Hlook as <-. rewrite Nat.add_0_r.
           intros [Hb Hq]. rewrite Hb in Htest. apply Z.eqb_eq in Hq. rewrite Hq in Htest.
           discriminate.
        -- cbn in Hlook. replace (k + S j)%nat with (S k + j)%nat by lia. eauto.
Qed.

Lemma scanMemoryTypes_first (memoryTypes : list Z) (typeFilter properties : Z) :
  0 <= typeFilter < 2 ^ 32 ->
  match scanMemoryTypes memoryTypes 0 typeFilter properties with
  | Some i => exists j : nat, i = Z.of_nat j /\
                first_suitable memoryTypes typeFilter properties j
  | None => forall j, ~ suitable memoryTypes typeFilter properties j
  end.
Proof.
  intros Hf. pose proof (scanMemoryTypes_sound memoryTypes typeFilter properties Hf 0) as H.
  change (Z.of_nat 0) with 0 in H.
  destruct (scanMemoryTypes memoryTypes 0 typeFilter properties) as [i|].
  - destruct H as (j & -> & Hs & Hfirst). exists j. split; [reflexivity|].
    split; [exact Hs|]. intros j' Hlt (Hb & fl & Hl & Hp). eapply Hfirst; eauto.
  - intros j (Hb & fl & Hl & Hp). eapply H; eauto.
Qed.

(** ** Running monadic code *)

Lemma bind_run {A B} (c : M A) (k : A -> M B) (w : World) :
  bind c k w = k (value c w) (exec c w).
Proof. unfold exec, value, bind. destruct (c w). reflexivity. Qed.

Lemma exec_bind {A B} (c : M A) (k : A -> M B) (w : World) :
  exec (bind c k) w = exec (k (value c w)) (exec c w).
Proof. unfold exec at 1. rewrite bind_run. reflexivity. Qed.

Lemma value_bind {A B} (c : M A) (k : A -> M B) (w : World) :
  value (bind c k) w = value (k (value c w)) (exec c w).
Proof. unfold value at 1. rewrite bind_run. reflexivity. Qed.

Lemma issued_app (w w' : World) (cs : list Command) :
  calls (vk w') = calls (vk w) ++ cs -> issued w w' = cs.
Proof. intros H. unfold issued. rewrite H. apply drop_app_length. Qed.

(** Case analysis on the results the driver gives. *)
Ltac by_result :=
  repeat match goal with
         | |- context [match next_result ?d with VK_SUCCESS => _ | VK_ERROR => _ end] =>
             destruct (next_result d)
         end.

(** Unfolding of the primitive operations. *)
Ltac primitive :=
  unfold exec, value, vkCreateInto, vkCreate, vkDestroy, vkAllocateCommandBuffers,
    vkFreeCommandBuffers, vkAcquireNextImageKHR, vkEnumeratePhysicalDevices,
    vkGetPhysicalDeviceQueueFamilyProperties, vkGetPhysicalDeviceMemoryProperties,
    vkGetDeviceQueue, vkGetSwapchainImagesKHR, vkGetBufferMemoryRequirements,
    vkGetImageMemoryRequirements, take_resource_id, command, driver, log, assign, this,
    bind, ret;
  cbn; by_result; cbn.

Create HintDb stable.
Create HintDb grows.

(** *** Stability *)

Section Stable.
Context {T : Type} (proj : World -> T).

Lemma stable_ret {A} (a : A) : stable proj (ret a).
Proof. intros w. reflexivity. Qed.

Lemma stable_bind {A B} (c : M A) (k : A -> M B) :
  stable proj c -> (forall a, stable proj (k a)) -> stable proj (bind c k).
Proof. intros Hc Hk w. rewrite exec_bind, Hk. apply Hc. Qed.

Lemma stable_for_each {A} (xs : list A) (body : A -> M unit) :
  (forall x, stable proj (body x)) -> stable proj (for_each xs body).
Proof.
  intros Hb. induction xs as [|x xs IH]; cbn [for_each].
  - apply stable_ret.
  - apply stable_bind; auto.
Qed.
End Stable.

Ltac head_of c :=
  lazymatch c with
  | ?f _ => head_of f
  | _ => c
  end.

Ltac stable_step :=
  lazymatch goal with
  | |- stable _ (bind _ _) => apply stable_bind; [|intros ?]
  | |- stable _ (ret _) => apply stable_ret
  | |- stable _ (for_each _ _) => apply stable_for_each; intros ?
  | |- stable _ (if ?b then _ else _) => destruct b
  | |- stable _ (match ?x with _ => _ end) => destruct x
  | |- stable _ ?c =>
      first [ solve [auto with stable]
            | solve [intros ?; primitive; reflexivity]
            | let h := head_of c in unfold h ]
  end.
Ltac stable_solve := repeat stable_step.

(** *** Lists that only grow *)

Section Grows.
Context {X : Type} (proj : World -> list X) (P : X -> Prop).

Lemma grows_ret {A} (a : A) : grows proj P (ret a).
Proof. intros w. exists []. rewrite app_nil_r. auto. Qed.

Lemma grows_bind {A B} (c : M A) (k : A -> M B) :
  grows proj P c -> (forall a, grows proj P (k a)) -> grows proj P (bind c k).
Proof.
  intros Hc Hk w. rewrite exec_bind.
  destruct (Hc w) as (l1 & E1 & F1).
  destruct (Hk (value c w) (exec c w)) as (l2 & E2 & F2).
  exists (l1 ++ l2). rewrite E2, E1, app_assoc. split; [reflexivity|].
  apply Forall_app; auto.
Qed.

Lemma grows_for_each {A} (xs : list A) (body : A -> M unit) :
  (forall x, grows proj P (body x)) -> grows proj P (for_each xs body).
Proof.
  intros Hb. induction xs as [|x xs IH]; cbn [for_each].
  - apply grows_ret.
  - apply grows_bind; auto.
Qed.

Lemma grows_none {A} (c : M A) : stable proj c -> grows proj P c.
Proof. intros H w. exists []. rewrite H, app_nil_r. auto. Qed.
End Grows.

Lemma Forall_True {X} (l : list X) : Forall (fun _ => True) l.
Proof. induction l; constructor; auto. Qed.

Ltac grows_primitive :=
  intros ?; primitive;
  first [ exists []; split; [rewrite app_nil_r; reflexivity | constructor]
        | eexists; split;
          [ reflexivity
          | first [ apply Forall_True
                  | repeat constructor; cbn; solve [auto | discriminate] ] ] ].

Ltac grows_step :=
  lazymatch goal with
  | |- emits _ _ => unfold emits
  | |- grows _ _ (bind _ _) => apply grows_bind; [|intros ?]
  | |- grows _ _ (ret _) => apply grows_ret
  | |- grows _ _ (for_each _ _) => apply grows_for_each; intros ?
  | |- grows _ _ (if ?b then _ else _) => destruct b
  | |- grows _ _ (match ?x with _ => _ end) => destruct x
  | |- grows _ _ ?c =>
      first [ solve [auto with grows]
            | solve [grows_primitive]
            | let h := head_of c in unfold h ]
  end.
Ltac grows_solve := repeat grows_step.
Ltac emits_solve := grows_solve.

(** ** findMemoryType and createBuffer *)

Lemma findMemoryType_value (w : World) (typeFilter properties : Z) :
  let found := default 0 (scanMemoryTypes (memory_types_of w) 0 typeFilter properties) in
  value (VkDevice.findMemoryType typeFilter properties) w = found /\
  value (VkUtils.findMemoryType typeFilter properties) w = found /\
  value (Native.findMemoryType typeFilter properties) w = found.
Proof.
  unfold VkDevice.findMemoryType, VkUtils.findMemoryType, Native.findMemoryType,
    memory_types_of.
  rewrite !value_bind. cbn.
  destruct (scanMemoryTypes _ 0 typeFilter properties); auto.
Qed.

Lemma findMemoryType_stable (typeFilter properties : Z) :
  stable renderer (VkDevice.findMemoryType typeFilter properties) /\
  stable vk (VkDevice.findMemoryType typeFilter properties).
Proof. split; stable_solve. Qed.

Lemma memory_types_of_eq (w w' : World) :
  renderer w' = renderer w -> platform (vk w') = platform (vk w) ->
  memory_types_of w' = memory_types_of w.
Proof.
  intros Hr Hp. unfold memory_types_of, value, vkGetPhysicalDeviceMemoryProperties, driver.
  cbn. rewrite Hr, Hp. reflexivity.
Qed.

(** What [createBuffer] of vk_buffer.cpp issues once the buffer itself exists. *)
Lemma createBuffer_allocates (w : World) (sz usage properties buffer memory : Z) :
  next_result (vk w) = VK_SUCCESS ->
  let req := bufferRequirements (platform (vk w)) sz in
  let idx := value (VkDevice.findMemoryType (memoryTypeBits req) properties) w in
  exists result object rest,
    issued w (exec (VkBuffer.createBuffer sz usage properties buffer memory) w) =
      CmdCreate (BufferCreateInfo sz usage) VK_SUCCESS (fresh (vk w))
      :: CmdCreate (MemoryAllocateInfo (mr_size req) idx) result object :: rest.
Proof.
  intros Hok req idx.
  unfold VkBuffer.createBuffer, VkBuffer.createBuffer_with.
  rewrite exec_bind.
  set (w1 := exec (vkCreate (BufferCreateInfo sz usage) buffer) w).
  assert (Hv : value (vkCreate (BufferCreateInfo sz usage) buffer) w
               = (VK_SUCCESS, fresh (vk w))).
  { unfold value, vkCreate, driver. cbn. rewrite Hok. reflexivity. }
  assert (Hw1 : renderer w1 = renderer w /\ platform (vk w1) = platform (vk w) /\
                calls (vk w1) = calls (vk w) ++
                  [CmdCreate (BufferCreateInfo sz usage) VK_SUCCESS (fresh (vk w))]).
  { subst w1. unfold exec, vkCreate, driver. cbn. rewrite Hok. cbn. auto. }
  destruct Hw1 as (Hr1 & Hp1 & Hc1).
  rewrite Hv. cbn [fst snd succeeded negb].
  rewrite exec_bind.
  assert (Hreq : value (vkGetBufferMemoryRequirements sz) w1 = req).
  { unfold value, vkGetBufferMemoryRequirements, driver. cbn. rewrite Hp1. reflexivity. }
  assert (Hw2 : exec (vkGetBufferMemoryRequirements sz) w1 = w1).
  { unfold exec, vkGetBufferMemoryRequirements, driver. cbn. reflexivity. }
  rewrite Hreq, Hw2, exec_bind.
  destruct (findMemoryType_stable (memoryTypeBits req) properties) as [Sr Sv].
  set (w3 := exec (VkDevice.findMemoryType (memoryTypeBits req) properties) w1).
  assert (Hidx : value (VkDevice.findMemoryType (memoryTypeBits req) properties) w1 = idx).
  { subst idx.
    destruct (findMemoryType_value w1 (memoryTypeBits req) properties) as [E1 _].
    destruct (findMemoryType_value w (memoryTypeBits req) properties) as [E0 _].
    rewrite E1, E0, (memory_types_of_eq w w1); auto. }
  rewrite Hidx, exec_bind.
  assert (Hc3 : calls (vk w3) = calls (vk w1)) by (subst w3; rewrite Sv; reflexivity).
  set (alloc := vkCreate (MemoryAllocateInfo (mr_size req) idx) memory).
  assert (Hc4 : exists result object,
             calls (vk (exec alloc w3)) = calls (vk w3) ++
               [CmdCreate (MemoryAllocateInfo (mr_size req) idx) result object]).
  { subst alloc. unfold exec, vkCreate, driver. cbn.
    destruct (next_result (vk w3)); cbn; eauto. }
  destruct Hc4 as (result & object & Hc4).
  exists result, object.
  assert (He : emits (fun _ => True)
                 (if negb (succeeded (fst (value alloc w3)))
                  then VkBuffer.LOGE "Failed to allocate buffer memory" [] ;;
                       ret (fresh (vk w), snd (value alloc w3))
                  else command (CmdBindBufferMemory (fresh (vk w)) (snd (value alloc w3))) ;;
                       ret (fresh (vk w), snd (value alloc w3)))).
  { emits_solve. }
  destruct (He (exec alloc w3)) as (rest & Hrest & _).
  exists rest. apply issued_app.
  rewrite Hrest, Hc4, Hc3, Hc1, <- !app_assoc. reflexivity.
Qed.

(** C10.  For every [typeFilter] (a [uint32_t]) and property mask,
    [findMemoryType], in each of its three copies, returns the index of the
    first memory type whose filter bit is set and whose property flags contain
    all the required bits; when no memory type qualifies it returns 0, the
    very value it returns for a match at index 0.  [createBuffer] does not
    look at the difference: once the buffer exists it goes on to
    vkAllocateMemory with the index it was given. *)
Theorem findMemoryType_first_suitable_or_zero (w : World) (typeFilter properties : Z) :
  0 <= typeFilter < 2 ^ 32 ->
  let found := value (VkDevice.findMemoryType typeFilter properties) w in
  (value (VkUtils.findMemoryType typeFilter properties) w = found /\
   value (Native.findMemoryType typeFilter properties) w = found) /\
  ((exists i, first_suitable (memory_types_of w) typeFilter properties i /\
              found = Z.of_nat i) \/
   ((forall i, ~ suitable (memory_types_of w) typeFilter properties i) /\ found = 0)) /\
  (forall sz usage buffer memory,
     memoryTypeBits (bufferRequirements (platform (vk w)) sz) = typeFilter ->
     next_result (vk w) = VK_SUCCESS ->
     exists result object,
       In (CmdCreate
             (MemoryAllocateInfo (mr_size (bufferRequirements (platform (vk w)) sz)) found)
             result object)
          (issued w (exec (VkBuffer.createBuffer sz usage properties buffer memory) w))).
Proof.
  intros Hf found.
  destruct (findMemoryType_value w typeFilter properties) as (Hd & Hu & Hn).
  split; [|split].
  - subst found. split; congruence.
  - subst found. rewrite Hd.
    pose proof (scanMemoryTypes_first (memory_types_of w) typeFilter properties Hf) as Hs.
    destruct (scanMemoryTypes (memory_types_of w) 0 typeFilter properties) as [i|]; cbn.
    + destruct Hs as (j & -> & Hj). left. eauto.
    + right. auto.
  - intros sz usage buffer memory Hbits Hok.
    destruct (createBuffer_allocates w sz usage properties buffer memory Hok)
      as (result & object & rest & E).
    exists result, object. rewrite E, Hbits. right. left. reflexivity.
Qed.

(** ** Queue families *)

Lemma scanQueueFamilies_run (queueFamilies : list Z) :
  forall (i : Z) (w : World),
  scanQueueFamilies queueFamilies i w =
    (tt, {| renderer :=
              on_dev (fun d =>
                set_transferQueueFamily
                  (last_family VK_QUEUE_TRANSFER_BIT queueFamilies i (transferQueueFamily d))
                  (set_computeQueueFamily
                     (last_family VK_QUEUE_COMPUTE_BIT queueFamilies i (computeQueueFamily d))
                     (set_graphicsQueueFamily
                        (last_family VK_QUEUE_GRAPHICS_BIT queueFamilies i
                           (graphicsQueueFamily d)) d))) (renderer w);
            vk := vk w; logcat := logcat w |}).
Proof.
  induction queueFamilies as [|flags rest IH]; intros i w; cbn [scanQueueFamilies last_family].
  - reflexivity.
  - rewrite !bind_run, IH. f_equal.
    destruct (negb (Z.land flags VK_QUEUE_GRAPHICS_BIT =? 0)),
             (negb (Z.land flags VK_QUEUE_COMPUTE_BIT =? 0)),
             (negb (Z.land flags VK_QUEUE_TRANSFER_BIT =? 0)); reflexivity.
Qed.

Lemma offers_cons (bit flags : Z) (rest : list Z) (j : nat) :
  offers bit (flags :: rest) (S j) <-> offers bit rest j.
Proof. unfold offers. cbn. tauto. Qed.

Lemma offers_head (bit flags : Z) (rest : list Z) :
  offers bit (flags :: rest) 0 <-> Z.land flags bit <> 0.
Proof.
  unfold offers. cbn. split.
  - intros (f & [= <-] & H). exact H.
  - intros H. eauto.
Qed.

Lemma last_family_spec (bit : Z) (queueFamilies : list Z) :
  forall (k : nat) (acc : Z),
  (exists j, last_offering bit queueFamilies j /\
             last_family bit queueFamilies (Z.of_nat k) acc = Z.of_nat (k + j)) \/
  ((forall j, ~ offers bit queueFamilies j) /\
   last_family bit queueFamilies (Z.of_nat k) acc = acc).
Proof.
  induction queueFamilies as [|flags rest IH]; intros k acc; cbn [last_family].
  - right. split; [|reflexivity]. intros j (f & Hf & _). rewrite lookup_nil in Hf. discriminate.
  - replace (Z.of_nat k + 1) with (Z.of_nat (S k)) by lia.
    destruct (IH (S k) (if negb (Z.land flags bit =? 0) then Z.of_nat k else acc))
      as [(j & [Hj Hlast] & E) | [Hnone E]].
    + left. exists (S j). split; [split|].
      * apply offers_cons. exact Hj.
      * intros [|j'] Hlt; [lia|]. rewrite offers_cons. apply Hlast. lia.
      * rewrite E. f_equal. lia.
    + destruct (Z.eqb_spec (Z.land flags bit) 0) as [Hz|Hnz]; cbn [negb] in E |- *.
      * right. split; [|exact E].
        intros [|j]; [rewrite offers_head; lia | rewrite offers_cons; apply Hnone].
      * left. exists 0%nat. split; [split|].
        -- apply offers_head. exact Hnz.
        -- intros [|j'] Hlt; [lia|]. rewrite offers_cons. apply Hnone.
        -- rewrite E. f_equal. lia.
Qed.

Lemma offers_lt (bit : Z) (queueFamilies : list Z) (i : nat) :
  offers bit queueFamilies i -> (i < length queueFamilies)%nat.
Proof. intros (f & Hf & _). eapply lookup_lt_Some; eauto. Qed.

Lemma last_family_discovered (bit : Z) (queueFamilies : list Z) (acc : Z) :
  discovered bit queueFamilies acc (last_family bit queueFamilies 0 acc).
Proof.
  destruct (last_family_spec bit queueFamilies 0 acc) as [(j & Hj & E) | [Hn E]].
  - left. exists j. split; [exact Hj|]. exact E.
  - right. split; [exact Hn | exact E].
Qed.

Lemma last_family_max (bit : Z) (queueFamilies : list Z) :
  Z.of_nat (length queueFamilies) <= UINT32_MAX ->
  last_family bit queueFamilies 0 UINT32_MAX = UINT32_MAX <->
  forall i, ~ offers bit queueFamilies i.
Proof.
  intros Hlen.
  destruct (last_family_spec bit queueFamilies 0 UINT32_MAX) as [(j & [Hj _] & E) | [Hn E]].
  - apply offers_lt in Hj as Hlt. split.
    + intros H. change (Z.of_nat 0) with 0 in E. rewrite E in H. lia.
    + intros Hn. destruct (Hn j Hj).
  - tauto.
Qed.

Ltac unfold_monad :=
  unfold value, exec, vkCreateInto, vkCreate, vkDestroy, vkAllocateCommandBuffers,
    vkFreeCommandBuffers, vkAcquireNextImageKHR, vkEnumeratePhysicalDevices,
    vkGetPhysicalDeviceQueueFamilyProperties, vkGetPhysicalDeviceMemoryProperties,
    vkGetDeviceQueue, vkGetSwapchainImagesKHR, vkGetBufferMemoryRequirements,
    vkGetImageMemoryRequirements, take_resource_id, command, driver, log, assign, this,
    bind, ret in *.

Ltac mcbn :=
  cbn [value exec fst snd bind ret this assign log command driver issue
       vkCreateInto vkCreate vkDestroy vkAllocateCommandBuffers vkFreeCommandBuffers
       vkAcquireNextImageKHR vkEnumeratePhysicalDevices
       vkGetPhysicalDeviceQueueFamilyProperties vkGetPhysicalDeviceMemoryProperties
       vkGetDeviceQueue vkGetSwapchainImagesKHR vkGetBufferMemoryRequirements
       vkGetImageMemoryRequirements take_resource_id
       renderer vk logcat platform results acquired fresh live calls
       dev pres frame res on_dev on_pres on_frame on_res
       instance physicalDevice device graphicsQueue computeQueue transferQueue
       deviceProperties graphicsQueueFamily computeQueueFamily transferQueueFamily
       set_instance set_physicalDevice set_device set_graphicsQueue set_computeQueue
       set_transferQueue set_deviceProperties set_graphicsQueueFamily
       set_computeQueueFamily set_transferQueueFamily
       surface swapchain swapchainImages swapchainImageViews framebuffers renderPass
       swapchainExtent swapchainFormat
       set_surface set_swapchain set_swapchainImages set_swapchainImageViews
       set_framebuffers set_renderPass set_swapchainExtent set_swapchainFormat
       commandPool computeCommandPool commandBuffers imageAvailableSemaphore
       renderFinishedSemaphore inFlightFence descriptorPool descriptorSetLayout
       currentFrame imageIndex
       set_commandPool set_computeCommandPool set_commandBuffers
       set_imageAvailableSemaphore set_renderFinishedSemaphore set_inFlightFence
       set_descriptorPool set_imageIndex
       meshes textures shaders pipelines nextResourceId
       set_meshes set_textures set_shaders set_pipelines set_nextResourceId
       negb succeeded kind_of handles_taken] in *.

Ltac msimpl := unfold_monad; mcbn.

Lemma VkDevice_createLogicalDevice_run (w : World) :
  let families := families_of w in
  let g := last_family VK_QUEUE_GRAPHICS_BIT families 0 UINT32_MAX in
  let c := last_family VK_QUEUE_COMPUTE_BIT families 0 UINT32_MAX in
  let t := last_family VK_QUEUE_TRANSFER_BIT families 0 UINT32_MAX in
  let ok := value VkDevice.createLogicalDevice w in
  let d' := dev (renderer (exec VkDevice.createLogicalDevice w)) in
  graphicsQueueFamily d' = g /\ computeQueueFamily d' = c /\ transferQueueFamily d' = t /\
  (g = UINT32_MAX -> ok = false) /\
  (ok = true ->
     graphicsQueue d' = queue_handle (device d') g /\
     computeQueue d' = queue_handle (device d') (VkDevice.family_or_graphics c g) /\
     transferQueue d' = queue_handle (device d') (VkDevice.family_or_graphics t g)).
Proof.
  unfold families_of, VkDevice.createLogicalDevice, VkDevice.LOGI, VkDevice.LOGE.
  msimpl.
  set (families := match lookup_device _ _ with Some pd => pd_queueFamilies pd | None => [] end).
  rewrite scanQueueFamilies_run. mcbn.
  destruct (Z.eqb_spec (last_family VK_QUEUE_GRAPHICS_BIT families 0 UINT32_MAX) UINT32_MAX)
    as [E|E]; mcbn.
  - repeat split; auto; discriminate.
  - destruct (next_result (vk w)); mcbn.
    + repeat split; auto; congruence.
    + repeat split; auto; try congruence; discriminate.
Qed.

Lemma Native_createLogicalDevice_run (w : World) :
  let families := families_of w in
  let d := dev (renderer w) in
  let g := last_family VK_QUEUE_GRAPHICS_BIT families 0 (graphicsQueueFamily d) in
  let c := last_family VK_QUEUE_COMPUTE_BIT families 0 (computeQueueFamily d) in
  let t := last_family VK_QUEUE_TRANSFER_BIT families 0 (transferQueueFamily d) in
  let ok := value Native.createLogicalDevice w in
  let d' := dev (renderer (exec Native.createLogicalDevice w)) in
  graphicsQueueFamily d' = g /\
  (g = UINT32_MAX -> ok = false) /\
  (g <> UINT32_MAX ->
     computeQueueFamily d' = (if c =? UINT32_MAX then g else c) /\
     transferQueueFamily d' = (if t =? UINT32_MAX then g else t)).
Proof.
  unfold families_of, Native.createLogicalDevice, Native.LOGI, Native.LOGE.
  msimpl.
  set (families := match lookup_device _ _ with Some pd => pd_queueFamilies pd | None => [] end).
  rewrite scanQueueFamilies_run. mcbn.
  destruct (Z.eqb_spec (last_family VK_QUEUE_GRAPHICS_BIT families 0
                          (graphicsQueueFamily (dev (renderer w)))) UINT32_MAX)
    as [E|E]; mcbn.
  - repeat split; auto; congruence.
  - destruct (last_family VK_QUEUE_COMPUTE_BIT families 0 _ =? UINT32_MAX),
             (last_family VK_QUEUE_TRANSFER_BIT families 0 _ =? UINT32_MAX);
      mcbn; destruct (next_result (vk w)); mcbn; repeat split; auto; congruence.
Qed.

Lemma run_eq {A} (c : M A) (w : World) : c w = (value c w, exec c w).
Proof. unfold exec, value. destruct (c w). reflexivity. Qed.

Lemma last_family_none (bit : Z) (queueFamilies : list Z) (acc : Z) :
  (forall i, ~ offers bit queueFamilies i) ->
  last_family bit queueFamilies 0 acc = acc.
Proof.
  intros Hn. destruct (last_family_spec bit queueFamilies 0 acc) as [(j & [Hj _] & _) | [_ E]].
  - destruct (Hn j Hj).
  - exact E.
Qed.

Lemma initialize_without_graphics (d : Driver) :
  (forall i, ~ offers VK_QUEUE_GRAPHICS_BIT (first_device_families (platform d)) i) ->
  value Native.initialize (constructed d) = false.
Proof.
  intros Hn. unfold Native.initialize, Native.initialize_with, Native.createInstance,
    Native.pickPhysicalDevice, Native.LOGI, Native.LOGE, constructed.
  msimpl.
  destruct (next_result d); mcbn; [|reflexivity].
  unfold first_device_families in Hn.
  destruct (physicalDevices (platform d)) as [|pd pds] eqn:Hpd; mcbn; [reflexivity|].
  cbn [length Nat.eqb]. mcbn.
  rewrite (run_eq Native.createLogicalDevice).
  match goal with |- context [value Native.createLogicalDevice ?w] =>
    pose proof (Native_createLogicalDevice_run w) as H; cbv zeta in H;
    assert (Hf : families_of w = pd_queueFamilies pd)
  end.
  { unfold families_of. msimpl. unfold lookup_device. rewrite Hpd. cbn [find].
    rewrite Z.eqb_refl. reflexivity. }
  rewrite Hf in H. cbn [Native.VulkanRendererNative] in H. mcbn.
  destruct H as (_ & Hfail & _).
  rewrite Hfail by (apply last_family_none; exact Hn).
  reflexivity.
Qed.

(** C6, amended.  For every list of queue families (at most UINT32_MAX of
    them), queue-family discovery leaves in the graphics, compute and transfer
    members the index of the last family in enumeration order that offers the
    capability.  With no compute or transfer family, vk_device.cpp leaves the
    member at UINT32_MAX and takes the queue of the graphics family for that
    role, and vulkan_renderer_native.cpp (whose members are UINT32_MAX on
    entry, as the constructor leaves them) copies the graphics family into the
    member.  With no family that offers graphics, [createLogicalDevice]
    returns false and so does [initialize] on a new renderer. *)
Theorem queue_families_last_offering (w : World) :
  let families := families_of w in
  Z.of_nat (length families) <= UINT32_MAX ->
  (let d := dev (renderer (exec VkDevice.createLogicalDevice w)) in
   discovered VK_QUEUE_GRAPHICS_BIT families UINT32_MAX (graphicsQueueFamily d) /\
   discovered VK_QUEUE_COMPUTE_BIT families UINT32_MAX (computeQueueFamily d) /\
   discovered VK_QUEUE_TRANSFER_BIT families UINT32_MAX (transferQueueFamily d) /\
   (value VkDevice.createLogicalDevice w = true ->
      ((forall i, ~ offers VK_QUEUE_COMPUTE_BIT families i) ->
         computeQueue d = graphicsQueue d) /\
      ((forall i, ~ offers VK_QUEUE_TRANSFER_BIT families i) ->
         transferQueue d = graphicsQueue d)) /\
   ((forall i, ~ offers VK_QUEUE_GRAPHICS_BIT families i) ->
      value VkDevice.createLogicalDevice w = false)) /\
  (graphicsQueueFamily (dev (renderer w)) = UINT32_MAX ->
   computeQueueFamily (dev (renderer w)) = UINT32_MAX ->
   transferQueueFamily (dev (renderer w)) = UINT32_MAX ->
   let d := dev (renderer (exec Native.createLogicalDevice w)) in
   discovered VK_QUEUE_GRAPHICS_BIT families UINT32_MAX (graphicsQueueFamily d) /\
   ((exists i, offers VK_QUEUE_GRAPHICS_BIT families i) ->
      discovered VK_QUEUE_COMPUTE_BIT families (graphicsQueueFamily d)
        (computeQueueFamily d) /\
      discovered VK_QUEUE_TRANSFER_BIT families (graphicsQueueFamily d)
        (transferQueueFamily d)) /\
   ((forall i, ~ offers VK_QUEUE_GRAPHICS_BIT families i) ->
      value Native.createLogicalDevice w = false)) /\
  (forall d : Driver,
     (forall i, ~ offers VK_QUEUE_GRAPHICS_BIT (first_device_families (platform d)) i) ->
     value Native.initialize (constructed d) = false).
Proof.
  intros families Hlen. split; [|split].
  - pose proof (VkDevice_createLogicalDevice_run w) as H. cbv zeta in H.
    fold families in H. destruct H as (Hg & Hc & Ht & Hfail & Hq).
    cbv zeta. rewrite Hg, Hc, Ht.
    repeat split; try apply last_family_discovered.
    + intros Hn. destruct (Hq H) as (Eg & Ec & _). rewrite Eg, Ec.
      rewrite (last_family_none _ _ _ Hn). unfold VkDevice.family_or_graphics.
      rewrite Z.eqb_refl. reflexivity.
    + intros Hn. destruct (Hq H) as (Eg & _ & Et). rewrite Eg, Et.
      rewrite (last_family_none _ _ _ Hn). unfold VkDevice.family_or_graphics.
      rewrite Z.eqb_refl. reflexivity.
    + intros Hn. apply Hfail, last_family_none, Hn.
  - intros Eg Ec Et.
    pose proof (Native_createLogicalDevice_run w) as H. cbv zeta in H.
    fold families in H. rewrite Eg, Ec, Et in H. destruct H as (Hg & Hfail & Halias).
    cbv zeta. rewrite Hg. split; [apply last_family_discovered|]. split.
    + intros (i & Hi).
      assert (Hne : last_family VK_QUEUE_GRAPHICS_BIT families 0 UINT32_MAX <> UINT32_MAX).
      { intros E. exact (proj1 (last_family_max _ _ Hlen) E i Hi). }
      destruct (Halias Hne) as (-> & ->). split.
      * destruct (Z.eqb_spec (last_family VK_QUEUE_COMPUTE_BIT families 0 UINT32_MAX)
                    UINT32_MAX) as [E|E].
        -- right. split; [|reflexivity]. apply (proj1 (last_family_max _ _ Hlen)), E.
        -- destruct (last_family_discovered VK_QUEUE_COMPUTE_BIT families UINT32_MAX)
             as [Hl | [_ E']]; [left; exact Hl | contradiction].
      * destruct (Z.eqb_spec (last_family VK_QUEUE_TRANSFER_BIT families 0 UINT32_MAX)
                    UINT32_MAX) as [E|E].
        -- right. split; [|reflexivity]. apply (proj1 (last_family_max _ _ Hlen)), E.
        -- destruct (last_family_discovered VK_QUEUE_TRANSFER_BIT families UINT32_MAX)
             as [Hl | [_ E']]; [left; exact Hl | contradiction].
    + intros Hn. apply Hfail, last_family_none, Hn.
  - apply initialize_without_graphics.
Qed.

(** ** Version numbers *)

Lemma testbit_small (a k n : Z) : 0 <= a < 2 ^ k -> 0 <= k <= n -> Z.testbit a n = false.
Proof.
  intros Ha Hk. destruct (Z.eq_dec a 0) as [->|Hne]; [apply Z.bits_0|].
  apply Z.bits_above_log2; [apply Ha|].
  apply Z.lt_le_trans with k; [|apply Hk].
  apply Z.log2_lt_pow2; [destruct Ha; lia | apply Ha].
Qed.

Lemma packed_bit (major minor patch n : Z) :
  0 <= major < 2 ^ 10 -> 0 <= minor < 2 ^ 10 -> 0 <= patch < 2 ^ 12 -> 0 <= n ->
  Z.testbit (VK_MAKE_VERSION major minor patch) n =
    if n <? 12 then Z.testbit patch n
    else if n <? 22 then Z.testbit minor (n - 12)
    else Z.testbit major (n - 22).
Proof.
  intros Hmaj Hmin Hpat Hn. unfold VK_MAKE_VERSION, uint32.
  rewrite Z.testbit_mod_pow2, !Z.lor_spec, !Z.shiftl_spec by lia.
  destruct (Z.ltb_spec n 12); [|destruct (Z.ltb_spec n 22)].
  - rewrite (Z.testbit_neg_r major), (Z.testbit_neg_r minor) by lia.
    destruct (Z.ltb_spec n 32); [reflexivity|lia].
  - rewrite (Z.testbit_neg_r major) by lia.
    rewrite (testbit_small patch 12 n) by lia.
    destruct (Z.ltb_spec n 32); [|lia]. cbn. apply orb_false_r.
  - rewrite (testbit_small patch 12 n), (testbit_small minor 10 (n - 12)) by lia.
    destruct (Z.ltb_spec n 32).
    + cbn. rewrite !orb_false_r. reflexivity.
    + cbn. symmetry. apply (testbit_small major 10). assumption. lia.
Qed.

Lemma VK_VERSION_roundtrip (major minor patch : Z) :
  0 <= major < 2 ^ 10 -> 0 <= minor < 2 ^ 10 -> 0 <= patch < 2 ^ 12 ->
  VK_VERSION_MAJOR (VK_MAKE_VERSION major minor patch) = major /\
  VK_VERSION_MINOR (VK_MAKE_VERSION major minor patch) = minor /\
  VK_VERSION_PATCH (VK_MAKE_VERSION major minor patch) = patch.
Proof.
  intros Hmaj Hmin Hpat. unfold VK_VERSION_MAJOR, VK_VERSION_MINOR, VK_VERSION_PATCH.
  repeat split; apply Z.bits_inj'; intros n Hn.
  - rewrite Z.shiftr_spec, packed_bit by lia.
    destruct (Z.ltb_spec (n + 22) 12); [lia|]. destruct (Z.ltb_spec (n + 22) 22); [lia|].
    f_equal. lia.
  - change 1023 with (Z.ones 10). rewrite Z.land_spec, Z.shiftr_spec, packed_bit by lia.
    destruct (Z.ltb_spec (n + 12) 12); [lia|].
    destruct (Z.ltb_spec (n + 12) 22).
    + rewrite Z.ones_spec_low by lia. rewrite andb_true_r. f_equal. lia.
    + rewrite Z.ones_spec_high by lia. rewrite andb_false_r.
      symmetry. apply (testbit_small minor 10); [assumption|lia].
  - change 4095 with (Z.ones 12). rewrite Z.land_spec, packed_bit by lia.
    destruct (Z.ltb_spec n 12).
    + rewrite Z.ones_spec_low by lia. apply andb_true_r.
    + rewrite Z.ones_spec_high by lia. rewrite andb_false_r.
      symmetry. apply (testbit_small patch 12); [assumption|lia].
Qed.

Lemma string_of_uint_no_dot (d : Decimal.uint) :
  ~ has_dot (NilEmpty.string_of_uint d).
Proof.
  unfold has_dot. induction d; cbn; intros H; try tauto;
    destruct H as [H|H]; try discriminate H; tauto.
Qed.

Lemma to_string_no_dot (n : Z) : ~ has_dot (to_string n).
Proof.
  unfold to_string, NilZero.string_of_uint.
  destruct (N.to_uint (Z.to_N n)) eqn:E; try (rewrite <- E; apply string_of_uint_no_dot).
  unfold has_dot. cbn. intros [H|[]]. discriminate.
Qed.

Lemma dotted_has_dot (major minor patch : Z) : has_dot (dotted major minor patch).
Proof.
  unfold has_dot, dotted.
  induction (to_string major) as [|c s IH]; cbn.
  - left. reflexivity.
  - right. exact IH.
Qed.

(** C8, amended.  For every renderer that has picked a physical device,
    [getVulkanInfo] returns in [apiVersion] the dotted major.minor.patch string
    decoded from the packed version integer of the device; [driverVersion] is
    the decimal rendering of the packed driver version as one number, and
    holds no dot. *)
Theorem getVulkanInfo_versions (r : Renderer) (major minor patch : Z) :
  physicalDevice (dev r) <> VK_NULL_HANDLE ->
  0 <= major < 2 ^ 10 -> 0 <= minor < 2 ^ 10 -> 0 <= patch < 2 ^ 12 ->
  apiVersion (deviceProperties (dev r)) = VK_MAKE_VERSION major minor patch ->
  (info_apiVersion (VkUtils.getVulkanInfo r) = dotted major minor patch /\
   info_apiVersion (Native.getVulkanInfo r) = dotted major minor patch) /\
  (info_driverVersion (VkUtils.getVulkanInfo r)
     = to_string (driverVersion (deviceProperties (dev r))) /\
   info_driverVersion (Native.getVulkanInfo r)
     = to_string (driverVersion (deviceProperties (dev r))) /\
   ~ has_dot (info_driverVersion (VkUtils.getVulkanInfo r)) /\
   ~ has_dot (info_driverVersion (Native.getVulkanInfo r))).
Proof.
  intros Hpd Hmaj Hmin Hpat Hapi.
  destruct (VK_VERSION_roundtrip major minor patch Hmaj Hmin Hpat) as (E1 & E2 & E3).
  unfold VkUtils.getVulkanInfo, Native.getVulkanInfo.
  destruct (Z.eqb_spec (physicalDevice (dev r)) VK_NULL_HANDLE) as [E|_]; [contradiction|].
  cbn [info_apiVersion info_driverVersion]. rewrite Hapi, E1, E2, E3.
  repeat split; apply to_string_no_dot.
Qed.

(** ** Resource handles *)

Ltac issued_compute :=
  erewrite issued_app by (mcbn; rewrite <- ?app_assoc; reflexivity).

Lemma hands_out_take : hands_out take_resource_id.
Proof. intros w. left. msimpl. auto. Qed.

Lemma issued_after (w w1 w2 : World) (cs : list Command) (x : Command) :
  calls (vk w1) = calls (vk w) ++ cs -> In x (issued w1 w2) -> In x (issued w w2).
Proof.
  unfold issued. intros E Hin. rewrite E, length_app, <- drop_drop in Hin.
  rewrite <- (take_drop (length cs) (drop _ _)). apply in_or_app. right. exact Hin.
Qed.

Lemma hands_out_bind_stable {A} (c : M A) (k : A -> M Z) :
  stable renderer c -> emits (fun _ => True) c ->
  (forall a, hands_out (k a)) -> hands_out (bind c k).
Proof.
  intros Hs He Hk w. rewrite value_bind, exec_bind.
  destruct (Hk (value c w) (exec c w)) as [[Hv Hn] | (Hv & Hn & Hf)];
    rewrite Hs in *; [left; auto | right].
  repeat split; auto.
  destruct (He w) as (cs & E & _). cbn beta in E.
  apply existsb_exists in Hf as (x & Hin & Hx). apply existsb_exists. exists x.
  split; [|exact Hx]. eapply issued_after; eauto.
Qed.

Lemma compileShader_hands_out (codeSize stg : Z) :
  hands_out (VkShader.compileShader codeSize stg).
Proof.
  intros w. unfold VkShader.compileShader, VkShader.LOGI, VkShader.LOGE. msimpl.
  destruct (next_result (vk w)) eqn:E; mcbn.
  - left. auto.
  - right. repeat split; auto. issued_compute. reflexivity.
Qed.

Lemma createGraphicsPipeline_hands_out (vs fs : Z) :
  hands_out (Native.createGraphicsPipeline vs fs).
Proof. apply hands_out_take. Qed.

Ltac on_result :=
  match goal with
  | |- context [match next_result ?d with VK_SUCCESS => _ | VK_ERROR => _ end] =>
      destruct (next_result d)
  end; mcbn.

Lemma loadTexture_hands_out (wd ht fmt : Z) :
  hands_out (VkTexture.loadTexture wd ht fmt).
Proof.
  intros w. unfold VkTexture.loadTexture, VkTexture.loadTexture_with, VkTexture.LOGI,
    VkTexture.LOGE, VkDevice.findMemoryType, VkDevice.LOGE.
  msimpl. on_result.
  2:{ right. repeat split; auto. issued_compute. reflexivity. }
  destruct (scanMemoryTypes _ _ _ _); mcbn.
  all: on_result; try (right; repeat split; auto; issued_compute; reflexivity).
  all: on_result; try (right; repeat split; auto; issued_compute; reflexivity).
  all: on_result; try (right; repeat split; auto; issued_compute; reflexivity).
  all: left; auto.
Qed.

Lemma loadMesh_hands_out (vertexCount indexCount normalCount uvCount : Z) :
  hands_out (VkBuffer.loadMesh vertexCount indexCount normalCount uvCount).
Proof.
  unfold VkBuffer.loadMesh, VkBuffer.loadMesh_with. cbv zeta.
  repeat (apply hands_out_bind_stable; [solve [stable_solve] | solve [emits_solve] | intros ?]).
  intros w. left. unfold VkBuffer.LOGI. msimpl. auto.
Qed.

Lemma perform_hands_out (c : ResourceCall) : hands_out (perform c).
Proof.
  destruct c; cbn [perform].
  - apply loadMesh_hands_out.
  - apply loadTexture_hands_out.
  - apply compileShader_hands_out.
  - apply createGraphicsPipeline_hands_out.
Qed.

Lemma perform_all_handles (cs : list ResourceCall) :
  forall w : World,
  0 < nextResourceId (res (renderer w)) ->
  nextResourceId (res (renderer w)) + Z.of_nat (length cs) < 2 ^ 64 ->
  Forall (fun h => nextResourceId (res (renderer w)) <= h)
    (issued_handles (perform_all cs w)) /\
  StronglySorted Z.lt (issued_handles (perform_all cs w)) /\
  Forall (fun o => fst o = 0 -> snd o = true) (perform_all cs w).
Proof.
  induction cs as [|c cs IH]; intros w Hpos Hbound; cbn [perform_all].
  - repeat split; constructor.
  - cbn [length] in Hbound. unfold issued_handles. cbn [map fst List.filter].
    fold (issued_handles (perform_all cs (exec (perform c) w))).
    set (n := nextResourceId (res (renderer w))) in *.
    destruct (perform_hands_out c w) as [[Hv Hn] | (Hv & Hn & Hf)]; fold n in Hv, Hn.
    + assert (Hn' : nextResourceId (res (renderer (exec (perform c) w))) = n + 1).
      { rewrite Hn. unfold uint64. apply Z.mod_small. lia. }
      destruct (IH (exec (perform c) w)) as (Hge & Hsorted & Hzero); [lia | lia |].
      rewrite Hn' in Hge. rewrite Hv.
      destruct (Z.eqb_spec n 0) as [E|_]; [lia|]. cbn [negb].
      repeat split.
      * constructor; [lia|]. eapply Forall_impl; [exact Hge|]. cbn. intros; lia.
      * constructor; [exact Hsorted|]. eapply Forall_impl; [exact Hge|]. cbn. intros; lia.
      * constructor; [cbn; lia | exact Hzero].
    + destruct (IH (exec (perform c) w)) as (Hge & Hsorted & Hzero); [lia | lia |].
      rewrite Hn in Hge. rewrite Hv. cbn [Z.eqb negb].
      repeat split; auto.
Qed.

(** C1, amended.  On one renderer, as long as the 64-bit identifier counter
    does not run through (the counter, which the constructor sets to 1, plus
    the number of calls stays below 2^64), the handles that a sequence of
    [loadMesh], [loadTexture], [compileShader] and [createGraphicsPipeline]
    calls returns are, the sentinel 0 left out, strictly increasing in call
    order and pairwise distinct; 0 is returned only by a call during which a
    creating command failed, and never by a call during which none did. *)
Theorem handles_strictly_increasing (cs : list ResourceCall) (w : World) :
  0 < nextResourceId (res (renderer w)) ->
  nextResourceId (res (renderer w)) + Z.of_nat (length cs) < 2 ^ 64 ->
  let outcome := perform_all cs w in
  StronglySorted Z.lt (issued_handles outcome) /\
  NoDup (issued_handles outcome) /\
  Forall (fun o => fst o = 0 -> snd o = true) outcome /\
  Forall (fun o => snd o = false -> fst o <> 0) outcome.
Proof.
  intros Hpos Hbound outcome.
  destruct (perform_all_handles cs w Hpos Hbound) as (_ & Hsorted & Hzero).
  fold outcome in Hsorted, Hzero.
  repeat split; auto.
  - clear -Hsorted. induction Hsorted as [|h hs Hs IH Hlt]; constructor; auto.
    intros Hin. apply list_elem_of_In in Hin.
    rewrite List.Forall_forall in Hlt. specialize (Hlt h Hin). lia.
  - eapply Forall_impl; [exact Hzero|]. cbn. intros o Ho Hs E.
    rewrite (Ho E) in Hs. discriminate.
Qed.

(** ** loadTexture *)

Ltac unfold_loadTexture :=
  unfold VkTexture.loadTexture, VkTexture.loadTexture_with, VkTexture.LOGI,
    VkTexture.LOGE, VkDevice.findMemoryType, VkDevice.LOGE.

Ltac trace_facts :=
  repeat split; auto; intros *; issued_compute; cbn [In app]; intuition congruence.

(** C7.  Two [loadTexture] calls that agree on width and height (the pixel
    array is not read) and differ in [format] return the same handle and leave
    the same renderer, with the same texture registered, and the same driver
    state; every image and every image view the call creates has the format
    VK_FORMAT_R8G8B8A8_UNORM.  The format argument only reaches the log. *)
Theorem loadTexture_ignores_format (w : World) (wd ht fmt1 fmt2 : Z) :
  let run1 := VkTexture.loadTexture wd ht fmt1 w in
  let run2 := VkTexture.loadTexture wd ht fmt2 w in
  fst run1 = fst run2 /\
  renderer (snd run1) = renderer (snd run2) /\
  vk (snd run1) = vk (snd run2) /\
  (forall wd' ht' f usage result object,
     In (CmdCreate (ImageCreateInfo wd' ht' f usage) result object) (issued w (snd run1)) ->
     f = VK_FORMAT_R8G8B8A8_UNORM) /\
  (forall img f result object,
     In (CmdCreate (ImageViewCreateInfo img f) result object) (issued w (snd run1)) ->
     f = VK_FORMAT_R8G8B8A8_UNORM).
Proof.
  unfold_loadTexture. msimpl. on_result.
  2:{ trace_facts. }
  destruct (scanMemoryTypes _ _ _ _); mcbn.
  all: on_result; try solve [trace_facts].
  all: on_result; try solve [trace_facts].
  all: on_result; try solve [trace_facts].
Qed.

(** C4, amended.  When one of the four sub-steps of [loadTexture] (image,
    memory, image view, sampler) fails, the call returns the sentinel 0 and
    leaves the renderer as it was: no entry enters the texture table and the
    identifier counter stays, so no handle is issued.  The call destroys
    nothing: when the sub-step [k] is the first to fail, the [k] objects that
    the sub-steps before it created, and they alone, are live on top of those
    that were, registered nowhere. *)
Theorem loadTexture_failure (w : World) (wd ht fmt : Z) (k : nat) :
  (k < 4)%nat ->
  (forall j, (j < k)%nat -> nth j (results (vk w)) VK_SUCCESS = VK_SUCCESS) ->
  nth k (results (vk w)) VK_SUCCESS = VK_ERROR ->
  let w' := exec (VkTexture.loadTexture wd ht fmt) w in
  value (VkTexture.loadTexture wd ht fmt) w = 0 /\
  renderer w' = renderer w /\
  Forall (fun c => is_destroy c = false) (issued w w') /\
  live (vk w') = live (vk w) ++
    take k [(KImage, fresh (vk w)); (KDeviceMemory, fresh (vk w) + 1);
            (KImageView, fresh (vk w) + 2)].
Proof.
  intros Hk Hbefore Hnth.
  assert (H0 : (0 < k)%nat -> nth 0 (results (vk w)) VK_SUCCESS = VK_SUCCESS)
    by (intros; apply Hbefore; lia).
  assert (H1 : (1 < k)%nat -> nth 1 (results (vk w)) VK_SUCCESS = VK_SUCCESS)
    by (intros; apply Hbefore; lia).
  assert (H2 : (2 < k)%nat -> nth 2 (results (vk w)) VK_SUCCESS = VK_SUCCESS)
    by (intros; apply Hbefore; lia).
  clear Hbefore.
  unfold_loadTexture. msimpl. unfold next_result.
  destruct k as [|[|[|[|k]]]]; [| | | |lia];
    repeat match goal with
           | H : (_ < _)%nat -> _ |- _ =>
               first [ specialize (H ltac:(lia)) | clear H ]
           end;
    destruct (results (vk w)) as [|r1 [|r2 [|r3 [|r4 rest]]]];
    cbn [nth] in *; try discriminate; subst;
    repeat (progress (cbn [hd tl]; mcbn; try (destruct (scanMemoryTypes _ _ _ _); mcbn))).
  all: repeat split; auto; try (issued_compute; repeat constructor).
  all: cbn [take]; rewrite <- ?app_assoc, ?app_nil_r; cbn [app]; try reflexivity.
  all: replace (fresh (vk w) + 1 + 1) with (fresh (vk w) + 2) by lia; reflexivity.
Qed.

(** ** Frames *)

(** C3, amended.  Every call of [endFrame] issues one command and no other:
    the presentation, on the graphics queue, of the image whose index
    [beginFrame] stored, waiting on the render-finished semaphore.  It submits
    no command buffer, and neither does [beginFrame], which waits for the
    in-flight fence, resets it and acquires the image. *)
Theorem endFrame_presents_only (w : World) :
  let r := renderer w in
  let w' := exec Native.endFrame w in
  issued w w' =
    [CmdQueuePresent (graphicsQueue (dev r)) (renderFinishedSemaphore (frame r))
       (swapchain (pres r)) (imageIndex (frame r))] /\
  existsb is_submit (issued w w') = false /\
  renderer w' = r /\ live (vk w') = live (vk w) /\
  (let b := exec Native.beginFrame w in
   existsb is_submit (issued w b) = false /\
   exists result,
     issued w b =
       [CmdWaitForFences (inFlightFence (frame r));
        CmdResetFences (inFlightFence (frame r));
        CmdAcquireNextImage (swapchain (pres r)) (imageAvailableSemaphore (frame r))
          result (imageIndex (frame (renderer b)))]).
Proof.
  unfold Native.endFrame, Native.beginFrame. msimpl.
  repeat split; auto; try (issued_compute; reflexivity).
  eexists. issued_compute. reflexivity.
Qed.

(** ** Teardown *)

Lemma for_each_destroy (k : ObjKind) (hs : list Z) :
  forall w,
  for_each hs (vkDestroy k) w =
    (tt, {| renderer := renderer w;
            vk := fold_left (fun d h => destroy k h d) hs (vk w);
            logcat := logcat w |}).
Proof.
  induction hs as [|h hs IH]; intros w; cbn [for_each fold_left].
  - reflexivity.
  - rewrite bind_run, IH. reflexivity.
Qed.

Lemma destroy_all_calls (k : ObjKind) (hs : list Z) :
  forall d,
  calls (fold_left (fun d h => destroy k h d) hs d) = calls d ++ map (CmdDestroy k) hs.
Proof.
  induction hs as [|h hs IH]; intros d; cbn [fold_left map].
  - rewrite app_nil_r. reflexivity.
  - rewrite IH. cbn [destroy calls]. rewrite <- app_assoc. reflexivity.
Qed.

Lemma Native_destroySwapchain_run (w : World) :
  let p := pres (renderer w) in
  renderer (exec Native.destroySwapchain w) = on_pres torn_down (renderer w) /\
  logcat (exec Native.destroySwapchain w) = logcat w /\
  calls (vk (exec Native.destroySwapchain w)) =
    calls (vk w)
    ++ map (CmdDestroy KFramebuffer) (framebuffers p)
    ++ map (CmdDestroy KImageView) (swapchainImageViews p)
    ++ when_set (renderPass p) (CmdDestroy KRenderPass (renderPass p))
    ++ when_set (swapchain p) (CmdDestroy KSwapchain (swapchain p)).
Proof.
  unfold Native.destroySwapchain. unfold value, exec, bind, ret, this, assign. mcbn.
  rewrite for_each_destroy. mcbn. rewrite for_each_destroy. msimpl.
  destruct w as [[d p f rs] v l]. cbn [renderer pres dev frame res vk logcat].
  destruct p as [sf sc imgs views fbs rp ext fmt]. unfold torn_down, when_set. mcbn.
  destruct (Z.eqb_spec rp VK_NULL_HANDLE) as [->|Hrp],
           (Z.eqb_spec sc VK_NULL_HANDLE) as [->|Hsc]; mcbn;
    rewrite ?destroy_all_calls; cbn [destroy calls]; rewrite ?destroy_all_calls;
    rewrite ?app_nil_r, <- ?app_assoc; auto.
Qed.

Lemma VkSwapchain_destroySwapchain_run (w : World) :
  let p := pres (renderer w) in
  renderer (exec VkSwapchain.destroySwapchain w) =
    on_pres (fun p => set_swapchain VK_NULL_HANDLE (set_swapchainImageViews [] p))
      (renderer w) /\
  logcat (exec VkSwapchain.destroySwapchain w) = logcat w /\
  calls (vk (exec VkSwapchain.destroySwapchain w)) =
    calls (vk w)
    ++ map (CmdDestroy KImageView) (swapchainImageViews p)
    ++ when_set (swapchain p) (CmdDestroy KSwapchain (swapchain p)).
Proof.
  unfold VkSwapchain.destroySwapchain. unfold value, exec, bind, ret, this, assign. mcbn.
  rewrite for_each_destroy. msimpl.
  destruct w as [[d p f rs] v l]. cbn [renderer pres dev frame res vk logcat].
  destruct p as [sf sc imgs views fbs rp ext fmt]. unfold when_set. mcbn.
  destruct (Z.eqb_spec sc VK_NULL_HANDLE) as [->|Hsc]; mcbn;
    rewrite ?destroy_all_calls; cbn [destroy calls]; rewrite ?destroy_all_calls;
    rewrite ?app_nil_r, <- ?app_assoc; auto.
Qed.

(** A second [destroySwapchain] finds nothing to destroy. *)
Lemma Native_destroySwapchain_twice (w : World) :
  exec Native.destroySwapchain (exec Native.destroySwapchain w) =
  exec Native.destroySwapchain w.
Proof.
  destruct (Native_destroySwapchain_run w) as (Hr & _).
  set (w1 := exec Native.destroySwapchain w) in *.
  assert (E : w1 = {| renderer := on_pres torn_down (renderer w); vk := vk w1;
                      logcat := logcat w1 |}) by (rewrite <- Hr; reflexivity).
  rewrite E. generalize (vk w1) (logcat w1). intros v l.
  unfold Native.destroySwapchain, torn_down. msimpl. reflexivity.
Qed.

Lemma VkSwapchain_destroySwapchain_twice (w : World) :
  exec VkSwapchain.destroySwapchain (exec VkSwapchain.destroySwapchain w) =
  exec VkSwapchain.destroySwapchain w.
Proof.
  destruct (VkSwapchain_destroySwapchain_run w) as (Hr & _).
  set (w1 := exec VkSwapchain.destroySwapchain w) in *.
  assert (E : w1 = {| renderer := on_pres (fun p => set_swapchain VK_NULL_HANDLE
                                              (set_swapchainImageViews [] p)) (renderer w);
                      vk := vk w1; logcat := logcat w1 |}) by (rewrite <- Hr; reflexivity).
  rewrite E. generalize (vk w1) (logcat w1). intros v l.
  unfold VkSwapchain.destroySwapchain. msimpl. reflexivity.
Qed.

(** [shutdown] leaves the three handles it tests null, whatever
    [destroySwapchain] it is linked with, provided that one leaves the device
    members and the surface alone. *)
Section Shutdown.
Variable destroySwapchain : M unit.
Hypothesis keeps_dev : stable (fun w => dev (renderer w)) destroySwapchain.
Hypothesis keeps_surface : stable (fun w => surface (pres (renderer w))) destroySwapchain.

Lemma shutdown_nulls (w : World) :
  let r := renderer (exec (Native.shutdown_with destroySwapchain) w) in
  device (dev r) = VK_NULL_HANDLE /\ surface (pres r) = VK_NULL_HANDLE /\
  instance (dev r) = VK_NULL_HANDLE.
Proof.
  unfold Native.shutdown_with.
  rewrite exec_bind. change (exec this w) with w. change (value this w) with (renderer w).
  cbv beta. rewrite exec_bind.
  set (block := if negb (device (dev (renderer w)) =? VK_NULL_HANDLE) then _ else ret tt).
  assert (Hblock : device (dev (renderer (exec block w))) = VK_NULL_HANDLE /\
                   instance (dev (renderer (exec block w))) = instance (dev (renderer w)) /\
                   surface (pres (renderer (exec block w))) = surface (pres (renderer w))).
  { subst block. destruct (Z.eqb_spec (device (dev (renderer w))) VK_NULL_HANDLE) as [E|E];
      cbn [negb].
    - auto.
    - split; [|split].
      + rewrite !exec_bind. reflexivity.
      + assert (S : stable (fun w => instance (dev (renderer w)))
                      (command (CmdDeviceWaitIdle (device (dev (renderer w)))))) by stable_solve.
        match goal with |- _ (_ (_ (exec ?c w))) = _ =>
          assert (Hs : stable (fun w => instance (dev (renderer w))) c)
        end.
        { repeat (apply stable_bind; [|intros ?]);
            try (intros w0; exact (f_equal instance (keeps_dev w0)));
            stable_solve. }
        apply Hs.
      + match goal with |- _ (_ (_ (exec ?c w))) = _ =>
          assert (Hs : stable (fun w => surface (pres (renderer w))) c)
        end.
        { repeat (apply stable_bind; [|intros ?]);
            try apply keeps_surface; stable_solve. }
        apply Hs. }
  destruct Hblock as (Hd & Hi & Hs).
  set (w1 := exec block w) in *. clearbody w1. clear block.
  msimpl.
  destruct (Z.eqb_spec (surface (pres (renderer w1))) VK_NULL_HANDLE) as [E1|E1],
           (Z.eqb_spec (instance (dev (renderer w1))) VK_NULL_HANDLE) as [E2|E2];
    mcbn; auto.
Qed.

Lemma shutdown_again (w : World) :
  device (dev (renderer w)) = VK_NULL_HANDLE ->
  surface (pres (renderer w)) = VK_NULL_HANDLE ->
  instance (dev (renderer w)) = VK_NULL_HANDLE ->
  exec (Native.shutdown_with destroySwapchain) w = w.
Proof.
  intros Hd Hs Hi. unfold Native.shutdown_with. msimpl.
  rewrite Hd. cbn [Z.eqb VK_NULL_HANDLE negb]. mcbn.
  rewrite Hs, Hi. reflexivity.
Qed.

Lemma shutdown_twice (w : World) :
  exec (Native.shutdown_with destroySwapchain)
    (exec (Native.shutdown_with destroySwapchain) w) =
  exec (Native.shutdown_with destroySwapchain) w.
Proof.
  destruct (shutdown_nulls w) as (Hd & Hs & Hi). apply shutdown_again; assumption.
Qed.
End Shutdown.

Lemma issued_self (w : World) : issued w w = [].
Proof. unfold issued. apply drop_all. Qed.


(** ** Construction of the presentation objects *)

Lemma Native_createImageViews_emits (images : list Z) :
  forall i, grows (fun w => calls (vk w)) creates (Native.createImageViews images i).
Proof.
  induction images as [|img rest IH]; intros i; cbn [Native.createImageViews]; grows_solve.
Qed.

Lemma createFramebuffers_from_emits (views : list Z) :
  forall i, grows (fun w => calls (vk w)) creates (Native.createFramebuffers_from views i).
Proof.
  induction views as [|v rest IH]; intros i; cbn [Native.createFramebuffers_from];
    grows_solve.
Qed.

Lemma VkSwapchain_createImageViews_emits (images : list Z) :
  forall i, grows (fun w => calls (vk w)) creates (VkSwapchain.createImageViews images i).
Proof.
  induction images as [|img rest IH]; intros i; cbn [VkSwapchain.createImageViews];
    grows_solve.
Qed.

Lemma scanQueueFamilies_stable_vk (queueFamilies : list Z) (i : Z) :
  stable vk (scanQueueFamilies queueFamilies i).
Proof. intros w. unfold exec. rewrite scanQueueFamilies_run. reflexivity. Qed.

Lemma scanQueueFamilies_emits (P : Command -> Prop) (queueFamilies : list Z) (i : Z) :
  grows (fun w => calls (vk w)) P (scanQueueFamilies queueFamilies i).
Proof.
  apply grows_none. intros w. rewrite (scanQueueFamilies_stable_vk _ _ w). reflexivity.
Qed.

#[local] Hint Resolve Native_createImageViews_emits createFramebuffers_from_emits
  VkSwapchain_createImageViews_emits scanQueueFamilies_emits : grows.

Lemma build_presentation_emits : emits creates build_presentation.
Proof. unfold build_presentation. grows_solve. Qed.

Lemma initialize_emits : emits creates Native.initialize.
Proof. grows_solve. Qed.

Section SurfaceKept.
Let kept (w : World) := (surface (pres (renderer w)), renderPass (pres (renderer w))).

Lemma Native_createImageViews_surface (images : list Z) :
  forall i, stable (fun w => surface (pres (renderer w))) (Native.createImageViews images i).
Proof.
  induction images as [|img rest IH]; intros i; cbn [Native.createImageViews];
    stable_solve.
Qed.

Lemma VkSwapchain_createImageViews_kept (images : list Z) :
  forall i, stable kept (VkSwapchain.createImageViews images i).
Proof.
  induction images as [|img rest IH]; intros i; cbn [VkSwapchain.createImageViews];
    stable_solve.
Qed.

Lemma createFramebuffers_from_kept (views : list Z) :
  forall i, stable kept (Native.createFramebuffers_from views i).
Proof.
  induction views as [|v rest IH]; intros i; cbn [Native.createFramebuffers_from];
    stable_solve.
Qed.

Lemma createFramebuffers_from_surface (views : list Z) :
  forall i, stable (fun w => surface (pres (renderer w)))
              (Native.createFramebuffers_from views i).
Proof.
  induction views as [|v rest IH]; intros i; cbn [Native.createFramebuffers_from];
    stable_solve.
Qed.

Lemma build_presentation_surface :
  stable (fun w => surface (pres (renderer w))) build_presentation.
Proof.
  pose proof Native_createImageViews_surface. pose proof createFramebuffers_from_surface.
  unfold build_presentation. stable_solve.
Qed.

Lemma VkSwapchain_rebuild_kept :
  stable kept (VkSwapchain.createSwapchain ;; Native.createFramebuffers ;; ret tt).
Proof.
  pose proof VkSwapchain_createImageViews_kept. pose proof createFramebuffers_from_kept.
  stable_solve.
Qed.
End SurfaceKept.

Lemma issued_trans (w w1 w2 : World) (l1 l2 : list Command) :
  calls (vk w1) = calls (vk w) ++ l1 -> calls (vk w2) = calls (vk w1) ++ l2 ->
  issued w w1 = l1 /\ issued w1 w2 = l2 /\ issued w w2 = l1 ++ l2.
Proof.
  intros E1 E2. repeat split; apply issued_app; auto. rewrite E2, E1, app_assoc. reflexivity.
Qed.

Lemma createSwapchain_first (w : World) :
  let p := pres (renderer w) in
  exists result object rest,
    issued w (exec build_presentation w) =
      CmdCreate (SwapchainCreateInfo (surface p) 2 VK_FORMAT_B8G8R8A8_UNORM
                   (swapchainExtent p) VK_PRESENT_MODE_FIFO_KHR) result object :: rest.
Proof.
  cbv zeta. unfold build_presentation. rewrite exec_bind.
  set (w1 := exec Native.createSwapchain w).
  assert (H1 : exists result object rest1,
             calls (vk w1) = calls (vk w) ++
               CmdCreate (SwapchainCreateInfo (surface (pres (renderer w))) 2
                            VK_FORMAT_B8G8R8A8_UNORM (swapchainExtent (pres (renderer w)))
                            VK_PRESENT_MODE_FIFO_KHR) result object :: rest1).
  { subst w1. unfold Native.createSwapchain.
    rewrite exec_bind. set (w0 := exec (assign _) w).
    rewrite exec_bind. change (value this w0) with (renderer w0). cbv beta.
    rewrite exec_bind. change (exec this w0) with w0.
    match goal with |- context [exec (vkCreateInto ?info ?g ?s) w0] =>
      set (create := vkCreateInto info g s) end.
    assert (Hc : exists result object,
               calls (vk (exec create w0)) = calls (vk w) ++
                 [CmdCreate (SwapchainCreateInfo (surface (pres (renderer w))) 2
                               VK_FORMAT_B8G8R8A8_UNORM (swapchainExtent (pres (renderer w)))
                               VK_PRESENT_MODE_FIFO_KHR) result object]).
    { subst create w0. msimpl. destruct (next_result (vk w)); mcbn; eauto. }
    destruct Hc as (result & object & Hc). exists result, object.
    match goal with |- context [exec ?k (exec create w0)] =>
      assert (Hk : emits creates k) end.
    { pose proof Native_createImageViews_emits. grows_solve. }
    match goal with |- context [exec ?k (exec create w0)] =>
      destruct (Hk (exec create w0)) as (rest1 & E & _) end.
    exists rest1. cbn beta in E. rewrite E, Hc, <- app_assoc. reflexivity. }
  destruct H1 as (result & object & rest1 & H1).
  match goal with |- context [exec ?k w1] => assert (Hk : emits creates k) end.
  { pose proof createFramebuffers_from_emits. grows_solve. }
  match goal with |- context [exec ?k w1] =>
    destruct (Hk w1) as (rest2 & E & _) end.
  exists result, object, (rest1 ++ rest2). apply issued_app.
  cbn beta in E. rewrite E, H1, <- app_assoc. reflexivity.
Qed.

Lemma idle_run (w : World) (c : Command) :
  renderer (exec (command c) w) = renderer w /\
  calls (vk (exec (command c) w)) = calls (vk w) ++ [c].
Proof. msimpl. auto. Qed.


Ltac unfold_initialize :=
  unfold Native.initialize, Native.initialize_with, Native.createInstance,
    Native.pickPhysicalDevice, Native.createLogicalDevice, Native.createCommandPools,
    Native.createSyncObjects, Native.createDescriptorPool, Native.LOGI, Native.LOGE.

Ltac leaf :=
  split; [ intros _; reflexivity
         | intros _; split; [|split];
           [ issued_compute; repeat constructor
           | issued_compute; vm_compute; reflexivity
           | vm_compute; reflexivity ] ].




(** C3, counterexample.  On an initialised renderer with a surface, after
    [beginFrame], [endFrame] issues the presentation alone; no vkQueueSubmit
    is issued by either of the two. *)
Lemma endFrame_submits_nothing :
  let w := exec Native.beginFrame sample_attached in
  issued w (exec Native.endFrame w) = [CmdQueuePresent (queue_handle 2 1) 6 10 1] /\
  existsb is_submit (issued sample_attached (exec Native.endFrame w)) = false.
Proof. vm_compute. auto. Qed.

(** C4, counterexample.  Image and memory are created and bound, the image
    view is not: [loadTexture] returns 0, the texture table is empty, and the
    image and its memory are live. *)
Lemma loadTexture_leaves_image_and_memory :
  let w := sample_ready (repeat VK_SUCCESS 10 ++ [VK_ERROR]) in
  let w' := exec (VkTexture.loadTexture 4 4 0) w in
  value (VkTexture.loadTexture 4 4 0) w = 0 /\
  textures (res (renderer w')) = ∅ /\
  In (KImage, 9) (live (vk w')) /\ In (KDeviceMemory, 10) (live (vk w')) /\
  In (CmdBindImageMemory 9 10) (issued w w') /\
  ~ In (KImage, 9) (live (vk w)) /\ ~ In (KDeviceMemory, 10) (live (vk w)).
Proof.
  vm_compute. repeat split; auto 20.
  - intros H. repeat (destruct H as [H|H]; [discriminate H|]). exact H.
  - intros H. repeat (destruct H as [H|H]; [discriminate H|]). exact H.
Qed.

(** C4, witness: the same call. *)
Lemma loadTexture_failure_witness :
  value (VkTexture.loadTexture 4 4 0) (sample_ready (repeat VK_SUCCESS 10 ++ [VK_ERROR])) = 0.
Proof.
  apply (loadTexture_failure (sample_ready (repeat VK_SUCCESS 10 ++ [VK_ERROR])) 4 4 0 2).
  - lia.
  - intros j Hj. destruct j as [|[|j]]; [vm_compute; reflexivity .. | lia].
  - vm_compute. reflexivity.
Defined.



(** C6, counterexample.  Families 0 and 1 both offer graphics; family 0 is the
    first, and both files record family 1. *)
Lemma first_family_not_recorded :
  let w := exec Native.pickPhysicalDevice (sample_world []) in
  families_of w = [7; 1; 4] /\
  first_offering VK_QUEUE_GRAPHICS_BIT (families_of w) 0 /\
  graphicsQueueFamily (dev (renderer (exec Native.createLogicalDevice w))) = 1 /\
  graphicsQueueFamily (dev (renderer (exec VkDevice.createLogicalDevice w))) = 1.
Proof.
  cbv zeta. assert (E : families_of (exec Native.pickPhysicalDevice (sample_world []))
                        = [7; 1; 4]) by (vm_compute; reflexivity).
  rewrite E. repeat split; try (vm_compute; reflexivity).
  - exists 7. split; [reflexivity | discriminate].
  - intros j Hj. lia.
Qed.

(** C6, witness: the same three families. *)
Lemma queue_families_last_offering_witness :
  graphicsQueueFamily
    (dev (renderer (exec VkDevice.createLogicalDevice
                      (exec Native.pickPhysicalDevice (sample_world []))))) = 1 /\
  last_offering VK_QUEUE_GRAPHICS_BIT [7; 1; 4] 1.
Proof.
  pose proof (queue_families_last_offering
                (exec Native.pickPhysicalDevice (sample_world []))) as H.
  cbv zeta in H.
  assert (E : families_of (exec Native.pickPhysicalDevice (sample_world [])) = [7; 1; 4])
    by (vm_compute; reflexivity).
  rewrite E in H.
  destruct H as ((Hg & _) & _); [vm_compute; discriminate|].
  assert (G : graphicsQueueFamily
                (dev (renderer (exec VkDevice.createLogicalDevice
                                  (exec Native.pickPhysicalDevice (sample_world []))))) = 1)
    by (vm_compute; reflexivity).
  rewrite G in Hg. split; [reflexivity|].
  destruct Hg as [(i & Hi & Ei) | (_ & Ex)].
  - replace i with 1%nat in Hi by lia. exact Hi.
  - discriminate Ex.
Defined.

(** C8, counterexample.  A driver version packed from 1, 2 and 3 is reported
    as "4202499", not as "1.2.3". *)
Lemma driverVersion_is_not_dotted :
  let r := renderer (sample_ready []) in
  driverVersion (deviceProperties (dev r)) = VK_MAKE_VERSION 1 2 3 /\
  info_driverVersion (VkUtils.getVulkanInfo r) = "4202499"%string /\
  info_driverVersion (Native.getVulkanInfo r) = "4202499"%string /\
  dotted 1 2 3 = "1.2.3"%string.
Proof. vm_compute. auto. Qed.

(** C8, witness: the API version of the sample device. *)
Lemma getVulkanInfo_versions_witness :
  info_apiVersion (VkUtils.getVulkanInfo (renderer (sample_ready []))) = "1.3.250"%string.
Proof.
  change "1.3.250"%string with (dotted 1 3 250).
  apply (getVulkanInfo_versions (renderer (sample_ready [])) 1 3 250);
    try (vm_compute; split; [discriminate | reflexivity]);
    vm_compute; try reflexivity; discriminate.
Defined.

(** C10, witness.  With memory types 0 (device local) and 1 (host visible,
    host coherent): host-visible memory is found at index 1; a property that
    no type has gives 0, and so does device-local memory, found at index 0. *)
Lemma findMemoryType_witness :
  value (VkDevice.findMemoryType 3 VK_MEMORY_PROPERTY_HOST_VISIBLE_BIT) (sample_ready []) = 1 /\
  value (VkUtils.findMemoryType 3 8) (sample_ready []) = 0 /\
  value (VkUtils.findMemoryType 3 VK_MEMORY_PROPERTY_DEVICE_LOCAL_BIT) (sample_ready []) = 0.
Proof.
  split; [vm_compute; reflexivity|]. split.
  - destruct (findMemoryType_first_suitable_or_zero (sample_ready []) 3 8) as ((E & _) & _).
    + vm_compute. split; [discriminate | reflexivity].
    + rewrite E. vm_compute. reflexivity.
  - vm_compute. reflexivity.
Defined.

(** C7, witness: formats 0 and 37 on the sample renderer. *)
Lemma loadTexture_ignores_format_witness :
  fst (VkTexture.loadTexture 4 4 0 (sample_ready [])) =
  fst (VkTexture.loadTexture 4 4 37 (sample_ready [])).
Proof. apply (loadTexture_ignores_format (sample_ready []) 4 4 0 37). Defined.

(** [n] calls of [createGraphicsPipeline] in a row: the identifiers count up
    modulo 2^64, and no creating command fails. *)
Lemma pipelines_in_a_row (vs fs : Z) (n : nat) :
  forall w : World,
  0 <= nextResourceId (res (renderer w)) < 2 ^ 64 ->
  perform_all (repeat (CreateGraphicsPipeline vs fs) n) w =
    map (fun i => (uint64 (nextResourceId (res (renderer w)) + Z.of_nat i), false))
      (seq 0 n).
Proof.
  induction n as [|n IH]; intros w Hrange; [reflexivity|].
  cbn [repeat perform_all seq map]. f_equal.
  - unfold perform, Native.createGraphicsPipeline. msimpl. f_equal.
    + rewrite Z.add_0_r. unfold uint64. symmetry. apply Z.mod_small. exact Hrange.
    + unfold issued. mcbn. rewrite drop_all. reflexivity.
  - rewrite IH.
    + rewrite <- seq_shift, map_map. apply map_ext. intros i. f_equal.
      unfold perform, Native.createGraphicsPipeline. msimpl. unfold uint64.
      rewrite Zplus_mod_idemp_l. f_equal. lia.
    + unfold perform, Native.createGraphicsPipeline. msimpl. unfold uint64.
      apply Z.mod_pos_bound. lia.
Qed.

(** C1, counterexample.  On a new, initialised renderer the 2^64-th call of
    [createGraphicsPipeline] in a row returns 0, and no creating command has
    failed during it: the counter is a [uint64_t] and has wrapped. *)
Lemma handle_zero_after_wrap :
  In (0, false)
    (perform_all (repeat (CreateGraphicsPipeline 0 0) (Z.to_nat (2 ^ 64)))
       (sample_ready [])).
Proof.
  assert (Hn : Z.of_nat (Z.to_nat (2 ^ 64)) = 2 ^ 64) by (apply Z2Nat.id; discriminate).
  assert (Hm : Z.of_nat (Z.to_nat (2 ^ 64 - 1)) = 2 ^ 64 - 1)
    by (apply Z2Nat.id; discriminate).
  revert Hn Hm. generalize (Z.to_nat (2 ^ 64)) (Z.to_nat (2 ^ 64 - 1)). intros n m Hn Hm.
  assert (H1 : nextResourceId (res (renderer (sample_ready []))) = 1)
    by (vm_compute; reflexivity).
  rewrite pipelines_in_a_row by (rewrite H1; lia).
  apply in_map_iff. exists m. split.
  - rewrite H1, Hm. reflexivity.
  - apply in_seq. lia.
Qed.

(** C1, witness.  Four calls, the third of which fails to create its shader
    module: the handles are 1, 2 and 3. *)
Lemma handles_strictly_increasing_witness :
  perform_all
    [LoadMesh 9 3 0 0; LoadTexture 4 4 0; CompileShader 8 0; CreateGraphicsPipeline 3 3]
    (sample_ready (repeat VK_SUCCESS 22 ++ [VK_ERROR]))
    = [(1, false); (2, false); (0, true); (3, false)] /\
  StronglySorted Z.lt [1; 2; 3].
Proof.
  assert (E : perform_all
                [LoadMesh 9 3 0 0; LoadTexture 4 4 0; CompileShader 8 0;
                 CreateGraphicsPipeline 3 3]
                (sample_ready (repeat VK_SUCCESS 22 ++ [VK_ERROR]))
              = [(1, false); (2, false); (0, true); (3, false)])
    by (vm_compute; reflexivity).
  split; [exact E|].
  change [1; 2; 3] with (issued_handles [(1, false); (2, false); (0, true); (3, false)]).
  rewrite <- E.
  apply (handles_strictly_increasing
           [LoadMesh 9 3 0 0; LoadTexture 4 4 0; CompileShader 8 0;
            CreateGraphicsPipeline 3 3]
           (sample_ready (repeat VK_SUCCESS 22 ++ [VK_ERROR])));
    vm_compute; reflexivity.
Defined.


(** * Further properties *)

(** ** Invariants *)

Section Keeps.
Context (I : World -> Prop).

Lemma keeps_ret {A} (a : A) : keeps I (ret a).
Proof. intros w H. exact H. Qed.

Lemma keeps_bind {A B} (c : M A) (k : A -> M B) :
  keeps I c -> (forall a, keeps I (k a)) -> keeps I (bind c k).
Proof. intros Hc Hk w H. rewrite exec_bind. apply Hk, Hc, H. Qed.

Lemma keeps_for_each {A} (xs : list A) (body : A -> M unit) :
  (forall x, keeps I (body x)) -> keeps I (for_each xs body).
Proof.
  intros Hb. induction xs as [|x xs IH]; cbn [for_each].
  - apply keeps_ret.
  - apply keeps_bind; auto.
Qed.
End Keeps.

Create HintDb keeps.

Ltac keeps_step :=
  lazymatch goal with
  | |- keeps _ (bind _ _) => apply keeps_bind; [|intros ?]
  | |- keeps _ (ret _) => apply keeps_ret
  | |- keeps _ (for_each _ _) => apply keeps_for_each; intros ?
  | |- keeps _ (if ?b then _ else _) => destruct b
  | |- keeps _ (match ?x with _ => _ end) => destruct x
  | |- keeps _ ?c =>
      first [ solve [auto with keeps]
            | let h := head_of c in unfold h ]
  end.

(** ** The swapchain of vk_swapchain.cpp *)

Lemma issued_cons (w w1 w2 : World) (x : Command) :
  calls (vk w1) = calls (vk w) ++ [x] ->
  (exists l, calls (vk w2) = calls (vk w1) ++ l) ->
  exists rest, issued w w2 = x :: rest /\ issued w1 w2 = rest.
Proof.
  intros E1 (l & E2). exists l. split; apply issued_app; [|exact E2].
  rewrite E2, E1, <- app_assoc. reflexivity.
Qed.

Lemma view_in_format_create (fmt img : Z) (result : VkResult) (object : Z) :
  view_in_format fmt (CmdCreate (ImageViewCreateInfo img fmt) result object).
Proof. intros img' f r o E. injection E as _ <- _ _. reflexivity. Qed.

Lemma VkSwapchain_createImageViews_run (images : list Z) :
  forall (i : nat) (w : World),
  let w' := exec (VkSwapchain.createImageViews images i) w in
  exists l,
    calls (vk w') = calls (vk w) ++ l /\
    Forall (view_in_format (swapchainFormat (pres (renderer w)))) l /\
    swapchainFormat (pres (renderer w')) = swapchainFormat (pres (renderer w)) /\
    swapchainExtent (pres (renderer w')) = swapchainExtent (pres (renderer w)).
Proof.
  induction images as [|img rest IH]; intros i w; cbn [VkSwapchain.createImageViews].
  - exists []. rewrite app_nil_r. repeat split; auto.
  - cbv zeta. unfold VkSwapchain.LOGE. msimpl.
    destruct (next_result (vk w)); mcbn.
    + match goal with |- context [VkSwapchain.createImageViews rest (S i) ?w1] =>
        destruct (IH (S i) w1) as (l & E & F & Hf & He) end.
      unfold exec in E, Hf, He. mcbn.
      eexists. rewrite E, <- app_assoc. split; [reflexivity|].
      split; [|auto]. constructor; [apply view_in_format_create | exact F].
    + eexists. split; [reflexivity|]. split; [|auto].
      constructor; [apply view_in_format_create | constructor].
Qed.

(** What [createSwapchain] asks for, and what it leaves in the members. *)
Lemma VkSwapchain_createSwapchain_info (w : World) :
  let plat := platform (vk w) in
  let cur := currentExtent (capabilities plat) in
  let extent := if negb (width cur =? UINT32_MAX) then cur
                else swapchainExtent (pres (renderer w)) in
  let fmt := format (VkSwapchain.chooseSurfaceFormat (surfaceFormats plat)) in
  let w' := exec VkSwapchain.createSwapchain w in
  exists object rest,
    calls (vk w') = calls (vk w) ++
      CmdCreate (SwapchainCreateInfo (surface (pres (renderer w)))
                   (VkSwapchain.chooseImageCount (capabilities plat)) fmt extent
                   (VkSwapchain.choosePresentMode (presentModes plat)))
        (next_result (vk w)) object :: rest /\
    swapchainFormat (pres (renderer w')) = fmt /\
    swapchainExtent (pres (renderer w')) = extent /\
    Forall (view_in_format fmt) rest.
Proof.
  cbv zeta. unfold VkSwapchain.createSwapchain, VkSwapchain.LOGI, VkSwapchain.LOGE.
  msimpl.
  destruct (negb (width (currentExtent (capabilities (platform (vk w)))) =? UINT32_MAX));
    mcbn.
  all: destruct (next_result (vk w)); mcbn.
  all: try (do 2 eexists; split; [rewrite <- ?app_assoc; reflexivity|];
            repeat split; constructor).
  all: match goal with |- context [VkSwapchain.createImageViews ?imgs 0 ?w0] =>
         set (w1 := w0) in *; set (images := imgs) in *;
         destruct (VkSwapchain_createImageViews_run images 0 w1) as (l & E & F & Hf & He);
         rewrite (run_eq (VkSwapchain.createImageViews images 0) w1);
         destruct (value (VkSwapchain.createImageViews images 0) w1); cbv beta iota;
         cbn [negb fst snd]
       end.
  all: exists (fresh (vk w)), l; split;
         [cbn [vk calls]; rewrite E; subst w1; cbn [vk calls];
          rewrite <- app_assoc; reflexivity|];
         cbn [renderer]; rewrite Hf, He; subst w1; mcbn; repeat split; auto.
Qed.

Lemma Native_createSwapchain_info (w : World) :
  let p := pres (renderer w) in
  exists object rest,
    calls (vk (exec Native.createSwapchain w)) = calls (vk w) ++
      CmdCreate (SwapchainCreateInfo (surface p) 2 VK_FORMAT_B8G8R8A8_UNORM
                   (swapchainExtent p) VK_PRESENT_MODE_FIFO_KHR)
        (next_result (vk w)) object :: rest.
Proof.
  cbv zeta. unfold Native.createSwapchain. msimpl.
  destruct (next_result (vk w)); mcbn.
  2:{ do 2 eexists. reflexivity. }
  match goal with |- context [Native.createImageViews ?imgs 0 ?w0] =>
    destruct (Native_createImageViews_emits imgs 0 w0) as (l & E & _);
    rewrite (run_eq (Native.createImageViews imgs 0) w0)
  end.
  cbn beta in E. cbv beta iota. cbn [fst snd vk calls]. rewrite E. cbn [vk calls].
  do 2 eexists. rewrite <- app_assoc. reflexivity.
Qed.

(** X1.  The number of images [createSwapchain] of vk_swapchain.cpp asks for is
    one more than the minimum the surface reports, cut down to the maximum
    when the surface has one (a maximum of 0 stands for none): it lies between
    the minimum and the maximum, and it is the bare minimum only when the
    maximum leaves no room.  The sum is taken in [uint32_t]: a reported
    minimum of UINT32_MAX with no maximum makes the request 0. *)
Theorem createSwapchain_image_count (w : World) :
  let caps := capabilities (platform (vk w)) in
  exists sf n fmt extent mode result object rest,
    issued w (exec VkSwapchain.createSwapchain w) =
      CmdCreate (SwapchainCreateInfo sf n fmt extent mode) result object :: rest /\
    (0 <= minImageCount caps < UINT32_MAX ->
     maxImageCount caps = 0 \/ minImageCount caps <= maxImageCount caps ->
     minImageCount caps <= n <= minImageCount caps + 1 /\
     (0 < maxImageCount caps -> n <= maxImageCount caps) /\
     (n = minImageCount caps -> maxImageCount caps = minImageCount caps)) /\
    (minImageCount caps = UINT32_MAX -> maxImageCount caps = 0 -> n = 0).
Proof.
  cbv zeta. destruct (VkSwapchain_createSwapchain_info w) as (object & rest & E & _).
  do 8 eexists. split; [apply issued_app; exact E|].
  unfold VkSwapchain.chooseImageCount, uint32, UINT32_MAX.
  set (lo := minImageCount _). set (hi := maxImageCount _).
  split.
  - intros Hlo Hhi. unfold UINT32_MAX in Hlo.
    rewrite (Z.mod_small (lo + 1)) by lia.
    destruct (Z.ltb_spec 0 hi), (Z.ltb_spec hi (lo + 1)); cbn [andb]; lia.
  - intros -> ->. reflexivity.
Qed.

Lemma chooseSurfaceFormat_spec (formats : list VkSurfaceFormatKHR) :
  (In srgb_nonlinear formats ->
   VkSwapchain.chooseSurfaceFormat formats = srgb_nonlinear) /\
  (~ In srgb_nonlinear formats ->
   forall f fs, formats = f :: fs -> VkSwapchain.chooseSurfaceFormat formats = f).
Proof.
  unfold VkSwapchain.chooseSurfaceFormat.
  set (wanted := fun f : VkSurfaceFormatKHR => _).
  assert (Hw : forall f, wanted f = true <-> f = srgb_nonlinear).
  { intros [f c]. unfold wanted, srgb_nonlinear. cbn [format colorSpace].
    rewrite andb_true_iff, !Z.eqb_eq. split.
    - intros [-> ->]. reflexivity.
    - intros E. injection E as -> ->. auto. }
  split.
  - intros Hin. destruct (List.find wanted formats) as [f|] eqn:Hfind.
    + apply find_some in Hfind as [_ Hf]. apply Hw, Hf.
    + exfalso. pose proof (find_none _ _ Hfind _ Hin) as Hn.
      rewrite (proj2 (Hw _) eq_refl) in Hn. discriminate.
  - intros Hnot f fs ->. destruct (List.find wanted (f :: fs)) as [g|] eqn:Hfind.
    + apply find_some in Hfind as [Hin Hg]. apply Hw in Hg. subst g. contradiction.
    + reflexivity.
Qed.

Lemma choosePresentMode_spec (modes : list Z) :
  (In VK_PRESENT_MODE_MAILBOX_KHR modes ->
   VkSwapchain.choosePresentMode modes = VK_PRESENT_MODE_MAILBOX_KHR) /\
  (~ In VK_PRESENT_MODE_MAILBOX_KHR modes ->
   VkSwapchain.choosePresentMode modes = VK_PRESENT_MODE_FIFO_KHR).
Proof.
  unfold VkSwapchain.choosePresentMode.
  destruct (List.find _ modes) as [m|] eqn:Hfind.
  - apply find_some in Hfind as [Hin Hm]. apply Z.eqb_eq in Hm. subst m.
    split; [reflexivity | contradiction].
  - split; [|reflexivity]. intros Hin.
    pose proof (find_none _ _ Hfind _ Hin) as Hn. cbn in Hn. discriminate.
Qed.

(** X2.  [createSwapchain] of vk_swapchain.cpp takes the surface format
    B8G8R8A8_SRGB with the sRGB non-linear colour space when the surface
    offers it, and the first format offered otherwise; it takes the present
    mode MAILBOX when the surface offers it and FIFO otherwise, whatever else
    is offered.  The format chosen is the one left in [swapchainFormat], and
    every image view the call creates is in that format. *)
Theorem createSwapchain_format_and_mode (w : World) :
  let formats := surfaceFormats (platform (vk w)) in
  let modes := presentModes (platform (vk w)) in
  let w' := exec VkSwapchain.createSwapchain w in
  exists sf n fmt extent mode result object rest,
    issued w w' =
      CmdCreate (SwapchainCreateInfo sf n fmt extent mode) result object :: rest /\
    swapchainFormat (pres (renderer w')) = fmt /\
    Forall (view_in_format fmt) rest /\
    (In srgb_nonlinear formats -> fmt = VK_FORMAT_B8G8R8A8_SRGB) /\
    (~ In srgb_nonlinear formats -> forall f fs, formats = f :: fs -> fmt = format f) /\
    (In VK_PRESENT_MODE_MAILBOX_KHR modes -> mode = VK_PRESENT_MODE_MAILBOX_KHR) /\
    (~ In VK_PRESENT_MODE_MAILBOX_KHR modes -> mode = VK_PRESENT_MODE_FIFO_KHR).
Proof.
  cbv zeta.
  destruct (VkSwapchain_createSwapchain_info w) as (object & rest & E & Hf & _ & Hviews).
  destruct (chooseSurfaceFormat_spec (surfaceFormats (platform (vk w)))) as [Hs Hn].
  destruct (choosePresentMode_spec (presentModes (platform (vk w)))) as [Hm Hfifo].
  do 8 eexists. split; [apply issued_app; exact E|]. repeat split; auto.
  - intros Hin. rewrite (Hs Hin). reflexivity.
  - intros Hnot f fs Hfs. rewrite (Hn Hnot f fs Hfs). reflexivity.
Qed.

(** The steps of [setSurface] after [createSwapchain] add commands and take
    none back. *)
Lemma setSurface_tail_emits :
  emits (fun _ => True)
    (Native.createRenderPass ;; Native.createFramebuffers ;;
     Native.createCommandBuffers ;; ret tt).
Proof.
  assert (H : forall views i,
             grows (fun w => calls (vk w)) (fun _ => True)
               (Native.createFramebuffers_from views i)).
  { induction views as [|v rest IH]; intros i; cbn [Native.createFramebuffers_from];
      grows_solve. }
  grows_solve.
Qed.

(** X3.  The width and height given to [setSurface] reach the swapchain as
    [uint32_t] values.  With [createSwapchain] of vulkan_renderer_native.cpp
    they are the extent of the swapchain; with [createSwapchain] of
    vk_swapchain.cpp they are only when the surface reports the width
    UINT32_MAX for its current extent, which otherwise takes their place. *)
Theorem setSurface_extent (w : World) (window wd ht : Z) :
  next_result (vk w) = VK_SUCCESS ->
  let cur := currentExtent (capabilities (platform (vk w))) in
  let given := {| width := uint32 wd; height := uint32 ht |} in
  let s := fresh (vk w) in
  (exists result object rest,
     issued w (exec (Native.setSurface window wd ht) w) =
       CmdCreate (AndroidSurfaceCreateInfo window) VK_SUCCESS s
       :: CmdCreate (SwapchainCreateInfo s 2 VK_FORMAT_B8G8R8A8_UNORM given
                       VK_PRESENT_MODE_FIFO_KHR) result object :: rest) /\
  (exists n fmt mode result object rest,
     issued w (exec (Native.setSurface_with VkSwapchain.createSwapchain window wd ht) w) =
       CmdCreate (AndroidSurfaceCreateInfo window) VK_SUCCESS s
       :: CmdCreate (SwapchainCreateInfo s n fmt
                       (if negb (width cur =? UINT32_MAX) then cur else given) mode)
            result object :: rest).
Proof.
  intros Hok. cbv zeta.
  set (w1 := exec (Native.LOGI "Setting surface: %dx%d" [wd; ht] ;;
                   vkCreateInto (AndroidSurfaceCreateInfo window)
                     (fun r => surface (pres r)) (fun s => on_pres (set_surface s)) ;;
                   assign (on_pres (set_swapchainExtent
                                      {| width := uint32 wd; height := uint32 ht |}))) w).
  assert (H1 : calls (vk w1) = calls (vk w) ++
                 [CmdCreate (AndroidSurfaceCreateInfo window) VK_SUCCESS (fresh (vk w))] /\
               surface (pres (renderer w1)) = fresh (vk w) /\
               swapchainExtent (pres (renderer w1)) =
                 {| width := uint32 wd; height := uint32 ht |} /\
               platform (vk w1) = platform (vk w)).
  { subst w1. unfold Native.LOGI. msimpl. rewrite Hok. mcbn. auto. }
  destruct H1 as (Hc1 & Hs1 & He1 & Hp1).
  assert (Hrun : forall createSwapchain : M bool,
             exec (Native.setSurface_with createSwapchain window wd ht) w =
             exec (createSwapchain ;; Native.createRenderPass ;; Native.createFramebuffers ;;
                   Native.createCommandBuffers ;; ret tt) w1).
  { intros cs. subst w1. unfold Native.setSurface_with, Native.LOGI. msimpl.
    rewrite Hok. mcbn. reflexivity. }
  assert (Hgen : forall (createSwapchain : M bool) info,
             (exists result object rest1,
                calls (vk (exec createSwapchain w1)) =
                  calls (vk w1) ++ CmdCreate info result object :: rest1) ->
             exists result object rest,
               issued w (exec (Native.setSurface_with createSwapchain window wd ht) w) =
                 CmdCreate (AndroidSurfaceCreateInfo window) VK_SUCCESS (fresh (vk w))
                 :: CmdCreate info result object :: rest).
  { intros cs info (result & object & rest1 & E1).
    rewrite Hrun, exec_bind.
    destruct (setSurface_tail_emits (exec cs w1)) as (rest2 & E2 & _). cbn beta in E2.
    exists result, object, (rest1 ++ rest2). apply issued_app.
    rewrite E2, E1, Hc1, <- !app_assoc. reflexivity. }
  split.
  - apply Hgen. destruct (Native_createSwapchain_info w1) as (object & rest & E).
    rewrite Hs1, He1 in E. eauto.
  - destruct (VkSwapchain_createSwapchain_info w1) as (object & rest & E & _).
    rewrite Hs1, He1, Hp1 in E.
    edestruct Hgen as (result & object' & rest' & E'); [eauto|].
    do 6 eexists. exact E'.
Qed.

(** X3, witness: a surface of 800 by 600 on the sample renderer. *)
Lemma setSurface_extent_witness :
  exists result object rest,
    issued (sample_ready []) (exec (Native.setSurface 5 800 600) (sample_ready [])) =
      CmdCreate (AndroidSurfaceCreateInfo 5) VK_SUCCESS (fresh (vk (sample_ready [])))
      :: CmdCreate (SwapchainCreateInfo (fresh (vk (sample_ready []))) 2
                      VK_FORMAT_B8G8R8A8_UNORM
                      {| width := uint32 800; height := uint32 600 |}
                      VK_PRESENT_MODE_FIFO_KHR) result object :: rest.
Proof.
  pose proof (setSurface_extent (sample_ready []) 5 800 600) as H.
  cbv zeta in H. destruct H as (H & _); [reflexivity | exact H].
Defined.

(** ** The physical device *)

Lemma lookup_first_device (p : Platform) (d : PhysicalDevice) (rest : list PhysicalDevice) :
  physicalDevices p = d :: rest -> lookup_device p (pd_handle d) = Some d.
Proof. intros E. unfold lookup_device. rewrite E. cbn [find]. rewrite Z.eqb_refl. reflexivity. Qed.

(** X4.  [pickPhysicalDevice], in both files, takes the device that is
    enumerated first, whatever its type and whatever follows it: its handle and
    its properties go into the members, and the queue families looked at later
    are its families.  With no device at all it returns false and leaves the
    renderer as it was.  It issues no command. *)
Theorem pickPhysicalDevice_takes_first (w : World) :
  let devices := physicalDevices (platform (vk w)) in
  let picked (pick : M bool) (d : PhysicalDevice) :=
    value pick w = true /\
    physicalDevice (dev (renderer (exec pick w))) = pd_handle d /\
    deviceProperties (dev (renderer (exec pick w))) = pd_properties d /\
    families_of (exec pick w) = pd_queueFamilies d in
  let refused (pick : M bool) :=
    value pick w = false /\ renderer (exec pick w) = renderer w in
  (forall d rest, devices = d :: rest ->
     picked Native.pickPhysicalDevice d /\ picked VkDevice.pickPhysicalDevice d) /\
  (devices = [] ->
     refused Native.pickPhysicalDevice /\ refused VkDevice.pickPhysicalDevice) /\
  vk (exec Native.pickPhysicalDevice w) = vk w /\
  vk (exec VkDevice.pickPhysicalDevice w) = vk w.
Proof.
  cbv zeta.
  unfold Native.pickPhysicalDevice, VkDevice.pickPhysicalDevice, Native.LOGI, Native.LOGE,
    VkDevice.LOGI, VkDevice.LOGE, families_of.
  msimpl.
  destruct (physicalDevices (platform (vk w))) as [|d0 rest0] eqn:Hd; cbn [length Nat.eqb];
    mcbn.
  - repeat split; auto; intros; discriminate.
  - split; [|repeat split; auto; intros; discriminate].
    intros d rest E. injection E as <- <-.
    rewrite (lookup_first_device _ _ _ Hd). repeat split; reflexivity.
Qed.

(** X4, witness: two devices, the second of them a discrete GPU. *)
Lemma pickPhysicalDevice_takes_first_witness :
  let cpu := {| pd_handle := 5;
                pd_properties := {| apiVersion := 0; driverVersion := 0; vendorID := 1;
                                    deviceType := VK_PHYSICAL_DEVICE_TYPE_CPU;
                                    deviceName := "cpu"; maxImageDimension2D := 0 |};
                pd_queueFamilies := [4]; pd_memoryTypes := [] |} in
  let p := {| physicalDevices := [cpu; sample_device];
              capabilities := capabilities sample_platform;
              surfaceFormats := []; presentModes := []; swapchainImageCount := 0;
              bufferRequirements := bufferRequirements sample_platform;
              imageRequirements := imageRequirements sample_platform |} in
  physicalDevice (dev (renderer (exec VkDevice.pickPhysicalDevice
                                   (constructed (boot p [] []))))) = 5.
Proof.
  cbv zeta.
  match goal with |- physicalDevice (dev (renderer (exec _ ?w))) = _ =>
    destruct (pickPhysicalDevice_takes_first w) as (H & _)
  end.
  cbv zeta in H. specialize (H _ _ eq_refl). destruct H as (_ & _ & E & _). exact E.
Defined.

(** ** Buffers *)

Lemma sound_new (d : Driver) (k : ObjKind) (h : Z) (l : list (ObjKind * Z)) :
  sound d -> fresh d <= h -> k <> KCommandPool ->
  List.filter (fun o => negb (is_object k h o)) (live d ++ l) =
  live d ++ List.filter (fun o => negb (is_object k h o)) l.
Proof.
  intros Hs Hh Hk. rewrite List.filter_app. f_equal.
  unfold sound in Hs. induction (live d) as [|o os IH]; [reflexivity|].
  apply Forall_cons in Hs as [Ho Hos]. cbn [List.filter].
  assert (E : is_object k h o = false).
  { unfold is_object. apply orb_false_iff. split.
    - apply bool_decide_eq_false. intros ->. cbn in Ho. lia.
    - apply andb_false_iff. left. apply bool_decide_eq_false. exact Hk. }
  rewrite E. cbn [negb]. f_equal. apply IH, Hos.
Qed.

Lemma sound_free (d : Driver) (pool h : Z) (l : list (ObjKind * Z)) :
  sound d -> fresh d <= h ->
  List.filter (fun o => negb (bool_decide (fst o = KCommandBuffer pool)
                                && bool_decide (snd o ∈ [h]))) (live d ++ l) =
  live d ++ List.filter (fun o => negb (bool_decide (fst o = KCommandBuffer pool)
                                        && bool_decide (snd o ∈ [h]))) l.
Proof.
  intros Hs Hh. rewrite List.filter_app. f_equal.
  unfold sound in Hs. induction (live d) as [|o os IH]; [reflexivity|].
  apply Forall_cons in Hs as [Ho Hos]. cbn [List.filter].
  assert (E : bool_decide (snd o ∈ [h]) = false).
  { apply bool_decide_eq_false. intros Hin. apply list_elem_of_singleton in Hin. lia. }
  rewrite E, andb_false_r. cbn [negb]. f_equal. apply IH, Hos.
Qed.

(** X5.  [copyBuffer] allocates one command buffer from the graphics command
    pool, records the copy in it, submits it with no semaphore and no fence,
    waits for the queue to be idle and frees the command buffer: when the
    allocation succeeds, the objects that are live after the call are those
    that were live before it, and the renderer is as it was.  The queue is the
    transfer queue in vulkan_renderer_native.cpp and the graphics queue in
    vk_buffer.cpp. *)
Theorem copyBuffer_frees_its_command_buffer (w : World) (src dst sz : Z) :
  next_result (vk w) = VK_SUCCESS ->
  sound (vk w) ->
  let r := renderer w in
  let cb := fresh (vk w) in
  let sequence (queue : Z) :=
    [CmdAllocateCommandBuffers (commandPool (frame r)) VK_SUCCESS [cb];
     CmdCopyBuffer cb src dst sz;
     CmdQueueSubmit queue [cb] [] VK_NULL_HANDLE;
     CmdQueueWaitIdle queue;
     CmdFreeCommandBuffers (commandPool (frame r)) [cb]] in
  let unchanged (w' : World) := live (vk w') = live (vk w) /\ renderer w' = r in
  issued w (exec (Native.copyBuffer src dst sz) w) = sequence (transferQueue (dev r)) /\
  issued w (exec (VkBuffer.copyBuffer src dst sz) w) = sequence (graphicsQueue (dev r)) /\
  unchanged (exec (Native.copyBuffer src dst sz) w) /\
  unchanged (exec (VkBuffer.copyBuffer src dst sz) w).
Proof.
  intros Hok Hs. cbv zeta. unfold Native.copyBuffer, VkBuffer.copyBuffer. msimpl.
  rewrite Hok. mcbn. cbn [handles_from seq map hd]. rewrite Z.add_0_r.
  assert (Hlive : List.filter
            (fun o => negb (bool_decide (fst o = KCommandBuffer (commandPool (frame (renderer w))))
                            && bool_decide (snd o ∈ [fresh (vk w)])))
            (live (vk w) ++ [(KCommandBuffer (commandPool (frame (renderer w))), fresh (vk w))])
          = live (vk w)).
  { rewrite sound_free by (auto; lia). cbn [List.filter fst snd].
    rewrite bool_decide_eq_true_2 by reflexivity.
    rewrite bool_decide_eq_true_2 by (apply list_elem_of_singleton; reflexivity).
    cbn [andb negb]. apply app_nil_r. }
  rewrite Hlive.
  repeat split; try reflexivity; issued_compute; reflexivity.
Qed.

(** X5, witness: a copy on the sample renderer. *)
Lemma copyBuffer_frees_its_command_buffer_witness :
  live (vk (exec (VkBuffer.copyBuffer 1 2 16) (sample_ready []))) = live (vk (sample_ready [])).
Proof.
  apply (copyBuffer_frees_its_command_buffer (sample_ready []) 1 2 16).
  - reflexivity.
  - unfold sound. vm_compute. repeat constructor.
Defined.

Lemma result_at_0 (w : World) : result_at 0 w = next_result (vk w).
Proof. unfold result_at, next_result. destruct (results (vk w)); reflexivity. Qed.

(** The driver's script, laid open as far as the results that matter. *)
Ltac script w :=
  unfold result_at, next_result in *;
  destruct w as [?r [?plat ?script ?acq ?fr ?lv ?cl] ?lg];
  cbn [vk results renderer logcat platform acquired fresh live calls] in *;
  repeat match goal with
         | H : context [nth _ ?s _] |- _ =>
             is_var s; destruct s as [|[] s]; cbn [nth hd tl] in *; try congruence
         end.

(** Running against a script that has been laid open. *)
Ltac run_script := repeat (progress (msimpl; cbn [next_result hd tl results issue])).


(** ** Textures and shaders *)

(** X7.  When its four creating commands succeed, [loadTexture] of
    vk_texture.cpp returns the value of the identifier counter, moves the
    counter on by one, and registers under the handle it returns a texture
    made of the image, the memory, the image view and the sampler it has just
    created: the four are live, the memory is bound to the image, and the
    other tables are as they were. *)
Theorem loadTexture_registers (w : World) (wd ht fmt : Z) :
  (forall k, (k < 4)%nat -> result_at k w = VK_SUCCESS) ->
  let run := VkTexture.loadTexture wd ht fmt in
  let f := fresh (vk w) in
  let handle := nextResourceId (res (renderer w)) in
  let texture := {| image := f; imageView := f + 2; sampler := f + 3; memory := f + 1 |} in
  let rs := res (renderer (exec run w)) in
  value run w = handle /\
  textures rs !! handle = Some texture /\
  textures rs = <[handle := texture]> (textures (res (renderer w))) /\
  nextResourceId rs = uint64 (handle + 1) /\
  (meshes rs, shaders rs, pipelines rs) =
    (meshes (res (renderer w)), shaders (res (renderer w)), pipelines (res (renderer w))) /\
  live (vk (exec run w)) =
    live (vk w) ++ [(KImage, f); (KDeviceMemory, f + 1); (KImageView, f + 2); (KSampler, f + 3)] /\
  In (CmdBindImageMemory f (f + 1)) (issued w (exec run w)).
Proof.
  intros Hok. cbv zeta.
  pose proof (Hok 0%nat ltac:(lia)) as H0. pose proof (Hok 1%nat ltac:(lia)) as H1.
  pose proof (Hok 2%nat ltac:(lia)) as H2. pose proof (Hok 3%nat ltac:(lia)) as H3.
  clear Hok.
  unfold VkTexture.loadTexture, VkTexture.loadTexture_with, VkTexture.LOGI, VkTexture.LOGE,
    VkDevice.findMemoryType, VkDevice.LOGE.
  script w; run_script.
  all: destruct (scanMemoryTypes _ _ _ _); run_script.
  all: replace (fr + 1 + 1) with (fr + 2) by lia; replace (fr + 2 + 1) with (fr + 3) by lia.
  all: rewrite <- !app_assoc; cbn [app].
  all: repeat split; try reflexivity; try apply lookup_insert_eq.
  all: issued_compute; cbn [In]; auto 10.
Qed.

(** X7, witness: a texture on the sample renderer, which gets the handle 1. *)
Lemma loadTexture_registers_witness :
  value (VkTexture.loadTexture 4 4 0) (sample_ready []) =
    nextResourceId (res (renderer (sample_ready []))) /\
  nextResourceId (res (renderer (sample_ready []))) = 1.
Proof.
  split; [|vm_compute; reflexivity].
  pose proof (loadTexture_registers (sample_ready []) 4 4 0) as H. cbv zeta in H.
  destruct H as (H & _); [|exact H].
  intros k Hk. unfold result_at.
  replace (results (vk (sample_ready []))) with (@nil VkResult) by (vm_compute; reflexivity).
  destruct k; reflexivity.
Defined.

(** X8.  [compileShader] of vk_shader.cpp: when the shader module is created
    it returns the value of the identifier counter, moves the counter on and
    registers the module under that handle with the stage it was given, cast
    to the unsigned enumeration type (a stage of -1 is stored as 4294967295),
    which it does not look at; when the module cannot be created it returns 0
    and leaves the renderer and the live objects as they were. *)
Theorem compileShader_registers_or_refuses (w : World) (codeSize stg : Z) :
  let run := VkShader.compileShader codeSize stg in
  let handle := nextResourceId (res (renderer w)) in
  let shader := {| module := fresh (vk w); stage := uint32 stg |} in
  let rs := res (renderer (exec run w)) in
  (result_at 0 w = VK_SUCCESS ->
     value run w = handle /\
     shaders rs !! handle = Some shader /\
     shaders rs = <[handle := shader]> (shaders (res (renderer w))) /\
     nextResourceId rs = uint64 (handle + 1) /\
     live (vk (exec run w)) = live (vk w) ++ [(KShaderModule, fresh (vk w))]) /\
  (result_at 0 w = VK_ERROR ->
     value run w = 0 /\
     renderer (exec run w) = renderer w /\
     live (vk (exec run w)) = live (vk w) /\
     issued w (exec run w) =
       [CmdCreate (ShaderModuleCreateInfo (uint64 codeSize)) VK_ERROR VK_NULL_HANDLE]).
Proof.
  cbv zeta. unfold VkShader.compileShader, VkShader.LOGI, VkShader.LOGE.
  split; intros H0; script w; run_script.
  all: repeat split; try reflexivity; try apply lookup_insert_eq.
  issued_compute. reflexivity.
Qed.

(** ** The device report *)

Lemma dotted_not_empty (a b c : Z) : dotted a b c <> EmptyString.
Proof.
  unfold dotted. destruct (to_string a) as [|x s]; cbn [String.append]; discriminate.
Qed.

(** X9.  The two definitions of [getVulkanInfo] return the same report exactly
    when a physical device has been picked and it is neither a virtual GPU nor
    a CPU.  With no device picked, vk_utils.cpp returns its local variable as
    it was default-initialised, with four empty strings and with [int] and
    [bool] members that were given no value, which is never what
    vulkan_renderer_native.cpp returns, whose version string is never empty; a
    virtual GPU and a CPU are named by vk_utils.cpp and are "Other" for
    vulkan_renderer_native.cpp. *)
Theorem getVulkanInfo_variants_agree (r : Renderer) :
  let type := deviceType (deviceProperties (dev r)) in
  (VkUtils.getVulkanInfo r = Native.getVulkanInfo r <->
   physicalDevice (dev r) <> VK_NULL_HANDLE /\
   type <> VK_PHYSICAL_DEVICE_TYPE_VIRTUAL_GPU /\ type <> VK_PHYSICAL_DEVICE_TYPE_CPU) /\
  (physicalDevice (dev r) = VK_NULL_HANDLE ->
     let info := VkUtils.getVulkanInfo r in
     info = VulkanInfo_default /\
     (info_deviceName info, info_apiVersion info, info_driverVersion info,
      info_deviceType info) = (EmptyString, EmptyString, EmptyString, EmptyString) /\
     (info_vendorId info, info_maxTextureSize info) = (None, None) /\
     (info_supportsRayTracing info, info_supportsMeshShaders info) = (None, None)) /\
  (physicalDevice (dev r) <> VK_NULL_HANDLE -> type = VK_PHYSICAL_DEVICE_TYPE_VIRTUAL_GPU ->
     info_deviceType (VkUtils.getVulkanInfo r) = "Virtual GPU"%string /\
     info_deviceType (Native.getVulkanInfo r) = "Other"%string) /\
  (physicalDevice (dev r) <> VK_NULL_HANDLE -> type = VK_PHYSICAL_DEVICE_TYPE_CPU ->
     info_deviceType (VkUtils.getVulkanInfo r) = "CPU"%string /\
     info_deviceType (Native.getVulkanInfo r) = "Other"%string).
Proof.
  cbv zeta. unfold VkUtils.getVulkanInfo, Native.getVulkanInfo.
  set (props := deviceProperties (dev r)).
  fold (dotted (VK_VERSION_MAJOR (apiVersion props)) (VK_VERSION_MINOR (apiVersion props))
          (VK_VERSION_PATCH (apiVersion props))).
  unfold VK_PHYSICAL_DEVICE_TYPE_VIRTUAL_GPU, VK_PHYSICAL_DEVICE_TYPE_CPU,
    VK_PHYSICAL_DEVICE_TYPE_DISCRETE_GPU, VK_PHYSICAL_DEVICE_TYPE_INTEGRATED_GPU.
  destruct (Z.eqb_spec (physicalDevice (dev r)) VK_NULL_HANDLE) as [E|E].
  - split; [|split; [|split]]; try (intros; contradiction).
    2:{ intros _. cbv zeta. repeat split; discriminate. }
    split.
    + intros H. apply (f_equal info_apiVersion) in H.
      cbn [info_apiVersion VulkanInfo_default] in H.
      symmetry in H. apply dotted_not_empty in H. destruct H.
    + intros [H _]. contradiction.
  - split; [|split; [|split]].
    + split.
      * intros H. apply (f_equal info_deviceType) in H. cbn [info_deviceType] in H.
        split; [exact E|].
        split; intros Ht; rewrite Ht in H; cbn in H; discriminate.
      * intros (_ & H3 & H4).
        destruct (Z.eqb_spec (deviceType props) 2); [reflexivity|].
        destruct (Z.eqb_spec (deviceType props) 1); [reflexivity|].
        destruct (Z.eqb_spec (deviceType props) 3); [contradiction|].
        destruct (Z.eqb_spec (deviceType props) 4); [contradiction|].
        reflexivity.
    + intros H. contradiction.
    + intros _ ->. cbn. auto.
    + intros _ ->. cbn. auto.
Qed.

(** ** The logical device *)

Lemma set_insert_In (x y : Z) (s : list Z) :
  In y (VkDevice.set_insert x s) <-> y = x \/ In y s.
Proof.
  induction s as [|z s IH]; cbn [VkDevice.set_insert In].
  - intuition congruence.
  - destruct (Z.ltb_spec x z); [cbn [In]; intuition congruence|].
    destruct (Z.eqb_spec x z) as [->|]; cbn [In]; [intuition congruence|].
    rewrite IH. intuition congruence.
Qed.

Lemma set_insert_sorted (x : Z) (s : list Z) :
  StronglySorted Z.lt s -> StronglySorted Z.lt (VkDevice.set_insert x s).
Proof.
  induction s as [|z s IH]; intros Hs; cbn [VkDevice.set_insert].
  - repeat constructor.
  - apply StronglySorted_inv in Hs as [Hs Hz].
    destruct (Z.ltb_spec x z).
    + constructor; [constructor; assumption|].
      constructor; [assumption|]. eapply Forall_impl; [exact Hz|]. cbn. intros; lia.
    + destruct (Z.eqb_spec x z) as [->|Hne]; [constructor; assumption|].
      constructor; [apply IH, Hs|].
      apply List.Forall_forall. intros y Hy. apply set_insert_In in Hy as [->|Hy]; [lia|].
      rewrite List.Forall_forall in Hz. apply Hz, Hy.
Qed.

(** X10.  When [createLogicalDevice] succeeds, in either file, the device is
    created with a list of queue families that is strictly increasing, so that
    no family is asked for twice, and every queue is then requested from the
    new device for a family of that list.  vk_device.cpp lists the graphics
    family and the families it uses for compute and transfer;
    vulkan_renderer_native.cpp lists the graphics family alone and takes the
    three queues from it. *)
Theorem createLogicalDevice_queues_from_listed_families (w : World) :
  let well_formed (create : M bool) :=
    value create w = true ->
    exists families,
      In (CmdCreate (DeviceCreateInfo (physicalDevice (dev (renderer w))) families)
            VK_SUCCESS (fresh (vk w))) (issued w (exec create w)) /\
      StronglySorted Z.lt families /\
      In (graphicsQueueFamily (dev (renderer (exec create w)))) families /\
      (forall d f q, In (CmdGetDeviceQueue d f q) (issued w (exec create w)) ->
                     d = fresh (vk w) /\ In f families) /\
      device (dev (renderer (exec create w))) = fresh (vk w) in
  well_formed VkDevice.createLogicalDevice /\
  well_formed Native.createLogicalDevice /\
  (value Native.createLogicalDevice w = true ->
     let d := dev (renderer (exec Native.createLogicalDevice w)) in
     computeQueue d = graphicsQueue d /\ transferQueue d = graphicsQueue d).
Proof.
  cbv zeta.
  unfold VkDevice.createLogicalDevice, Native.createLogicalDevice, VkDevice.LOGI,
    VkDevice.LOGE, Native.LOGI, Native.LOGE.
  msimpl. rewrite !scanQueueFamilies_run. mcbn.
  set (families := match lookup_device _ _ with Some pd => pd_queueFamilies pd | None => [] end).
  split; [|split].
  - set (g := last_family VK_QUEUE_GRAPHICS_BIT families 0 UINT32_MAX).
    destruct (g =? UINT32_MAX); mcbn; [discriminate|].
    destruct (next_result (vk w)); mcbn; [intros _|discriminate].
    eexists. issued_compute. cbn [app In].
    split; [left; reflexivity|].
    split; [repeat apply set_insert_sorted; constructor|].
    split; [rewrite !set_insert_In; auto|].
    split; [|reflexivity].
    intros d f q H. rewrite !set_insert_In.
    destruct H as [H|[H|[H|[H|[]]]]]; try discriminate; injection H as <- <- _; auto.
  - set (g := last_family VK_QUEUE_GRAPHICS_BIT families 0 _).
    destruct (g =? UINT32_MAX); mcbn; [discriminate|].
    destruct (last_family VK_QUEUE_COMPUTE_BIT families 0 _ =? UINT32_MAX),
             (last_family VK_QUEUE_TRANSFER_BIT families 0 _ =? UINT32_MAX); mcbn.
    all: destruct (next_result (vk w)); mcbn; [intros _|discriminate].
    all: exists [g]; issued_compute; cbn [app In].
    all: split; [left; reflexivity|].
    all: split; [repeat constructor|].
    all: split; [auto|].
    all: split; [|reflexivity].
    all: intros d f q H.
    all: destruct H as [H|[H|[]]]; try discriminate; injection H as <- <- _; auto.
  - set (g := last_family VK_QUEUE_GRAPHICS_BIT families 0 _).
    destruct (g =? UINT32_MAX); mcbn; [discriminate|].
    destruct (last_family VK_QUEUE_COMPUTE_BIT families 0 _ =? UINT32_MAX),
             (last_family VK_QUEUE_TRANSFER_BIT families 0 _ =? UINT32_MAX); mcbn.
    all: destruct (next_result (vk w)); mcbn; [intros _|discriminate].
    all: auto.
Qed.

(** ** Initialisation *)

Lemma nth_tl {A} (k : nat) (l : list A) (d : A) : nth (S k) l d = nth k (tl l) d.
Proof. destruct l; [destruct k|]; reflexivity. Qed.

Lemma nth_hd {A} (l : list A) (d : A) : nth 0 l d = hd d l.
Proof. destruct l; reflexivity. Qed.

Lemma families_of_first (p : Platform) (pd : PhysicalDevice) (pds : list PhysicalDevice) :
  physicalDevices p = pd :: pds ->
  match lookup_device p (pd_handle pd) with
  | Some d => pd_queueFamilies d
  | None => []
  end = first_device_families p.
Proof.
  intros E. rewrite (lookup_first_device _ _ _ E). unfold first_device_families.
  rewrite E. reflexivity.
Qed.

(** The case analysis on the results of the script, one creating command
    after the other. *)
Ltac refuted_at Hall E k :=
  let H := fresh in
  pose proof (Hall k ltac:(lia)) as H; rewrite ?nth_tl, nth_hd in H;
  unfold next_result in E; cbn [results issue] in E; congruence.
Ltac failed :=
  split; [discriminate|];
  let Hall := fresh "Hall" in
  intros _ _ Hall; exfalso;
  match goal with
  | E : next_result _ = VK_ERROR |- _ =>
      first [ refuted_at Hall E 0%nat | refuted_at Hall E 1%nat | refuted_at Hall E 2%nat
            | refuted_at Hall E 3%nat | refuted_at Hall E 4%nat | refuted_at Hall E 5%nat
            | refuted_at Hall E 6%nat | refuted_at Hall E 7%nat ]
  end.
Ltac next_result_cases :=
  match goal with
  | |- context [match next_result ?d with VK_SUCCESS => _ | VK_ERROR => _ end] =>
      let E := fresh "E" in destruct (next_result d) eqn:E; mcbn; [|failed]
  end.

(** [initialize] on a new renderer: when it returns true, and what it leaves. *)
Lemma initialize_run (p : Platform) (script : list VkResult) (images : list Z) :
  let w := constructed (boot p script images) in
  let w' := exec Native.initialize w in
  let r' := renderer w' in
  (value Native.initialize w = true ->
     (exists i, offers VK_QUEUE_GRAPHICS_BIT (first_device_families p) i) /\
     (forall k, (k < 8)%nat -> nth k script VK_SUCCESS = VK_SUCCESS) /\
     live (vk w') =
       [(KInstance, 1); (KDevice, 2); (KCommandPool, 3); (KCommandPool, 4);
        (KSemaphore, 5); (KSemaphore, 6); (KFence, 7); (KDescriptorPool, 8)] /\
     fresh (vk w') = 9 /\
     (instance (dev r'), device (dev r')) = (1, 2) /\
     (commandPool (frame r'), computeCommandPool (frame r')) = (3, 4) /\
     (imageAvailableSemaphore (frame r'), renderFinishedSemaphore (frame r'),
      inFlightFence (frame r')) = (5, 6, 7) /\
     descriptorPool (frame r') = 8 /\
     commandBuffers (frame r') = [] /\
     pres r' = pres Native.VulkanRendererNative /\
     res r' = res Native.VulkanRendererNative) /\
  (Z.of_nat (length (first_device_families p)) <= UINT32_MAX ->
   (exists i, offers VK_QUEUE_GRAPHICS_BIT (first_device_families p) i) ->
   (forall k, (k < 8)%nat -> nth k script VK_SUCCESS = VK_SUCCESS) ->
   value Native.initialize w = true).
Proof.
  cbv zeta.
  assert (Hno : Z.of_nat (length (first_device_families p)) <= UINT32_MAX ->
                (exists i, offers VK_QUEUE_GRAPHICS_BIT (first_device_families p) i) ->
                last_family VK_QUEUE_GRAPHICS_BIT (first_device_families p) 0 UINT32_MAX
                  <> UINT32_MAX).
  { intros Hlen (i & Hi) E. exact (proj1 (last_family_max _ _ Hlen) E i Hi). }
  assert (Hyes : last_family VK_QUEUE_GRAPHICS_BIT (first_device_families p) 0 UINT32_MAX
                   <> UINT32_MAX ->
                 exists i, offers VK_QUEUE_GRAPHICS_BIT (first_device_families p) i).
  { intros Hne.
    destruct (last_family_spec VK_QUEUE_GRAPHICS_BIT (first_device_families p) 0 UINT32_MAX)
      as [(j & [Hj _] & _) | [_ E]]; [eauto | contradiction]. }
  unfold constructed, boot, Native.VulkanRendererNative. unfold_initialize. msimpl.
  next_result_cases.
  destruct (physicalDevices p) as [|pd pds] eqn:Hpd; cbn [length Nat.eqb]; mcbn.
  { split; [discriminate|].
    intros _ (i & Hi) _. apply offers_lt in Hi. unfold first_device_families in Hi.
    rewrite Hpd in Hi. cbn in Hi. lia. }
  rewrite scanQueueFamilies_run. mcbn.
  rewrite (families_of_first p pd pds Hpd).
  destruct (Z.eqb_spec (last_family VK_QUEUE_GRAPHICS_BIT (first_device_families p) 0 UINT32_MAX)
              UINT32_MAX) as [Hg|Hg]; mcbn.
  { split; [discriminate|]. intros Hlen Hex _. destruct (Hno Hlen Hex Hg). }
  destruct (last_family VK_QUEUE_COMPUTE_BIT _ 0 UINT32_MAX =? UINT32_MAX),
           (last_family VK_QUEUE_TRANSFER_BIT _ 0 UINT32_MAX =? UINT32_MAX); mcbn.
  all: do 7 next_result_cases.
  all: split; [intros _|reflexivity].
  all: split; [exact (Hyes Hg)|].
  all: split; [|repeat split; reflexivity].
  all: intros k Hk.
  all: do 8 (destruct k as [|k]; [rewrite ?nth_tl, nth_hd; assumption|]).
  all: lia.
Qed.

(** X11.  [initialize], on a new renderer, returns true exactly when the device
    that is enumerated first has a queue family with graphics and the eight
    creating commands it issues all succeed: instance, device, two command
    pools, two semaphores, fence, descriptor pool.  When it returns true these
    eight objects, and no other, are live, each held in its member, and the
    members of the presentation and the resource tables are as the constructor
    left them. *)
Theorem initialize_succeeds_iff (p : Platform) (script : list VkResult) (images : list Z) :
  Z.of_nat (length (first_device_families p)) <= UINT32_MAX ->
  let w := constructed (boot p script images) in
  let w' := exec Native.initialize w in
  let r' := renderer w' in
  (value Native.initialize w = true <->
     (exists i, offers VK_QUEUE_GRAPHICS_BIT (first_device_families p) i) /\
     (forall k, (k < 8)%nat -> nth k script VK_SUCCESS = VK_SUCCESS)) /\
  (value Native.initialize w = true ->
     live (vk w') =
       [(KInstance, 1); (KDevice, 2); (KCommandPool, 3); (KCommandPool, 4);
        (KSemaphore, 5); (KSemaphore, 6); (KFence, 7); (KDescriptorPool, 8)] /\
     fresh (vk w') = 9 /\
     (instance (dev r'), device (dev r')) = (1, 2) /\
     (commandPool (frame r'), computeCommandPool (frame r')) = (3, 4) /\
     (imageAvailableSemaphore (frame r'), renderFinishedSemaphore (frame r'),
      inFlightFence (frame r')) = (5, 6, 7) /\
     descriptorPool (frame r') = 8 /\
     commandBuffers (frame r') = [] /\
     pres r' = pres Native.VulkanRendererNative /\
     res r' = res Native.VulkanRendererNative).
Proof.
  intros Hlen. cbv zeta.
  destruct (initialize_run p script images) as (Hthen & Hif). cbv zeta in Hthen, Hif.
  split; [split|].
  - intros H. destruct (Hthen H) as (Ha & Hb & _). auto.
  - intros [Ha Hb]. apply Hif; assumption.
  - intros H. apply Hthen in H. tauto.
Qed.

(** X11, witness: the sample platform, with nothing failing. *)
Lemma initialize_succeeds_iff_witness :
  value Native.initialize (sample_world []) = true.
Proof.
  pose proof (initialize_succeeds_iff sample_platform [] [1; 2; 0]) as H.
  cbv zeta in H. destruct H as (H & _); [vm_compute; discriminate|].
  apply H. split.
  - exists 0%nat. exists 7. split; [reflexivity | vm_compute; discriminate].
  - intros k Hk. destruct k; reflexivity.
Defined.

(** ** What [shutdown] releases *)

Lemma filter_twice {A} (f g : A -> bool) (l : list A) :
  List.filter f (List.filter g l) = List.filter (fun x => g x && f x) l.
Proof.
  induction l as [|x l IH]; [reflexivity|]. cbn [List.filter].
  destruct (g x); cbn [List.filter andb]; [destruct (f x)|]; rewrite IH; reflexivity.
Qed.

Lemma live_destroy_all (k : ObjKind) (hs : list Z) :
  forall d,
  live (fold_left (fun d h => destroy k h d) hs d) =
    List.filter (fun o => negb (among k hs o)) (live d).
Proof.
  induction hs as [|h hs IH]; intros d; cbn [fold_left].
  - unfold among. cbn [existsb negb]. symmetry. apply forallb_filter_id.
    apply forallb_forall. reflexivity.
  - rewrite IH. cbn [destroy live]. rewrite filter_twice. apply List.filter_ext.
    intros o. unfold among. cbn [existsb]. rewrite negb_orb. reflexivity.
Qed.

Lemma stable_exec {A T} (proj : World -> T) (c : M A) (w : World) :
  stable proj c -> proj (exec c w) = proj w.
Proof. intros H. apply H. Qed.

Lemma live_guarded (k : ObjKind) (h : Z) (f : Renderer -> Renderer) (w : World) :
  live (vk (exec (if negb (h =? VK_NULL_HANDLE) then vkDestroy k h ;; assign f else ret tt) w))
  = List.filter (fun o => negb (holds k h o)) (live (vk w)).
Proof.
  unfold holds. destruct (h =? VK_NULL_HANDLE); cbn [negb andb].
  - symmetry. apply forallb_filter_id. apply forallb_forall. reflexivity.
  - msimpl. reflexivity.
Qed.

Lemma Native_destroySwapchain_live (w : World) :
  live (vk (exec Native.destroySwapchain w)) =
    List.filter (fun o => negb (presentation_objects (pres (renderer w)) o)) (live (vk w)).
Proof.
  unfold Native.destroySwapchain.
  rewrite exec_bind. change (exec this w) with w. change (value this w) with (renderer w).
  cbv beta. set (p := pres (renderer w)).
  rewrite !exec_bind.
  rewrite !live_guarded.
  rewrite (stable_exec (fun w => live (vk w)) (assign _)) by (intros ?; reflexivity).
  unfold exec at 1. rewrite for_each_destroy. cbn [snd vk]. rewrite live_destroy_all.
  rewrite (stable_exec (fun w => live (vk w)) (assign _)) by (intros ?; reflexivity).
  unfold exec at 1. rewrite for_each_destroy. cbn [snd vk]. rewrite live_destroy_all.
  rewrite !filter_twice. apply List.filter_ext. intros o.
  unfold presentation_objects. btauto.
Qed.

Lemma shutdown_block_live (w : World) :
  let r := renderer w in
  let block :=
    command (CmdDeviceWaitIdle (device (dev r))) ;;
    assign (on_res (set_meshes ∅)) ;;
    assign (on_res (set_textures ∅)) ;;
    assign (on_res (set_shaders ∅)) ;;
    assign (on_res (set_pipelines ∅)) ;;
    (if negb (inFlightFence (frame r) =? VK_NULL_HANDLE) then
       vkDestroy KFence (inFlightFence (frame r)) ;;
       assign (on_frame (set_inFlightFence VK_NULL_HANDLE))
     else ret tt) ;;
    (if negb (renderFinishedSemaphore (frame r) =? VK_NULL_HANDLE) then
       vkDestroy KSemaphore (renderFinishedSemaphore (frame r)) ;;
       assign (on_frame (set_renderFinishedSemaphore VK_NULL_HANDLE))
     else ret tt) ;;
    (if negb (imageAvailableSemaphore (frame r) =? VK_NULL_HANDLE) then
       vkDestroy KSemaphore (imageAvailableSemaphore (frame r)) ;;
       assign (on_frame (set_imageAvailableSemaphore VK_NULL_HANDLE))
     else ret tt) ;;
    Native.destroySwapchain ;;
    (if negb (descriptorPool (frame r) =? VK_NULL_HANDLE) then
       vkDestroy KDescriptorPool (descriptorPool (frame r)) ;;
       assign (on_frame (set_descriptorPool VK_NULL_HANDLE))
     else ret tt) ;;
    (if negb (commandPool (frame r) =? VK_NULL_HANDLE) then
       vkDestroy KCommandPool (commandPool (frame r)) ;;
       assign (on_frame (set_commandPool VK_NULL_HANDLE))
     else ret tt) ;;
    (if negb (computeCommandPool (frame r) =? VK_NULL_HANDLE) then
       vkDestroy KCommandPool (computeCommandPool (frame r)) ;;
       assign (on_frame (set_computeCommandPool VK_NULL_HANDLE))
     else ret tt) ;;
    vkDestroy KDevice (device (dev r)) ;;
    assign (on_dev (set_device VK_NULL_HANDLE)) in
  live (vk (exec block w)) =
    List.filter
      (fun o => negb (holds KFence (inFlightFence (frame r)) o
                      || holds KSemaphore (renderFinishedSemaphore (frame r)) o
                      || holds KSemaphore (imageAvailableSemaphore (frame r)) o
                      || presentation_objects (pres r) o
                      || holds KDescriptorPool (descriptorPool (frame r)) o
                      || holds KCommandPool (commandPool (frame r)) o
                      || holds KCommandPool (computeCommandPool (frame r)) o
                      || is_object KDevice (device (dev r)) o))
      (live (vk w)).
Proof.
  cbv zeta. set (r := renderer w).
  rewrite !exec_bind.
  rewrite (stable_exec (fun w => live (vk w)) (assign _)) by (intros ?; reflexivity).
  match goal with |- live (vk (exec (vkDestroy ?k ?h) ?w0)) = _ =>
    change (live (vk (exec (vkDestroy k h) w0)))
      with (List.filter (fun o => negb (is_object k h o)) (live (vk w0)))
  end.
  rewrite !live_guarded, Native_destroySwapchain_live, !live_guarded.
  match goal with |- context [presentation_objects (pres (renderer ?w0))] =>
    assert (Hp : pres (renderer w0) = pres r)
  end.
  { repeat (rewrite (stable_exec (fun w => pres (renderer w))); [|solve [stable_solve]]).
    reflexivity. }
  rewrite Hp.
  repeat (rewrite (stable_exec (fun w => live (vk w))); [|solve [stable_solve]]).
  rewrite !filter_twice. apply List.filter_ext. intros o. btauto.
Qed.

Lemma shutdown_live (w : World) :
  live (vk (exec Native.shutdown w)) =
    List.filter (fun o => negb (released (renderer w) o)) (live (vk w)).
Proof.
  unfold Native.shutdown, Native.shutdown_with.
  rewrite exec_bind. change (exec this w) with w. change (value this w) with (renderer w).
  cbv beta. set (r := renderer w).
  rewrite exec_bind.
  set (block := if negb (device (dev r) =? VK_NULL_HANDLE) then _ else ret tt).
  rewrite exec_bind.
  change (exec this (exec block w)) with (exec block w).
  change (value this (exec block w)) with (renderer (exec block w)). cbv beta.
  assert (Hs : surface (pres (renderer (exec block w))) = surface (pres r)).
  { subst block. apply (stable_exec (fun w => surface (pres (renderer w)))).
    destruct (negb (device (dev r) =? VK_NULL_HANDLE)); stable_solve. }
  assert (Hi : instance (dev (renderer (exec block w))) = instance (dev r)).
  { subst block. apply (stable_exec (fun w => instance (dev (renderer w)))).
    destruct (negb (device (dev r) =? VK_NULL_HANDLE)); stable_solve. }
  rewrite Hs, Hi, exec_bind, !live_guarded.
  assert (Hb : live (vk (exec block w)) =
               List.filter
                 (fun o => negb (negb (device (dev r) =? VK_NULL_HANDLE)
                                 && (holds KFence (inFlightFence (frame r)) o
                      || holds KSemaphore (renderFinishedSemaphore (frame r)) o
                      || holds KSemaphore (imageAvailableSemaphore (frame r)) o
                      || presentation_objects (pres r) o
                      || holds KDescriptorPool (descriptorPool (frame r)) o
                      || holds KCommandPool (commandPool (frame r)) o
                      || holds KCommandPool (computeCommandPool (frame r)) o
                      || is_object KDevice (device (dev r)) o)))
                 (live (vk w))).
  { subst block. destruct (device (dev r) =? VK_NULL_HANDLE); cbn [negb andb].
    - symmetry. apply forallb_filter_id. apply forallb_forall. reflexivity.
    - apply shutdown_block_live. }
  rewrite Hb, !filter_twice. apply List.filter_ext. intros o. unfold released. fold r.
  btauto.
Qed.

Lemma released_not_resource (r : Renderer) (o : ObjKind * Z) :
  resource_kind (fst o) = true -> released r o = false.
Proof.
  destruct o as [k h]. cbn [fst]. intros Hk.
  assert (H : forall k' h', (k' <> k) -> k' <> KCommandPool \/ (forall p, k <> KCommandBuffer p) ->
                            is_object k' h' (k, h) = false).
  { intros k' h' Hne Hp. unfold is_object. apply orb_false_iff. split.
    - apply bool_decide_eq_false. intros E. injection E as E _. congruence.
    - apply andb_false_iff. destruct Hp as [Hp|Hp].
      + left. apply bool_decide_eq_false. exact Hp.
      + right. apply bool_decide_eq_false. cbn [fst]. apply Hp. }
  assert (Ha : forall k' hs, (k' <> k) -> k' <> KCommandPool -> among k' hs (k, h) = false).
  { intros k' hs Hne Hp. unfold among. induction hs as [|x hs IH]; [reflexivity|].
    cbn [existsb]. rewrite (H k' x) by auto. exact IH. }
  unfold released, presentation_objects, holds.
  destruct k; try discriminate Hk.
  all: rewrite ?H, ?Ha, ?andb_false_r by (try right; congruence || (intros; discriminate)).
  all: reflexivity.
Qed.

Lemma shutdown_spares_resources : emits spares_resources Native.shutdown.
Proof. grows_solve. Qed.

(** X12.  [shutdown] empties the four resource tables when there is a device,
    and destroys none of the objects that stand behind their entries: a
    buffer, a device memory, an image, a sampler or a shader module that is
    live before [shutdown] is live after it, and no destruction command it
    issues names an object of these kinds. *)
Theorem shutdown_keeps_resource_objects (w : World) :
  let w' := exec Native.shutdown w in
  (device (dev (renderer w)) <> VK_NULL_HANDLE ->
     meshes (res (renderer w')) = ∅ /\ textures (res (renderer w')) = ∅ /\
     shaders (res (renderer w')) = ∅ /\ pipelines (res (renderer w')) = ∅) /\
  (forall o, resource_kind (fst o) = true ->
     In o (live (vk w)) -> In o (live (vk w'))) /\
  Forall spares_resources (issued w w').
Proof.
  cbv zeta. split; [|split].
  - intros Hd. unfold Native.shutdown, Native.shutdown_with.
    rewrite exec_bind. change (exec this w) with w. change (value this w) with (renderer w).
    cbv beta. apply Z.eqb_neq in Hd. rewrite Hd. cbn [negb].
    rewrite !exec_bind.
    change (value this ?w0) with (renderer w0). cbv beta.
    repeat (rewrite (stable_exec (fun w => res (renderer w))); [|solve [stable_solve]]).
    msimpl. auto.
  - intros o Hk Hin. rewrite shutdown_live.
    apply filter_In. split; [exact Hin|]. rewrite released_not_resource by exact Hk.
    reflexivity.
  - destruct (shutdown_spares_resources w) as (l & E & F). cbn beta in E.
    rewrite (issued_app _ _ _ E). exact F.
Qed.

(** X13.  [shutdown] destroys the objects that the members of the renderer
    hold, and no other: the live objects it leaves are those that were live
    and that no member holds.  With no device, what it destroys is the
    surface and the instance. *)
Theorem shutdown_releases_what_members_hold (w : World) :
  let r := renderer w in
  let w' := exec Native.shutdown w in
  live (vk w') = List.filter (fun o => negb (released r o)) (live (vk w)) /\
  (forall o, In o (live (vk w')) <-> In o (live (vk w)) /\ released r o = false) /\
  (device (dev r) = VK_NULL_HANDLE ->
   forall o, released r o =
             holds KSurface (surface (pres r)) o || holds KInstance (instance (dev r)) o).
Proof.
  cbv zeta. split; [apply shutdown_live|]. split.
  - intros o. rewrite shutdown_live, filter_In, negb_true_iff. reflexivity.
  - intros Hd o. unfold released. rewrite Hd. reflexivity.
Qed.

(** ** A renderer that holds every live object *)

Lemma is_object_self (k : ObjKind) (h : Z) : is_object k h (k, h) = true.
Proof. unfold is_object. rewrite bool_decide_eq_true_2 by reflexivity. reflexivity. Qed.

Lemma is_object_null (k : ObjKind) (o : ObjKind * Z) :
  k <> KCommandPool -> 0 < snd o -> is_object k 0 o = false.
Proof.
  intros Hk Ho. unfold is_object. apply orb_false_iff. split.
  - apply bool_decide_eq_false. intros ->. cbn in Ho. lia.
  - apply andb_false_iff. left. apply bool_decide_eq_false. exact Hk.
Qed.

Lemma among_In (k : ObjKind) (hs : list Z) (o : ObjKind * Z) :
  among k hs o = true <-> exists h, In h hs /\ is_object k h o = true.
Proof. unfold among. apply existsb_exists. Qed.

Lemma among_insert (k : ObjKind) (hs : list Z) (i : nat) (h : Z) (o : ObjKind * Z) :
  k <> KCommandPool -> 0 < snd o -> nth i hs 0 = 0 ->
  among k hs o = true -> among k (<[i := h]> hs) o = true.
Proof.
  intros Hk Ho Hnull. rewrite !among_In. intros (x & Hin & Hx).
  exists x. split; [|exact Hx].
  apply list_elem_of_In, list_elem_of_lookup in Hin as (j & Hj).
  apply list_elem_of_In, list_elem_of_lookup. exists j.
  rewrite list_lookup_insert_ne; [exact Hj|].
  intros <-. rewrite (nth_lookup_Some _ _ 0 _ Hj) in Hnull. subst x.
  rewrite is_object_null in Hx by assumption. discriminate.
Qed.

Lemma among_insert_new (k : ObjKind) (hs : list Z) (i : nat) (h : Z) :
  (i < length hs)%nat -> among k (<[i := h]> hs) (k, h) = true.
Proof.
  intros Hi. apply among_In. exists h. split; [|apply is_object_self].
  apply list_elem_of_In, list_elem_of_lookup. exists i. apply list_lookup_insert_eq. exact Hi.
Qed.

Lemma insert_null (hs : list Z) (i : nat) : nth i hs 0 = 0 -> <[i := 0]> hs = hs.
Proof.
  intros H. destruct (hs !! i) as [x|] eqn:E.
  - apply list_insert_id. rewrite (nth_lookup_Some _ _ 0 _ E) in H. subst x. exact E.
  - apply list_insert_ge. apply lookup_ge_None. exact E.
Qed.

(** [H : e = true], taken apart into the cases of its disjunctions. *)
Ltac split_true H :=
  lazymatch type of H with
  | (_ || _) = true => apply orb_true_iff in H; destruct H as [H|H]; split_true H
  | (_ && _) = true =>
      let H' := fresh H in
      apply andb_true_iff in H; destruct H as [H' H]; split_true H'; split_true H
  | _ => idtac
  end.

(** [e = true], from a disjunct of [e] that holds by assumption. *)
Ltac find_true :=
  lazymatch goal with
  | |- (_ || _) = true =>
      apply orb_true_iff; first [solve [left; find_true] | solve [right; find_true]]
  | |- (_ && _) = true => apply andb_true_iff; split; find_true
  | |- _ => solve [assumption | reflexivity | auto]
  end.

(** The same simplifications as [msimpl], in the goal alone. *)
Ltac gsimpl :=
  unfold value, exec, vkCreateInto, vkCreate, vkDestroy, vkAllocateCommandBuffers,
    vkFreeCommandBuffers, vkAcquireNextImageKHR, vkEnumeratePhysicalDevices,
    vkGetPhysicalDeviceQueueFamilyProperties, vkGetPhysicalDeviceMemoryProperties,
    vkGetDeviceQueue, vkGetSwapchainImagesKHR, vkGetBufferMemoryRequirements,
    vkGetImageMemoryRequirements, take_resource_id, command, driver, log, assign, this,
    bind, ret;
  cbn [value exec fst snd bind ret this assign log command driver issue
       renderer vk logcat platform results acquired fresh live calls
       dev pres frame res on_dev on_pres on_frame on_res
       instance physicalDevice device graphicsQueue computeQueue transferQueue
       deviceProperties graphicsQueueFamily computeQueueFamily transferQueueFamily
       set_instance set_physicalDevice set_device set_graphicsQueue set_computeQueue
       set_transferQueue set_deviceProperties set_graphicsQueueFamily
       set_computeQueueFamily set_transferQueueFamily
       surface swapchain swapchainImages swapchainImageViews framebuffers renderPass
       swapchainExtent swapchainFormat
       set_surface set_swapchain set_swapchainImages set_swapchainImageViews
       set_framebuffers set_renderPass set_swapchainExtent set_swapchainFormat
       commandPool computeCommandPool commandBuffers imageAvailableSemaphore
       renderFinishedSemaphore inFlightFence descriptorPool descriptorSetLayout
       currentFrame imageIndex
       set_commandPool set_computeCommandPool set_commandBuffers
       set_imageAvailableSemaphore set_renderFinishedSemaphore set_inFlightFence
       set_descriptorPool set_imageIndex
       meshes textures shaders pipelines nextResourceId
       set_meshes set_textures set_shaders set_pipelines set_nextResourceId
       negb succeeded kind_of handles_taken].

Lemma released_views (r : Renderer) (vs : list Z) (o : ObjKind * Z) :
  (among KImageView (swapchainImageViews (pres r)) o = true -> among KImageView vs o = true) ->
  released r o = true ->
  released (on_pres (set_swapchainImageViews vs) r) o = true.
Proof.
  intros Himp Hr. unfold released, presentation_objects in *. mcbn.
  split_true Hr; find_true.
Qed.

Lemma released_framebuffers (r : Renderer) (fs : list Z) (o : ObjKind * Z) :
  (among KFramebuffer (framebuffers (pres r)) o = true -> among KFramebuffer fs o = true) ->
  released r o = true ->
  released (on_pres (set_framebuffers fs) r) o = true.
Proof.
  intros Himp Hr. unfold released, presentation_objects in *. mcbn.
  split_true Hr; find_true.
Qed.

Lemma released_new_view (r : Renderer) (vs : list Z) (i : nat) (h : Z) :
  device (dev r) <> VK_NULL_HANDLE -> (i < length vs)%nat ->
  released (on_pres (set_swapchainImageViews (<[i := h]> vs)) r) (KImageView, h) = true.
Proof.
  intros Hd Hi. unfold released, presentation_objects. mcbn.
  pose proof (among_insert_new KImageView vs i h Hi).
  apply Z.eqb_neq in Hd. rewrite Hd. cbn [negb andb]. find_true.
Qed.

Lemma released_new_framebuffer (r : Renderer) (fs : list Z) (i : nat) (h : Z) :
  device (dev r) <> VK_NULL_HANDLE -> (i < length fs)%nat ->
  released (on_pres (set_framebuffers (<[i := h]> fs)) r) (KFramebuffer, h) = true.
Proof.
  intros Hd Hi. unfold released, presentation_objects. mcbn.
  pose proof (among_insert_new KFramebuffer fs i h Hi).
  apply Z.eqb_neq in Hd. rewrite Hd. cbn [negb andb]. find_true.
Qed.

Lemma nth_insert_other (hs : list Z) (i j : nat) (h : Z) :
  i <> j -> nth j (<[i := h]> hs) 0 = nth j hs 0.
Proof.
  intros Hne. rewrite !nth_lookup. rewrite list_lookup_insert_ne by exact Hne. reflexivity.
Qed.

Lemma Native_createImageViews_tidy (images : list Z) :
  forall (i : nat) (w : World),
  tidy w ->
  (i + length images <= length (swapchainImageViews (pres (renderer w))))%nat ->
  (forall j, (i <= j)%nat -> nth j (swapchainImageViews (pres (renderer w))) 0 = 0) ->
  tidy (exec (Native.createImageViews images i) w).
Proof.
  induction images as [|img rest IH]; intros i w Ht Hlen Hnull;
    cbn [Native.createImageViews].
  - exact Ht.
  - rewrite exec_bind. change (exec this w) with w. change (value this w) with (renderer w).
    cbv beta. rewrite exec_bind.
    set (create := vkCreate _ _). rewrite exec_bind.
    set (w1 := exec (assign _) (exec create w)).
    cbn [length] in Hlen.
    assert (H1 : tidy w1 /\
                 length (swapchainImageViews (pres (renderer w1))) =
                   length (swapchainImageViews (pres (renderer w))) /\
                 forall j, (S i <= j)%nat ->
                   nth j (swapchainImageViews (pres (renderer w1))) 0 = 0).
    { destruct Ht as (Hd & Hp & Hf & Hall).
      unfold tidy. subst w1 create. gsimpl. destruct (next_result (vk w)); gsimpl.
      - split; [|split].
        + split; [exact Hd|]. split; [exact Hp|]. split; [lia|].
          apply Forall_app. split.
          * eapply Forall_impl; [exact Hall|]. cbn beta. intros o [Ho Hr].
            split; [lia|]. apply released_views; [|exact Hr].
            apply among_insert; [discriminate | lia | apply Hnull; lia].
          * constructor; [|constructor]. cbn [snd]. split; [lia|].
            apply released_new_view; [exact Hd | lia].
        + apply length_insert.
        + intros j Hj. rewrite nth_insert_other by lia. apply Hnull. lia.
      - change VK_NULL_HANDLE with 0.
        rewrite (Hnull i) by lia. rewrite insert_null by (apply Hnull; lia).
        split; [|split; [reflexivity | intros j Hj; apply Hnull; lia]].
        split; [exact Hd|]. split; [exact Hp|]. split; [exact Hf|].
        eapply Forall_impl; [exact Hall|]. cbn beta. intros o [Ho Hr].
        split; [exact Ho|]. apply released_views; [auto | exact Hr]. }
    destruct H1 as (Ht1 & Hl1 & Hn1).
    apply IH; [exact Ht1 | lia | exact Hn1].
Qed.

Lemma createFramebuffers_from_tidy (views : list Z) :
  forall (i : nat) (w : World),
  tidy w ->
  (i + length views <= length (framebuffers (pres (renderer w))))%nat ->
  (forall j, (i <= j)%nat -> nth j (framebuffers (pres (renderer w))) 0 = 0) ->
  tidy (exec (Native.createFramebuffers_from views i) w).
Proof.
  induction views as [|view rest IH]; intros i w Ht Hlen Hnull;
    cbn [Native.createFramebuffers_from].
  - exact Ht.
  - rewrite exec_bind. change (exec this w) with w. change (value this w) with (renderer w).
    cbv beta. rewrite exec_bind.
    set (create := vkCreate _ _). rewrite exec_bind.
    set (w1 := exec (assign _) (exec create w)).
    cbn [length] in Hlen.
    assert (H1 : tidy w1 /\
                 length (framebuffers (pres (renderer w1))) =
                   length (framebuffers (pres (renderer w))) /\
                 forall j, (S i <= j)%nat ->
                   nth j (framebuffers (pres (renderer w1))) 0 = 0).
    { destruct Ht as (Hd & Hp & Hf & Hall).
      unfold tidy. subst w1 create. gsimpl. destruct (next_result (vk w)); gsimpl.
      - split; [|split].
        + split; [exact Hd|]. split; [exact Hp|]. split; [lia|].
          apply Forall_app. split.
          * eapply Forall_impl; [exact Hall|]. cbn beta. intros o [Ho Hr].
            split; [lia|]. apply released_framebuffers; [|exact Hr].
            apply among_insert; [discriminate | lia | apply Hnull; lia].
          * constructor; [|constructor]. cbn [snd]. split; [lia|].
            apply released_new_framebuffer; [exact Hd | lia].
        + apply length_insert.
        + intros j Hj. rewrite nth_insert_other by lia. apply Hnull. lia.
      - change VK_NULL_HANDLE with 0.
        rewrite (Hnull i) by lia. rewrite insert_null by (apply Hnull; lia).
        split; [|split; [reflexivity | intros j Hj; apply Hnull; lia]].
        split; [exact Hd|]. split; [exact Hp|]. split; [exact Hf|].
        eapply Forall_impl; [exact Hall|]. cbn beta. intros o [Ho Hr].
        split; [exact Ho|]. apply released_framebuffers; [auto | exact Hr]. }
    destruct H1 as (Ht1 & Hl1 & Hn1).
    destruct (negb (succeeded (fst (value create w)))); [exact Ht1|].
    apply IH; [exact Ht1 | lia | exact Hn1].
Qed.

(** A member that held nothing takes a new object. *)
Lemma holds_null (k : ObjKind) (o : ObjKind * Z) : holds k 0 o = false.
Proof. reflexivity. Qed.

Lemma holds_self (k : ObjKind) (h : Z) : h <> 0 -> holds k h (k, h) = true.
Proof.
  intros Hh. unfold holds. apply Z.eqb_neq in Hh. unfold VK_NULL_HANDLE. rewrite Hh.
  apply is_object_self.
Qed.

Lemma released_surface (r : Renderer) (h : Z) (o : ObjKind * Z) :
  surface (pres r) = 0 -> released r o = true ->
  released (on_pres (set_surface h) r) o = true.
Proof.
  intros E Hr. unfold released in *. mcbn. rewrite E, holds_null in Hr.
  split_true Hr; try discriminate; find_true.
Qed.

Lemma released_swapchain (r : Renderer) (h : Z) (o : ObjKind * Z) :
  swapchain (pres r) = 0 -> released r o = true ->
  released (on_pres (set_swapchain h) r) o = true.
Proof.
  intros E Hr. unfold released, presentation_objects in *. mcbn. rewrite E, holds_null in Hr.
  split_true Hr; try discriminate; find_true.
Qed.

Lemma released_renderPass (r : Renderer) (h : Z) (o : ObjKind * Z) :
  renderPass (pres r) = 0 -> released r o = true ->
  released (on_pres (set_renderPass h) r) o = true.
Proof.
  intros E Hr. unfold released, presentation_objects in *. mcbn. rewrite E, holds_null in Hr.
  split_true Hr; try discriminate; find_true.
Qed.

Lemma released_new (r : Renderer) (k : ObjKind) (h : Z) :
  device (dev r) <> VK_NULL_HANDLE -> h <> 0 ->
  released (on_pres (set_surface h) r) (KSurface, h) = true /\
  released (on_pres (set_swapchain h) r) (KSwapchain, h) = true /\
  released (on_pres (set_renderPass h) r) (KRenderPass, h) = true.
Proof.
  intros Hd Hh. apply Z.eqb_neq in Hd.
  pose proof (holds_self KSurface h Hh). pose proof (holds_self KSwapchain h Hh).
  pose proof (holds_self KRenderPass h Hh).
  unfold released, presentation_objects. mcbn. rewrite Hd. cbn [negb andb].
  repeat split; find_true.
Qed.

Lemma released_command_buffer (r : Renderer) (h : Z) :
  device (dev r) <> VK_NULL_HANDLE -> commandPool (frame r) <> VK_NULL_HANDLE ->
  released r (KCommandBuffer (commandPool (frame r)), h) = true.
Proof.
  intros Hd Hp. apply Z.eqb_neq in Hd. apply Z.eqb_neq in Hp.
  assert (H : holds KCommandPool (commandPool (frame r))
                (KCommandBuffer (commandPool (frame r)), h) = true).
  { unfold holds, is_object. rewrite Hp. cbn [negb andb fst].
    apply orb_true_iff. right. rewrite !bool_decide_eq_true_2 by reflexivity. reflexivity. }
  unfold released. rewrite Hd. cbn [negb andb]. find_true.
Qed.

(** The steps of the construction sequence. *)

Lemma Native_createSwapchain_tidy (w : World) :
  tidy w -> swapchain (pres (renderer w)) = 0 -> swapchainImageViews (pres (renderer w)) = [] ->
  tidy (exec Native.createSwapchain w).
Proof.
  intros Ht Hsc Hvs. unfold Native.createSwapchain.
  rewrite exec_bind. set (w0 := exec (assign _) w).
  assert (Ht0 : tidy w0) by exact Ht.
  rewrite exec_bind. change (exec this w0) with w0. change (value this w0) with (renderer w0).
  cbv beta. rewrite exec_bind.
  set (create := vkCreateInto _ _ _).
  assert (H1 : tidy (exec create w0) /\
               swapchainImageViews (pres (renderer (exec create w0))) = []).
  { destruct Ht as (Hd & Hp & Hf & Hall).
    unfold tidy. subst create w0. gsimpl. destruct (next_result (vk w)); gsimpl.
    - split; [|exact Hvs].
      split; [exact Hd|]. split; [exact Hp|]. split; [lia|].
      apply Forall_app. split.
      + eapply Forall_impl; [exact Hall|]. cbn beta. intros o [Ho Hr].
        split; [lia|]. apply released_swapchain; [exact Hsc | exact Hr].
      + constructor; [|constructor]. cbn [snd]. split; [lia|].
        apply (released_new _ KSwapchain); [exact Hd | lia].
    - rewrite Hsc. split; [|exact Hvs].
      split; [exact Hd|]. split; [exact Hp|]. split; [exact Hf|].
      eapply Forall_impl; [exact Hall|]. cbn beta. intros o [Ho Hr].
      split; [exact Ho|]. apply released_swapchain; [exact Hsc | exact Hr]. }
  destruct H1 as (Ht1 & Hv1).
  destruct (negb (succeeded (value create w0))); [exact Ht1|].
  set (w1 := exec create w0) in *. clearbody w1. clear Ht0 Ht create. clearbody w0.
  rewrite exec_bind. change (exec this ?x) with x. change (value this ?x) with (renderer x).
  cbv beta. rewrite exec_bind.
  set (w2 := exec (vkGetSwapchainImagesKHR _) _).
  set (images := value (vkGetSwapchainImagesKHR _) _).
  rewrite !exec_bind.
  change (exec (ret true) ?x) with x.
  apply Native_createImageViews_tidy.
  - destruct Ht1 as (Hd & Hp & Hf & Hall). subst w2. unfold tidy. gsimpl.
    split; [exact Hd|]. split; [exact Hp|]. split; [exact Hf|].
    eapply Forall_impl; [exact Hall|]. cbn beta. intros o [Ho Hr].
    split; [exact Ho|]. apply released_views; [|exact Hr].
    gsimpl. rewrite Hv1. unfold among. cbn [existsb]. discriminate.
  - subst w2. gsimpl. rewrite Hv1. unfold resize. cbn [take length app Nat.sub].
    rewrite take_nil. cbn [app]. rewrite length_replicate. lia.
  - intros j _. subst w2. gsimpl. rewrite Hv1. unfold resize. rewrite take_nil. cbn [app].
    rewrite nth_lookup. destruct (replicate _ _ !! j) as [x|] eqn:E; [|reflexivity].
    apply lookup_replicate in E as [-> _]. reflexivity.
Qed.

Lemma Native_createImageViews_rest (images : list Z) :
  forall i, stable (fun w => (renderPass (pres (renderer w)), framebuffers (pres (renderer w))))
              (Native.createImageViews images i).
Proof.
  induction images as [|img rest IH]; intros i; cbn [Native.createImageViews]; stable_solve.
Qed.

Lemma Native_createSwapchain_rest :
  stable (fun w => (renderPass (pres (renderer w)), framebuffers (pres (renderer w))))
    Native.createSwapchain.
Proof. pose proof Native_createImageViews_rest. stable_solve. Qed.

Lemma Native_createRenderPass_tidy (w : World) :
  tidy w -> renderPass (pres (renderer w)) = 0 -> tidy (exec Native.createRenderPass w).
Proof.
  intros (Hd & Hp & Hf & Hall) Hrp. unfold Native.createRenderPass, tidy. gsimpl.
  destruct (next_result (vk w)); gsimpl.
  - split; [exact Hd|]. split; [exact Hp|]. split; [lia|].
    apply Forall_app. split.
    + eapply Forall_impl; [exact Hall|]. cbn beta. intros o [Ho Hr].
      split; [lia|]. apply released_renderPass; [exact Hrp | exact Hr].
    + constructor; [|constructor]. cbn [snd]. split; [lia|].
      apply (released_new _ KRenderPass); [exact Hd | lia].
  - rewrite Hrp. split; [exact Hd|]. split; [exact Hp|]. split; [exact Hf|].
    eapply Forall_impl; [exact Hall|]. cbn beta. intros o [Ho Hr].
    split; [exact Ho|]. apply released_renderPass; [exact Hrp | exact Hr].
Qed.

Lemma nth_replicate_null (n j : nat) : nth j (replicate n 0) 0 = 0.
Proof.
  rewrite nth_lookup. destruct (replicate n 0 !! j) as [x|] eqn:E; [|reflexivity].
  apply lookup_replicate in E as [-> _]. reflexivity.
Qed.

Lemma Native_createFramebuffers_tidy (w : World) :
  tidy w -> framebuffers (pres (renderer w)) = [] -> tidy (exec Native.createFramebuffers w).
Proof.
  intros Ht Hfb. unfold Native.createFramebuffers.
  rewrite exec_bind. change (exec this w) with w. change (value this w) with (renderer w).
  cbv beta. rewrite exec_bind. set (w1 := exec (assign _) w).
  assert (E : framebuffers (pres (renderer w1)) =
              replicate (length (swapchainImageViews (pres (renderer w)))) 0).
  { subst w1. gsimpl. rewrite Hfb. unfold resize. rewrite take_nil. cbn [app length].
    rewrite Nat.sub_0_r. reflexivity. }
  apply createFramebuffers_from_tidy.
  - destruct Ht as (Hd & Hp & Hf & Hall). subst w1. unfold tidy. gsimpl.
    split; [exact Hd|]. split; [exact Hp|]. split; [exact Hf|].
    eapply Forall_impl; [exact Hall|]. cbn beta. intros o [Ho Hr].
    split; [exact Ho|]. apply released_framebuffers; [|exact Hr].
    rewrite Hfb. unfold among. cbn [existsb]. discriminate.
  - rewrite E, length_replicate. lia.
  - intros j _. rewrite E. apply nth_replicate_null.
Qed.

Lemma handles_from_range (first : Z) (count : nat) (h : Z) :
  In h (handles_from first count) -> first <= h < first + Z.of_nat count.
Proof.
  unfold handles_from. intros Hin. apply in_map_iff in Hin as (i & <- & Hi).
  apply in_seq in Hi. lia.
Qed.

Lemma Native_createCommandBuffers_tidy (w : World) :
  tidy w -> tidy (exec Native.createCommandBuffers w).
Proof.
  intros (Hd & Hp & Hf & Hall). unfold Native.createCommandBuffers, tidy. cbv zeta. gsimpl.
  destruct (next_result (vk w)); gsimpl.
  - split; [exact Hd|]. split; [exact Hp|]. split; [lia|].
    apply Forall_app. split.
    + eapply Forall_impl; [exact Hall|]. cbn beta. intros o [Ho Hr]. split; [lia | exact Hr].
    + apply List.Forall_forall. intros o Hin. apply in_map_iff in Hin as (h & <- & Hh).
      apply handles_from_range in Hh. cbn [snd]. split; [lia|].
      apply (released_command_buffer (renderer w)); assumption.
  - split; [exact Hd|]. split; [exact Hp|]. split; [exact Hf|]. exact Hall.
Qed.

Lemma build_presentation_tidy (w : World) :
  tidy w -> unbuilt (pres (renderer w)) -> tidy (exec build_presentation w).
Proof.
  intros Ht (Hsc & Hvs & Hfb & Hrp). unfold build_presentation.
  rewrite !exec_bind. cbv beta. change (exec (ret tt) ?x) with x.
  apply Native_createCommandBuffers_tidy.
  pose proof (Native_createSwapchain_rest w) as Hrest. cbn beta in Hrest.
  injection Hrest as Hrp1 Hfb1. unfold VK_NULL_HANDLE in *.
  assert (Hrest2 : framebuffers (pres (renderer (exec Native.createRenderPass
                                   (exec Native.createSwapchain w)))) =
                   framebuffers (pres (renderer (exec Native.createSwapchain w)))).
  { apply (stable_exec (fun w => framebuffers (pres (renderer w)))). stable_solve. }
  apply Native_createFramebuffers_tidy; [|congruence].
  apply Native_createRenderPass_tidy; [|congruence].
  apply Native_createSwapchain_tidy; assumption.
Qed.

Lemma Native_setSurface_tidy (w : World) (window wd ht : Z) :
  tidy w -> unbuilt (pres (renderer w)) -> surface (pres (renderer w)) = 0 ->
  tidy (exec (Native.setSurface window wd ht) w).
Proof.
  intros Ht Hun Hsf. unfold Native.setSurface, Native.setSurface_with, Native.LOGI, Native.LOGE.
  rewrite exec_bind. set (w0 := exec (log _ _ _ _) w).
  assert (Ht0 : tidy w0) by exact Ht.
  assert (Hun0 : unbuilt (pres (renderer w0))) by exact Hun.
  assert (Hsf0 : surface (pres (renderer w0)) = 0) by exact Hsf.
  clearbody w0. clear Ht Hun Hsf.
  rewrite exec_bind. set (create := vkCreateInto _ _ _).
  assert (H1 : tidy (exec create w0) /\ unbuilt (pres (renderer (exec create w0)))).
  { destruct Ht0 as (Hd & Hp & Hf & Hall).
    unfold tidy. subst create. gsimpl. destruct (next_result (vk w0)); gsimpl.
    - split; [|exact Hun0].
      split; [exact Hd|]. split; [exact Hp|]. split; [lia|].
      apply Forall_app. split.
      + eapply Forall_impl; [exact Hall|]. cbn beta. intros o [Ho Hr].
        split; [lia|]. apply released_surface; [exact Hsf0 | exact Hr].
      + constructor; [|constructor]. cbn [snd]. split; [lia|].
        apply (released_new _ KSurface); [exact Hd | lia].
    - rewrite Hsf0. split; [|exact Hun0].
      split; [exact Hd|]. split; [exact Hp|]. split; [exact Hf|].
      eapply Forall_impl; [exact Hall|]. cbn beta. intros o [Ho Hr].
      split; [exact Ho|]. apply released_surface; [exact Hsf0 | exact Hr]. }
  destruct H1 as (Ht1 & Hun1).
  destruct (negb (succeeded (value create w0))); [exact Ht1|].
  set (w1 := exec create w0) in *. clearbody w1.
  rewrite exec_bind.
  apply (build_presentation_tidy (exec (assign _) w1)); [exact Ht1 | exact Hun1].
Qed.

Lemma Native_destroySwapchain_tidy (w : World) :
  tidy w ->
  tidy (exec Native.destroySwapchain w) /\
  unbuilt (pres (renderer (exec Native.destroySwapchain w))).
Proof.
  intros (Hd & Hp & Hf & Hall).
  destruct (Native_destroySwapchain_run w) as (Hr & _).
  pose proof (Native_destroySwapchain_live w) as Hl.
  assert (Hfresh : fresh (vk (exec Native.destroySwapchain w)) = fresh (vk w)).
  { apply (stable_exec (fun w => fresh (vk w))). stable_solve. }
  split.
  - unfold tidy. rewrite Hr, Hl, Hfresh.
    split; [exact Hd|]. split; [exact Hp|]. split; [exact Hf|].
    apply List.Forall_forall. intros o Hin. apply filter_In in Hin as [Hin Hno].
    rewrite List.Forall_forall in Hall. destruct (Hall o Hin) as [Ho Hrel].
    split; [exact Ho|]. apply negb_true_iff in Hno.
    unfold released in *. unfold torn_down. mcbn.
    split_true Hrel; try congruence; find_true.
  - rewrite Hr. unfold unbuilt, torn_down. mcbn. auto.
Qed.

Lemma Native_recreateSwapchain_tidy (w : World) :
  tidy w -> tidy (exec Native.recreateSwapchain w).
Proof.
  intros Ht. unfold Native.recreateSwapchain, Native.recreateSwapchain_with.
  rewrite exec_bind. change (exec this w) with w. change (value this w) with (renderer w).
  cbv beta. rewrite exec_bind. set (w0 := exec (command _) w).
  assert (Ht0 : tidy w0) by exact Ht. clearbody w0.
  rewrite exec_bind.
  destruct (Native_destroySwapchain_tidy w0 Ht0) as (Ht1 & Hun1).
  apply (build_presentation_tidy _ Ht1 Hun1).
Qed.

Lemma use_tidy (u : Use) (w : World) : tidy w -> tidy (exec (use u) w).
Proof.
  intros Ht. destruct u; cbn [use].
  - destruct Ht as (Hd & Hp & Hf & Hall). unfold Native.beginFrame, tidy. gsimpl.
    auto.
  - exact Ht.
  - apply Native_recreateSwapchain_tidy, Ht.
Qed.

Lemma uses_tidy (us : list Use) : forall w, tidy w -> tidy (exec (for_each us use) w).
Proof.
  induction us as [|u us IH]; intros w Ht; cbn [for_each].
  - exact Ht.
  - rewrite exec_bind. apply IH, use_tidy, Ht.
Qed.

Lemma shutdown_tidy (w : World) : tidy w -> live (vk (exec Native.shutdown w)) = [].
Proof.
  intros (_ & _ & _ & Hall). rewrite shutdown_live.
  induction (live (vk w)) as [|o os IH]; [reflexivity|].
  apply Forall_cons in Hall as [[_ Ho] Hos]. cbn [List.filter]. rewrite Ho. cbn [negb].
  apply IH, Hos.
Qed.

Lemma initialize_tidy (p : Platform) (script : list VkResult) (images : list Z) :
  let w := constructed (boot p script images) in
  value Native.initialize w = true ->
  tidy (exec Native.initialize w) /\
  unbuilt (pres (renderer (exec Native.initialize w))) /\
  surface (pres (renderer (exec Native.initialize w))) = 0.
Proof.
  cbv zeta. intros Hok.
  destruct (initialize_run p script images) as (Hthen & _). cbv zeta in Hthen.
  destruct (Hthen Hok) as (_ & _ & Hl & Hf & Hi & Hp & Hs & Hdp & _ & Hpres & _).
  set (w' := exec Native.initialize _) in *. clearbody w'.
  injection Hi as Hi Hd. injection Hp as Hp Hcp. injection Hs as Hs1 Hs2 Hs3.
  split; [|split].
  - unfold tidy. rewrite Hl, Hf, Hd, Hp.
    split; [discriminate|]. split; [discriminate|]. split; [lia|].
    unfold released, presentation_objects. rewrite Hd, Hi, Hp, Hcp, Hs1, Hs2, Hs3, Hdp, Hpres.
    repeat constructor; cbn [snd]; try lia; vm_compute; reflexivity.
  - rewrite Hpres. repeat split.
  - rewrite Hpres. reflexivity.
Qed.

(** X14.  A renderer that was initialised with success, was given a surface
    once, went through any sequence of [beginFrame], [endFrame] and
    [recreateSwapchain], and is then destroyed leaves no Vulkan object behind,
    whatever failed on the way after [initialize]: every object that is live
    before [shutdown] is held in a member, and [shutdown], which the destructor
    runs, destroys it. *)
Theorem renderer_lifecycle_leaves_nothing
    (p : Platform) (script : list VkResult) (images : list Z)
    (window wd ht : Z) (uses : list Use) :
  let w0 := constructed (boot p script images) in
  value Native.initialize w0 = true ->
  let w1 := exec (Native.setSurface window wd ht) (exec Native.initialize w0) in
  let w2 := exec (for_each uses use) w1 in
  Forall (fun o => released (renderer w2) o = true) (live (vk w2)) /\
  live (vk (exec NativeRest.destructor w2)) = [] /\
  live (vk (exec Native.shutdown (exec Native.initialize w0))) = [].
Proof.
  cbv zeta. intros Hok.
  destruct (initialize_tidy p script images Hok) as (Ht & Hun & Hsf).
  pose proof (Native_setSurface_tidy _ window wd ht Ht Hun Hsf) as Ht1.
  pose proof (uses_tidy uses _ Ht1) as Ht2.
  split; [|split].
  - destruct Ht2 as (_ & _ & _ & Hall). eapply Forall_impl; [exact Hall|].
    cbn beta. tauto.
  - apply shutdown_tidy, Ht2.
  - apply shutdown_tidy, Ht.
Qed.

(** X14, witness: the sample renderer, two frames and a new swapchain, with
    the third image view and a framebuffer failing on the way. *)
Lemma renderer_lifecycle_leaves_nothing_witness :
  live (vk (exec NativeRest.destructor
              (exec (for_each [UseBeginFrame; UseEndFrame; UseRecreateSwapchain;
                               UseBeginFrame; UseEndFrame] use)
                 (exec (Native.setSurface 5 800 600)
                    (exec Native.initialize
                       (constructed
                          (boot sample_platform
                             (repeat VK_SUCCESS 12 ++ [VK_ERROR; VK_SUCCESS; VK_ERROR])
                             [1; 2; 0]))))))) = [].
Proof.
  apply (renderer_lifecycle_leaves_nothing sample_platform
           (repeat VK_SUCCESS 12 ++ [VK_ERROR; VK_SUCCESS; VK_ERROR]) [1; 2; 0] 5 800 600
           [UseBeginFrame; UseEndFrame; UseRecreateSwapchain; UseBeginFrame; UseEndFrame]).
  vm_compute. reflexivity.
Defined.

(** ** A second surface *)

Lemma Native_createImageViews_live (images : list Z) :
  forall i, grows (fun w => live (vk w)) (fun _ => True) (Native.createImageViews images i).
Proof.
  induction images as [|img rest IH]; intros i; cbn [Native.createImageViews]; grows_solve.
Qed.

Lemma createFramebuffers_from_live (views : list Z) :
  forall i, grows (fun w => live (vk w)) (fun _ => True)
              (Native.createFramebuffers_from views i).
Proof.
  induction views as [|v rest IH]; intros i; cbn [Native.createFramebuffers_from];
    grows_solve.
Qed.

Lemma Native_setSurface_live (window wd ht : Z) :
  grows (fun w => live (vk w)) (fun _ => True) (Native.setSurface window wd ht).
Proof.
  pose proof Native_createImageViews_live. pose proof createFramebuffers_from_live.
  grows_solve.
Qed.

Lemma is_object_other_kind (k k' : ObjKind) (h h' : Z) :
  k <> k' -> (forall pool, k' <> KCommandBuffer pool) -> is_object k h (k', h') = false.
Proof.
  intros Hne Hp. unfold is_object. apply orb_false_iff. split.
  - apply bool_decide_eq_false. intros E. injection E as E _. congruence.
  - apply andb_false_iff. right. apply bool_decide_eq_false. cbn [fst]. apply Hp.
Qed.

Lemma among_other_kind (k k' : ObjKind) (hs : list Z) (h' : Z) :
  k <> k' -> (forall pool, k' <> KCommandBuffer pool) -> among k hs (k', h') = false.
Proof.
  intros Hne Hp. unfold among. induction hs as [|x hs IH]; [reflexivity|].
  cbn [existsb]. rewrite is_object_other_kind by assumption. exact IH.
Qed.

Lemma released_other_surface (r : Renderer) (old : Z) :
  old <> surface (pres r) -> released r (KSurface, old) = false.
Proof.
  intros Hne. unfold released, presentation_objects, holds.
  rewrite !among_other_kind by (intros; discriminate).
  rewrite !(is_object_other_kind KFence), !(is_object_other_kind KSemaphore),
    !(is_object_other_kind KRenderPass), !(is_object_other_kind KSwapchain),
    !(is_object_other_kind KDescriptorPool), !(is_object_other_kind KCommandPool),
    !(is_object_other_kind KDevice), !(is_object_other_kind KInstance)
    by (intros; discriminate).
  assert (E : is_object KSurface (surface (pres r)) (KSurface, old) = false).
  { unfold is_object. apply orb_false_iff. split.
    - apply bool_decide_eq_false. intros E. injection E as E. congruence.
    - reflexivity. }
  rewrite E, !andb_false_r. reflexivity.
Qed.

Lemma setSurface_surface (w : World) (window wd ht : Z) :
  next_result (vk w) = VK_SUCCESS ->
  surface (pres (renderer (exec (Native.setSurface window wd ht) w))) = fresh (vk w).
Proof.
  intros Hok. unfold Native.setSurface, Native.setSurface_with, Native.LOGI, Native.LOGE.
  rewrite exec_bind. set (w0 := exec (log _ _ _ _) w).
  rewrite exec_bind. set (create := vkCreateInto _ _ _).
  assert (H : value create w0 = VK_SUCCESS /\
              surface (pres (renderer (exec create w0))) = fresh (vk w)).
  { subst create w0. gsimpl. rewrite Hok. gsimpl. auto. }
  destruct H as (Hv & Hs). rewrite Hv. cbn [succeeded negb].
  rewrite exec_bind.
  rewrite (build_presentation_surface (exec (assign _) (exec create w0))).
  exact Hs.
Qed.

(** X15.  [setSurface] destroys nothing and forgets the surface it had: when
    it is called on a renderer that already has a surface and the new surface
    is created, the member takes the new handle, the old surface stays live,
    and [shutdown] does not destroy it. *)
Theorem setSurface_again_leaks_the_surface (w : World) (window wd ht old : Z) :
  In (KSurface, old) (live (vk w)) ->
  sound (vk w) ->
  result_at 0 w = VK_SUCCESS ->
  let w' := exec (Native.setSurface window wd ht) w in
  Forall creates (issued w w') /\
  surface (pres (renderer w')) = fresh (vk w) /\
  surface (pres (renderer w')) <> old /\
  In (KSurface, old) (live (vk w')) /\
  In (KSurface, old) (live (vk (exec Native.shutdown w'))).
Proof.
  intros Hin Hs Hok. cbv zeta. rewrite result_at_0 in Hok.
  assert (Hold : old < fresh (vk w)).
  { unfold sound in Hs. rewrite List.Forall_forall in Hs. exact (Hs _ Hin). }
  pose proof (setSurface_surface w window wd ht Hok) as Hsf.
  destruct (Native_setSurface_live window wd ht w) as (l & El & _). cbn beta in El.
  assert (Hin' : In (KSurface, old)
                   (live (vk (exec (Native.setSurface window wd ht) w)))).
  { rewrite El. apply in_or_app. left. exact Hin. }
  split; [|split; [exact Hsf | split; [lia | split; [exact Hin'|]]]].
  - assert (He : emits creates (Native.setSurface window wd ht)) by grows_solve.
    destruct (He w) as (cs & Ec & F). cbn beta in Ec. rewrite (issued_app _ _ _ Ec). exact F.
  - rewrite shutdown_live. apply filter_In. split; [exact Hin'|].
    rewrite released_other_surface by lia. reflexivity.
Qed.

(** X15, witness: a second surface on the sample renderer. *)
Lemma setSurface_again_leaks_the_surface_witness :
  In (KSurface, 9)
    (live (vk (exec Native.shutdown (exec (Native.setSurface 6 640 480) sample_attached)))).
Proof.
  apply (setSurface_again_leaks_the_surface sample_attached 6 640 480 9).
  - vm_compute. auto 20.
  - unfold sound. vm_compute. repeat constructor.
  - vm_compute. reflexivity.
Defined.

(** ** What [createSwapchain] returns *)

Lemma result_at_S (k : nat) (w w1 : World) :
  results (vk w1) = tl (results (vk w)) -> result_at k w1 = result_at (S k) w.
Proof. intros E. unfold result_at. rewrite E, nth_tl. reflexivity. Qed.

Lemma VkSwapchain_createImageViews_value (images : list Z) :
  forall (i : nat) (w : World),
  value (VkSwapchain.createImageViews images i) w = true <->
  forall k, (k < length images)%nat -> result_at k w = VK_SUCCESS.
Proof.
  induction images as [|img rest IH]; intros i w; cbn [VkSwapchain.createImageViews length].
  - split; [intros _ k Hk; lia | reflexivity].
  - rewrite value_bind. change (exec this w) with w. change (value this w) with (renderer w).
    cbv beta. rewrite value_bind. set (create := vkCreate _ _). rewrite value_bind.
    set (w1 := exec (assign _) (exec create w)).
    assert (H : fst (value create w) = result_at 0 w /\
                results (vk w1) = tl (results (vk w))).
    { rewrite result_at_0. subst w1 create. unfold value, exec, vkCreate, assign, driver.
      cbn. destruct (next_result (vk w)); cbn; auto. }
    destruct H as (Hv & Hr). rewrite Hv.
    destruct (result_at 0 w) eqn:E0; cbn [succeeded negb].
    + rewrite IH. split.
      * intros H [|k] Hk; [exact E0|]. rewrite <- (result_at_S k w w1 Hr). apply H. lia.
      * intros H k Hk. rewrite (result_at_S k w w1 Hr). apply H. lia.
    + split; [discriminate|]. intros H. rewrite (H 0%nat) in E0 by lia. discriminate.
Qed.

Lemma Native_createImageViews_count (images : list Z) :
  forall (i : nat) (w : World),
  exists l, calls (vk (exec (Native.createImageViews images i) w)) = calls (vk w) ++ l /\
            length l = length images.
Proof.
  induction images as [|img rest IH]; intros i w; cbn [Native.createImageViews length].
  - exists []. rewrite app_nil_r. auto.
  - rewrite exec_bind. change (exec this w) with w. change (value this w) with (renderer w).
    cbv beta. rewrite exec_bind. set (create := vkCreate _ _). rewrite exec_bind.
    set (w1 := exec (assign _) (exec create w)).
    assert (H : exists c, calls (vk w1) = calls (vk w) ++ [c]).
    { subst w1 create. unfold exec, vkCreate, assign, driver. cbn.
      destruct (next_result (vk w)); cbn; eauto. }
    destruct H as (c & Hc). destruct (IH (S i) w1) as (l & El & Hl).
    exists (c :: l). rewrite El, Hc, <- app_assoc. cbn [app length]. auto.
Qed.

Lemma swapchain_is_live (d : Driver) :
  bool_decide ((KSwapchain, fresh d) ∈ live d ++ [(KSwapchain, fresh d)]) = true.
Proof.
  apply bool_decide_eq_true_2, elem_of_app. right. apply list_elem_of_singleton. reflexivity.
Qed.

Lemma length_handles_from (first : Z) (count : nat) : length (handles_from first count) = count.
Proof. unfold handles_from. rewrite length_map, length_seq. reflexivity. Qed.

(** X16.  [createSwapchain] of vulkan_renderer_native.cpp returns true as soon
    as the swapchain itself is created: it then tries to create a view of
    every image, and does not look at the results.  [createSwapchain] of
    vk_swapchain.cpp returns true exactly when the swapchain and the views of
    all its images are created. *)
Theorem createSwapchain_result (w : World) :
  let n := swapchainImageCount (platform (vk w)) in
  value Native.createSwapchain w = succeeded (result_at 0 w) /\
  (result_at 0 w = VK_SUCCESS ->
     length (issued w (exec Native.createSwapchain w)) = S n) /\
  (value VkSwapchain.createSwapchain w = true <->
     forall k, (k <= n)%nat -> result_at k w = VK_SUCCESS).
Proof.
  cbv zeta. rewrite result_at_0. split; [|split].
  - unfold Native.createSwapchain. msimpl. destruct (next_result (vk w)); mcbn; [|reflexivity].
    match goal with |- context [Native.createImageViews ?imgs 0 ?w0] =>
      rewrite (run_eq (Native.createImageViews imgs 0) w0) end.
    reflexivity.
  - intros Hok. unfold Native.createSwapchain. msimpl. rewrite Hok. mcbn.
    rewrite swapchain_is_live.
    match goal with |- context [Native.createImageViews ?imgs 0 ?w0] =>
      destruct (Native_createImageViews_count imgs 0 w0) as (l & El & Hl);
      rewrite (run_eq (Native.createImageViews imgs 0) w0)
    end.
    cbv beta iota. cbn [fst snd]. erewrite issued_app.
    2:{ cbn [vk calls]. rewrite El. cbn [vk calls]. rewrite <- app_assoc. reflexivity. }
    cbn [app length]. rewrite Hl, length_handles_from. reflexivity.
  - unfold VkSwapchain.createSwapchain, VkSwapchain.LOGI, VkSwapchain.LOGE. msimpl.
    destruct (negb (width (currentExtent (capabilities (platform (vk w)))) =? UINT32_MAX));
      mcbn.
    all: destruct (next_result (vk w)) eqn:E0; mcbn.
    all: try (split; [discriminate|]; intros H; specialize (H 0%nat ltac:(lia));
              rewrite result_at_0, E0 in H; discriminate).
    all: rewrite swapchain_is_live.
    all: match goal with |- context [VkSwapchain.createImageViews ?imgs 0 ?w0] =>
           pose proof (VkSwapchain_createImageViews_value imgs 0 w0) as Hv;
           rewrite (run_eq (VkSwapchain.createImageViews imgs 0) w0);
           assert (Hr : results (vk w0) = tl (results (vk w))) by reflexivity;
           set (ok := value (VkSwapchain.createImageViews imgs 0) w0) in *; clearbody ok
         end.
    all: cbv beta iota; destruct ok; cbn [negb fst].
    all: split; intros H.
    all: try discriminate.
    all: try (intros [|k] Hk; [rewrite result_at_0; exact E0|];
              rewrite <- (result_at_S k w _ Hr); apply (proj1 Hv eq_refl);
              rewrite length_handles_from; lia).
    all: try reflexivity.
    all: apply (proj2 Hv); intros k Hk; rewrite length_handles_from in Hk;
         rewrite (result_at_S k w _ Hr); apply H; lia.
Qed.

(** ** Meshes *)

Lemma registers_mesh_bind {A} (count : Z) (c : M A) (k : A -> M Z) :
  stable renderer c -> (forall a, registers_mesh count (k a)) ->
  registers_mesh count (bind c k).
Proof.
  intros Hs Hk w. rewrite value_bind, exec_bind.
  destruct (Hk (value c w) (exec c w)) as (Hv & (mesh & Hm & Hc) & Hn & Ht & Hr).
  rewrite Hs in *. repeat split; eauto.
Qed.

Lemma loadMesh_registers (vertexCount count normalCount uvCount : Z) :
  registers_mesh count (VkBuffer.loadMesh vertexCount count normalCount uvCount).
Proof.
  unfold VkBuffer.loadMesh, VkBuffer.loadMesh_with. cbv zeta.
  repeat (apply registers_mesh_bind; [solve [stable_solve] | intros ?]).
  intros w0. unfold VkBuffer.LOGI. msimpl. repeat split; eauto.
Qed.

Lemma registers_such_bind {A} (P : Mesh -> Prop) (c : M A) (k : A -> M Z) :
  stable renderer c -> (forall a, registers_such P (k a)) -> registers_such P (bind c k).
Proof.
  intros Hs Hk w. rewrite exec_bind.
  destruct (Hk (value c w) (exec c w)) as (mesh & Hm & HP).
  rewrite Hs in Hm. eauto.
Qed.

Lemma loadMesh_defined_results (w : World) :
  VkBuffer.loadMesh_defined w = true ->
  result_at 0 w = VK_SUCCESS /\ result_at 1 w = VK_SUCCESS.
Proof.
  unfold VkBuffer.loadMesh_defined, result_at. intros H.
  apply andb_true_iff in H as (H0 & H1).
  destruct (nth 0 _ _), (nth 1 _ _); try discriminate; auto.
Qed.

Lemma createBuffer_refused (w : World) (sz usage properties buffer memory : Z) :
  next_result (vk w) = VK_ERROR ->
  value (VkBuffer.createBuffer sz usage properties buffer memory) w = (buffer, memory).
Proof.
  intros H0.
  unfold VkBuffer.createBuffer, VkBuffer.createBuffer_with, VkBuffer.LOGE.
  gsimpl. rewrite H0. gsimpl. reflexivity.
Qed.

Lemma createBuffer_takes_two (w : World) (sz usage properties buffer memory : Z) :
  result_at 0 w = VK_SUCCESS -> result_at 1 w = VK_SUCCESS ->
  let w' := exec (VkBuffer.createBuffer sz usage properties buffer memory) w in
  renderer w' = renderer w /\ next_result (vk w') = result_at 2 w.
Proof.
  intros H0 H1. cbv zeta.
  split; [apply (stable_exec renderer); stable_solve|].
  unfold VkBuffer.createBuffer, VkBuffer.createBuffer_with, VkDevice.findMemoryType,
    VkBuffer.LOGE, VkDevice.LOGE.
  script w; run_script.
  all: destruct (scanMemoryTypes _ _ _ _); run_script; unfold next_result; cbn [results nth].
  all: first [reflexivity | symmetry; apply nth_hd].
Qed.



(** ** Staging buffers *)

Lemma nth_iter_tl {A} (k : nat) (l : list A) (d : A) :
  nth k l d = hd d (Nat.iter k (@tl A) l).
Proof.
  revert l. induction k as [|k IH]; intros l.
  - apply nth_hd.
  - rewrite nth_tl, IH, Nat.iter_succ_r. reflexivity.
Qed.

Lemma advanced_next (n : nat) (k : Z) (extra : list (ObjKind * Z)) (w w' : World) :
  advanced n k extra w w' -> next_result (vk w') = result_at n w.
Proof.
  intros (_ & Hres & _). unfold next_result, result_at. rewrite Hres. symmetry.
  apply nth_iter_tl.
Qed.

Lemma advanced_next_but_one (n : nat) (k : Z) (extra : list (ObjKind * Z)) (w w' : World) :
  advanced n k extra w w' -> hd VK_SUCCESS (tl (results (vk w'))) = result_at (S n) w.
Proof.
  intros (_ & Hres & _). unfold result_at. rewrite Hres. symmetry.
  apply (nth_iter_tl (S n)).
Qed.

Lemma advanced_log (n : nat) (k : Z) (extra : list (ObjKind * Z)) (w w' : World)
    (p : LogPriority) (t fmt : string) (args : list Z) :
  advanced n k extra w w' -> advanced n k extra w (exec (log p t fmt args) w').
Proof. intros H. exact H. Qed.

Lemma advanced_command (n : nat) (k : Z) (extra : list (ObjKind * Z)) (w w' : World)
    (c : Command) :
  advanced n k extra w w' -> advanced n k extra w (exec (command c) w').
Proof. intros H. exact H. Qed.

Lemma createBuffer_advances (n : nat) (k : Z) (extra : list (ObjKind * Z)) (w w' : World)
    (sz usage properties buffer memory : Z) :
  advanced n k extra w w' ->
  result_at n w = VK_SUCCESS -> result_at (S n) w = VK_SUCCESS ->
  let c := VkBuffer.createBuffer sz usage properties buffer memory in
  let f := fresh (vk w) + k in
  value c w' = (f, f + 1) /\
  advanced (S (S n)) (k + 2) (extra ++ [(KBuffer, f); (KDeviceMemory, f + 1)]) w (exec c w').
Proof.
  intros A H0 H1. cbv zeta.
  rewrite <- (advanced_next _ _ _ _ _ A) in H0.
  rewrite <- (advanced_next_but_one _ _ _ _ _ A) in H1.
  destruct A as (Hr & Hres & Hf & Hl & Hs).
  unfold VkBuffer.createBuffer, VkBuffer.createBuffer_with, VkDevice.findMemoryType,
    VkBuffer.LOGE, VkDevice.LOGE, advanced.
  unfold next_result in H0. gsimpl. unfold next_result. rewrite H0. gsimpl.
  match goal with |- context [scanMemoryTypes ?a ?b ?c ?d] =>
    destruct (scanMemoryTypes a b c d) end.
  all: gsimpl; unfold next_result; cbn [results]; rewrite H1; gsimpl; cbn [handles_taken kind_of].
  all: cbn [issue fresh live]; rewrite Hl, Hres, <- !app_assoc; cbn [app Nat.iter].
  all: repeat split; try assumption; try (rewrite Hf; first [reflexivity | lia]).
  all: unfold sound, issue in *; cbn [fresh live]; rewrite Hl in Hs.
  all: rewrite !Forall_app in *; destruct Hs as (Ha & Hb); repeat split.
  all: try (eapply Forall_impl; [eassumption|cbv beta; intros; lia]).
  all: repeat constructor; cbn [snd]; lia.
Qed.

Lemma copyBuffer_advances (n : nat) (k : Z) (extra : list (ObjKind * Z)) (w w' : World)
    (src dst sz : Z) :
  advanced n k extra w w' ->
  result_at n w = VK_SUCCESS ->
  advanced (S n) (k + 1) extra w (exec (VkBuffer.copyBuffer src dst sz) w').
Proof.
  intros A H0. rewrite <- (advanced_next _ _ _ _ _ A) in H0.
  destruct A as (Hr & Hres & Hf & Hl & Hs).
  unfold VkBuffer.copyBuffer, advanced. gsimpl. rewrite H0. gsimpl.
  cbn [handles_from seq map hd]. rewrite Z.add_0_r.
  unfold issue; cbn [fresh live results].
  rewrite sound_free by (auto; lia). cbn [List.filter fst snd].
  rewrite bool_decide_eq_true_2 by reflexivity.
  rewrite bool_decide_eq_true_2 by (apply list_elem_of_singleton; reflexivity).
  cbn [andb negb]. rewrite app_nil_r.
  repeat split; try assumption.
  - rewrite Hres. reflexivity.
  - rewrite Hf. lia.
  - unfold sound in *. cbn [fresh live].
    eapply Forall_impl; [eassumption|cbv beta; intros; lia].
Qed.

Lemma destroy_advances (n : nat) (k : Z) (extra : list (ObjKind * Z)) (w w' : World)
    (kind : ObjKind) (h : Z) :
  advanced n k extra w w' ->
  sound (vk w) -> fresh (vk w) <= h -> kind <> KCommandPool ->
  advanced n k (List.filter (fun o => negb (is_object kind h o)) extra) w
    (exec (vkDestroy kind h) w').
Proof.
  intros (Hr & Hres & Hf & Hl & Hs) Hw Hh Hk. unfold advanced. gsimpl.
  unfold destroy. cbn [fresh live results].
  rewrite Hl, sound_new by assumption.
  repeat split; try assumption.
  unfold sound in *. cbn [fresh live]. rewrite Hl in Hs.
  rewrite !Forall_app in *. destruct Hs as (Ha & Hb). split; [exact Ha|].
  clear -Hb. induction extra as [|o os IH]; [constructor|].
  apply Forall_cons in Hb as (Ho & Hos). cbn [List.filter].
  destruct (negb (is_object kind h o)); auto.
Qed.

Lemma is_object_other (k k' : ObjKind) (h h' : Z) :
  k <> KCommandPool -> h <> h' -> is_object k h (k', h') = false.
Proof.
  intros Hk Hh. unfold is_object. apply orb_false_iff. split.
  - apply bool_decide_eq_false. intros E. injection E as _ E. congruence.
  - apply andb_false_iff. left. apply bool_decide_eq_false. exact Hk.
Qed.

Lemma is_object_same (k : ObjKind) (h h' : Z) : h = h' -> is_object k h (k, h') = true.
Proof. intros ->. apply is_object_self. Qed.

Ltac kept :=
  cbn [app List.filter];
  repeat first [ rewrite is_object_same by lia
               | rewrite is_object_other by (first [discriminate | lia]) ];
  cbn [negb].

Ltac on_next_world w tac :=
  rewrite value_bind, exec_bind; cbv beta;
  match goal with |- context [exec ?c w] => tac c end.

(** One command further in [loadMesh]: [A] says where the world [w1] is. *)
Ltac forward w1 A Hres :=
  let A' := fresh "A" in
  let V := fresh "V" in
  let w' := fresh "w" in
  on_next_world w1 ltac:(fun c =>
    lazymatch c with
    | VkBuffer.createBuffer ?sz ?usage ?props ?b ?m =>
        lazymatch type of A with
        | advanced ?n _ _ _ _ =>
            destruct (createBuffer_advances _ _ _ _ _ sz usage props b m A
                        (Hres n ltac:(lia)) (Hres (S n) ltac:(lia))) as (V & A');
            cbv zeta in V, A'; rewrite V; cbn [fst snd]; clear V
        end
    | VkBuffer.copyBuffer ?src ?dst ?sz =>
        lazymatch type of A with
        | advanced ?n _ _ _ _ =>
            pose proof (copyBuffer_advances _ _ _ _ _ src dst sz A (Hres n ltac:(lia))) as A'
        end
    | vkDestroy ?k ?h =>
        pose proof (destroy_advances _ _ _ _ _ k h A) as A';
        specialize (A' ltac:(assumption) ltac:(lia) ltac:(discriminate));
        revert A'; kept; intros A'
    | _ => assert (A' : advanced _ _ _ _ (exec c w1)) by exact A
    end;
    set (w' := exec c w1) in *; clearbody w'; clear A).

(** X18.  When the ten creating commands of [loadMesh] of vk_buffer.cpp
    succeed, the call leaves four more live objects than it found: the vertex
    buffer, the index buffer and the memory of each, which are the ones in the
    mesh it registers under the handle it returns.  The two staging buffers,
    their memory and the two command buffers of the copies are gone again. *)
Theorem loadMesh_releases_its_staging (w : World) (vertexCount count normalCount uvCount : Z) :
  (forall k, (k < 10)%nat -> result_at k w = VK_SUCCESS) ->
  sound (vk w) ->
  let run := VkBuffer.loadMesh vertexCount count normalCount uvCount in
  let f := fresh (vk w) in
  let mesh := {| vertexBuffer := f + 2; indexBuffer := f + 7;
                 vertexMemory := f + 3; indexMemory := f + 8;
                 indexCount := uint32 count |} in
  live (vk (exec run w)) =
    live (vk w) ++ [(KBuffer, f + 2); (KDeviceMemory, f + 3);
                    (KBuffer, f + 7); (KDeviceMemory, f + 8)] /\
  meshes (res (renderer (exec run w))) !! value run w = Some mesh /\
  fresh (vk (exec run w)) = f + 10.
Proof.
  intros Hres Hs. cbv zeta.
  enough (G : forall w0, advanced 0 0 [] w w0 ->
            let run := VkBuffer.loadMesh vertexCount count normalCount uvCount in
            let f := fresh (vk w) in
            live (vk (exec run w0)) =
              live (vk w) ++ [(KBuffer, f + 2); (KDeviceMemory, f + 3);
                              (KBuffer, f + 7); (KDeviceMemory, f + 8)] /\
            meshes (res (renderer (exec run w0))) !! value run w0 =
              Some {| vertexBuffer := f + 2; indexBuffer := f + 7;
                      vertexMemory := f + 3; indexMemory := f + 8;
                      indexCount := uint32 count |} /\
            fresh (vk (exec run w0)) = f + 10).
  { apply G. unfold advanced. rewrite app_nil_r, Z.add_0_r. auto. }
  intros w0 A. cbv zeta.
  unfold VkBuffer.loadMesh, VkBuffer.loadMesh_with, VkBuffer.stage_in. cbv zeta.
  do 13 (match goal with A : advanced _ _ _ w ?w1 |- _ => forward w1 A Hres end).
  match goal with A : advanced _ _ _ w _ |- _ => destruct A as (Hr & _ & Hf & Hl & _) end.
  unfold VkBuffer.LOGI. gsimpl. rewrite Hl, Hf, lookup_insert_eq.
  replace (0 + 2 + 2 + 1 + 2) with 7 by reflexivity.
  replace (0 + 2) with 2 by reflexivity.
  replace (fresh (vk w) + 2 + 1) with (fresh (vk w) + 3) by lia.
  replace (fresh (vk w) + 7 + 1) with (fresh (vk w) + 8) by lia.
  repeat split; reflexivity.
Qed.

(** X18, witness: a mesh of one triangle on the sample renderer. *)
Lemma loadMesh_releases_its_staging_witness :
  let w := sample_ready [] in
  let run := VkBuffer.loadMesh 9 3 0 0 in
  live (vk (exec run w)) =
    live (vk w) ++ [(KBuffer, fresh (vk w) + 2); (KDeviceMemory, fresh (vk w) + 3);
                    (KBuffer, fresh (vk w) + 7); (KDeviceMemory, fresh (vk w) + 8)].
Proof.
  cbv zeta.
  pose proof (loadMesh_releases_its_staging (sample_ready []) 9 3 0 0) as H.
  cbv zeta in H. destruct H as (H & _).
  - intros k Hk. unfold result_at. destruct k; reflexivity.
  - unfold sound. vm_compute. repeat constructor.
  - exact H.
Defined.

(** ** Command buffers across a new swapchain *)

Lemma stays_create (o : ObjKind * Z) (info : CreateInfo) (old : Z) :
  keeps (fun w => In o (live (vk w))) (vkCreate info old).
Proof.
  intros w H. unfold vkCreate. unfold exec, driver. cbn [snd vk fst].
  destruct (next_result (vk w)); cbn [snd live]; [|exact H].
  apply in_or_app. left. exact H.
Qed.

Lemma stays_allocate (o : ObjKind * Z) (pool : Z) (count : nat) (old : list Z) :
  keeps (fun w => In o (live (vk w))) (vkAllocateCommandBuffers pool count old).
Proof.
  intros w H. unfold vkAllocateCommandBuffers. unfold exec, driver. cbn [snd vk fst].
  destruct (next_result (vk w)); cbn [snd live]; [|exact H].
  apply in_or_app. left. exact H.
Qed.

Lemma stays_destroy (o : ObjKind * Z) (k : ObjKind) (h : Z) :
  k <> KCommandPool -> k <> fst o ->
  keeps (fun w => In o (live (vk w))) (vkDestroy k h).
Proof.
  intros Hk Ho w H. unfold vkDestroy, exec, driver, destroy. cbn [snd vk live].
  apply filter_In. split; [exact H|].
  apply negb_true_iff. unfold is_object. apply orb_false_iff. split.
  - apply bool_decide_eq_false. intros ->. apply Ho. reflexivity.
  - apply andb_false_iff. left. apply bool_decide_eq_false. exact Hk.
Qed.

Ltac stays_step :=
  lazymatch goal with
  | |- keeps _ (bind _ _) => apply keeps_bind; [|intros ?]
  | |- keeps _ (ret _) => apply keeps_ret
  | |- keeps _ (for_each _ _) => apply keeps_for_each; intros ?
  | |- keeps _ (if ?b then _ else _) => destruct b
  | |- keeps _ (match ?x with _ => _ end) => destruct x
  | |- keeps _ (vkCreate _ _) => apply stays_create
  | |- keeps _ (vkAllocateCommandBuffers _ _ _) => apply stays_allocate
  | |- keeps _ (vkDestroy _ _) =>
      apply stays_destroy; [discriminate | cbn [fst]; congruence]
  | |- keeps _ ?c =>
      first [ solve [auto with keeps]
            | solve [intros ? H; exact H]
            | let h := head_of c in unfold h ]
  end.

Lemma Native_createImageViews_stays (o : ObjKind * Z) (images : list Z) :
  forall i, keeps (fun w => In o (live (vk w))) (Native.createImageViews images i).
Proof.
  induction images as [|img rest IH]; intros i; cbn [Native.createImageViews].
  - apply keeps_ret.
  - repeat stays_step.
Qed.

Lemma VkSwapchain_createImageViews_stays (o : ObjKind * Z) (images : list Z) :
  forall i, keeps (fun w => In o (live (vk w))) (VkSwapchain.createImageViews images i).
Proof.
  induction images as [|img rest IH]; intros i; cbn [VkSwapchain.createImageViews].
  - apply keeps_ret.
  - repeat stays_step.
Qed.

Lemma createFramebuffers_from_stays (o : ObjKind * Z) (views : list Z) :
  forall i, keeps (fun w => In o (live (vk w))) (Native.createFramebuffers_from views i).
Proof.
  induction views as [|v rest IH]; intros i; cbn [Native.createFramebuffers_from].
  - apply keeps_ret.
  - repeat stays_step.
Qed.

#[local] Hint Resolve Native_createImageViews_stays VkSwapchain_createImageViews_stays
  createFramebuffers_from_stays : keeps.

(** X19.  No command buffer is freed when the swapchain is made again: a
    command buffer that is live before [recreateSwapchain], of either file, or
    before [setSurface], is live after it, whatever the results of the commands
    in between.  [setSurface] and [recreateSwapchain] of
    vulkan_renderer_native.cpp allocate the command buffers of the new
    swapchain on top of them. *)
Theorem recreateSwapchain_frees_no_command_buffer (w : World) (pool h window wd ht : Z) :
  let stays (c : M unit) :=
    In (KCommandBuffer pool, h) (live (vk w)) ->
    In (KCommandBuffer pool, h) (live (vk (exec c w))) in
  stays Native.recreateSwapchain /\
  stays VkSwapchain.recreateSwapchain /\
  stays (Native.setSurface window wd ht).
Proof.
  cbv zeta.
  assert (K1 : keeps (fun w => In (KCommandBuffer pool, h) (live (vk w)))
                 Native.recreateSwapchain) by (repeat stays_step).
  assert (K2 : keeps (fun w => In (KCommandBuffer pool, h) (live (vk w)))
                 VkSwapchain.recreateSwapchain) by (repeat stays_step).
  assert (K3 : keeps (fun w => In (KCommandBuffer pool, h) (live (vk w)))
                 (Native.setSurface window wd ht)) by (repeat stays_step).
  repeat split; intros H; [apply K1 | apply K2 | apply K3]; exact H.
Qed.

(** ** Handles on their way through Java *)

Lemma jlong_round_trip (h : Z) :
  0 <= h < 2 ^ 64 ->
  - 2 ^ 63 <= JNI.jlong_of_uint64 h < 2 ^ 63 /\
  JNI.uint64_of_jlong (JNI.jlong_of_uint64 h) = h /\
  (JNI.jlong_of_uint64 h < 0 <-> 2 ^ 63 <= h).
Proof.
  intros Hh. unfold JNI.jlong_of_uint64, JNI.uint64_of_jlong.
  change (2 ^ 64) with 18446744073709551616 in *.
  change (2 ^ 63) with 9223372036854775808 in *.
  destruct (Z_lt_ge_dec h 9223372036854775808) as [Hl|Hg].
  - rewrite (Z.mod_small (h + _)) by lia.
    replace (h + 9223372036854775808 - 9223372036854775808) with h by lia.
    rewrite Z.mod_small by lia. lia.
  - assert (E : (h + 9223372036854775808) mod 18446744073709551616
                = h - 9223372036854775808).
    { symmetry. apply (Z.mod_unique _ _ 1); lia. }
    rewrite E.
    assert (E' : (h - 9223372036854775808 - 9223372036854775808) mod 18446744073709551616
                 = h).
    { symmetry. apply (Z.mod_unique _ _ (-1)); lia. }
    rewrite E'. lia.
Qed.

(** X20.  The handle of a mesh survives its way through Java: [nativeLoadMesh]
    returns the handle that [loadMesh] of vk_buffer.cpp gave as a [jlong], a
    negative one from 2^63 on, and the [uint64_t] that a native function gets
    when Java passes this [jlong] back is the handle under which the mesh is
    registered. *)
Theorem nativeLoadMesh_handle_round_trip (w : World)
    (vertexCount count normalCount uvCount : Z) :
  0 <= nextResourceId (res (renderer w)) < 2 ^ 64 ->
  let run := JNI.nativeLoadMesh_with VkBuffer.loadMesh vertexCount count normalCount uvCount in
  let j := value run w in
  - 2 ^ 63 <= j < 2 ^ 63 /\
  (j < 0 <-> 2 ^ 63 <= nextResourceId (res (renderer w))) /\
  JNI.uint64_of_jlong j = nextResourceId (res (renderer w)) /\
  is_Some (meshes (res (renderer (exec run w))) !! JNI.uint64_of_jlong j).
Proof.
  intros Hn. cbv zeta. unfold JNI.nativeLoadMesh_with.
  rewrite value_bind, exec_bind. cbv beta.
  destruct (loadMesh_registers vertexCount count normalCount uvCount w)
    as (Hv & (mesh & Hm & _) & _).
  rewrite Hv. unfold ret. change (value (fun w0 : World => (?a, w0)) ?w1) with a.
  change (exec (fun w0 : World => (?a, w0)) ?w1) with w1. destruct (jlong_round_trip _ Hn) as (Hr & Hb & Hs).
  split; [exact Hr|]. split; [exact Hs|]. split; [exact Hb|].
  rewrite Hb, Hm, lookup_insert_eq. eexists. reflexivity.
Qed.

(** X20, witness: the first mesh of a renderer. *)
Lemma nativeLoadMesh_handle_round_trip_witness :
  JNI.uint64_of_jlong (value (JNI.nativeLoadMesh_with VkBuffer.loadMesh 9 3 0 0)
                         (sample_ready [])) = 1.
Proof.
  pose proof (nativeLoadMesh_handle_round_trip (sample_ready []) 9 3 0 0) as H.
  cbv zeta in H. destruct H as (_ & _ & H & _).
  - vm_compute. split; [intros ?; discriminate | reflexivity].
  - rewrite H. reflexivity.
Defined.
